(** * helpers/benchmark.py: log-file parsing and table cleaning

    A shallow embedding of [helpers/benchmark.py] and the properties of
    its five functions: [parse_log_file], [metric_for_benchmark],
    [trim_on_benchmark], [filter_full_lifecycle] and
    [load_records_from_directory].

    The program is Python.  Its values are embedded as the inductive type
    [pyval]; a raised exception is the [Raise] case of [result]; text
    written by [print] is collected as a list of [diag] events; a
    [DataFrame] lives in a store of objects addressed by references. *)

From Stdlib Require Import ZArith QArith Qcanon Qround Qabs Qpower String Ascii
  DecimalString.
From stdpp Require Import gmap strings list fin_maps sorting.

Set Warnings "-register-all".
#[local] Open Scope string_scope.
#[local] Open Scope Z_scope.
#[local] Open Scope list_scope.
#[local] Open Scope stdpp_scope.

(** ** Python values *)

(** A binary64 float.  A finite float is represented by the rational number
    it denotes: Python compares a float with an int exactly, and where the
    program rounds a number to a float the rounding is written out. *)
Inductive pyfloat :=
| FNaN
| FInf (negative : bool)
| FFin (q : Q).

(** [datetime.datetime]: the wall-clock reading in microseconds and, for an
    aware value, its UTC offset in microseconds. *)
Record datetime := Datetime { dt_wall : Z; dt_utcoffset : option Z }.

(** What [json.loads] can return (a JSON object has string keys), and the
    [datetime] that [parse_log_file] stores in a record. *)
Inductive pyval :=
| PNone
| PBool (b : bool)
| PInt (z : Z)
| PFloat (f : pyfloat)
| PStr (s : string)
| PList (l : list pyval)
| PDict (d : gmap string pyval)
| PDatetime (t : datetime).

Inductive exn :=
| JSONDecodeError
| KeyError (key : string)
| TypeError
| ValueError
| AttributeError
| OverflowError
| RecursionError
| OSError.

(** The outcome of evaluating a Python expression. *)
Inductive result (A : Type) :=
| Ok (a : A)
| Raise (e : exn).
Arguments Ok {A} a.
Arguments Raise {A} e.

#[global] Instance result_ret : MRet result := @Ok.
#[global] Instance result_bind : MBind result := λ A B f r,
  match r with Ok a => f a | Raise e => Raise e end.
#[global] Instance result_fmap : FMap result := λ A B f r,
  match r with Ok a => Ok (f a) | Raise e => Raise e end.

Definition is_Ok {A} (r : result A) : Prop := ∃ a, r = Ok a.

#[global] Instance is_Ok_dec {A} (r : result A) : Decision (is_Ok r).
Proof.
  refine (match r with Ok a => left _ | Raise e => right _ end);
    [by exists a | by intros [a ?]].
Defined.

(** ** Strings *)

Definition ascii_lower (c : ascii) : ascii :=
  let n := nat_of_ascii c in
  if ((65 <=? n) && (n <=? 90))%nat then ascii_of_nat (n + 32) else c.

(** [str.lower] on ASCII text; other bytes are kept. *)
Fixpoint str_lower (s : string) : string :=
  match s with
  | EmptyString => EmptyString
  | String c s' => String (ascii_lower c) (str_lower s')
  end.

(** [s.replace(c, by)] for a one-character pattern [c]. *)
Fixpoint str_replace (c : ascii) (by_ : string) (s : string) : string :=
  match s with
  | EmptyString => EmptyString
  | String a s' =>
      if Ascii.eqb a c then by_ +:+ str_replace c by_ s'
      else String a (str_replace c by_ s')
  end.

(** [sub in s] for two strings. *)
Fixpoint str_contains (sub s : string) : bool :=
  String.prefix sub s ||
  match s with
  | EmptyString => false
  | String _ s' => str_contains sub s'
  end.

(** [s.endswith(suffix)]. *)
Definition str_endswith (s suffix : string) : bool :=
  let n := String.length s in
  let k := String.length suffix in
  (k <=? n)%nat && String.eqb (substring (n - k) k s) suffix.

(** [s.split(sep)] for a one-character separator. *)
Fixpoint str_split (sep : ascii) (s : string) : list string :=
  match s with
  | EmptyString => [EmptyString]
  | String c s' =>
      if Ascii.eqb c sep then EmptyString :: str_split sep s'
      else match str_split sep s' with
           | h :: t => String c h :: t
           | [] => [String c EmptyString]
           end
  end.

(** The blanks that [int] passes over at the ends of an ASCII text: the
    characters from tab to carriage return, and the space. *)
Definition is_space (c : ascii) : bool :=
  let n := nat_of_ascii c in
  ((9 <=? n) && (n <=? 13) || (n =? 32))%nat.

(** A text of ASCII characters only. *)
Fixpoint is_ascii (s : string) : bool :=
  match s with
  | EmptyString => true
  | String c s' => (nat_of_ascii c <? 128)%nat && is_ascii s'
  end.

Fixpoint lstrip (s : string) : string :=
  match s with
  | String c s' => if is_space c then lstrip s' else s
  | EmptyString => EmptyString
  end.

Definition strip (s : string) : string :=
  String.rev (lstrip (String.rev (lstrip s))).

Definition digit_of (c : ascii) : option Z :=
  let n := nat_of_ascii c in
  if ((48 <=? n) && (n <=? 57))%nat then Some (Z.of_nat (n - 48)) else None.

(** The digits of an integer literal; a single underscore may stand between
    two digits. *)
Fixpoint parse_digits (s : string) (acc : Z) (after_digit : bool) : option Z :=
  match s with
  | EmptyString => if after_digit then Some acc else None
  | String c s' =>
      match digit_of c with
      | Some d => parse_digits s' (10 * acc + d) true
      | None =>
          if Ascii.eqb c "_" && after_digit then parse_digits s' acc false
          else None
      end
  end.

(** The default of [sys.get_int_max_str_digits()]: a text with more digits
    is refused. *)
Definition max_str_digits : nat := 4300.

Fixpoint count_digits (s : string) : nat :=
  match s with
  | EmptyString => 0
  | String c s' =>
      (match digit_of c with Some _ => 1 | None => 0 end + count_digits s')%nat
  end.

(** [int(s)] for an ASCII string [s], base 10; [None] stands for
    [ValueError]. *)
Definition int_of_str (s : string) : option Z :=
  if (max_str_digits <? count_digits s)%nat then None
  else
    match strip s with
    | String "-" s' => Z.opp <$> parse_digits s' 0 false
    | String "+" s' => parse_digits s' 0 false
    | s' => parse_digits s' 0 false
    end.

(** ** Built-in operations on values *)

(** [v[k]] with a string subscript. *)
Definition py_getitem (v : pyval) (k : string) : result pyval :=
  match v with
  | PDict d => match d !! k with Some x => Ok x | None => Raise (KeyError k) end
  | _ => Raise TypeError
  end.

(** [v.get(k, dflt)]: only a dict has the method. *)
Definition py_get (v : pyval) (k : string) (dflt : pyval) : result pyval :=
  match v with
  | PDict d => Ok (default dflt (d !! k))
  | _ => Raise AttributeError
  end.

(** [v.replace(c, by)]: only a [str] has the method. *)
Definition py_replace (v : pyval) (c : ascii) (by_ : string) : result string :=
  match v with
  | PStr s => Ok (str_replace c by_ s)
  | _ => Raise AttributeError
  end.

Definition float_truthy (f : pyfloat) : bool :=
  match f with
  | FFin q => negb (Qeq_bool q 0)
  | _ => true
  end.

(** Truth value of an object, as [and] and [if] test it. *)
Definition py_truthy (v : pyval) : bool :=
  match v with
  | PNone => false
  | PBool b => b
  | PInt z => negb (z =? 0)
  | PFloat f => float_truthy f
  | PStr s => negb (String.eqb s "")
  | PList l => match l with [] => false | _ => true end
  | PDict d => negb (bool_decide (d = ∅))
  | PDatetime _ => true
  end.

(** [f >= n] and [f <= n] for a float and an int. *)
Definition float_ge_int (f : pyfloat) (n : Z) : bool :=
  match f with
  | FNaN => false
  | FInf negative => negb negative
  | FFin q => Qle_bool (inject_Z n) q
  end.

Definition float_le_int (f : pyfloat) (n : Z) : bool :=
  match f with
  | FNaN => false
  | FInf negative => negative
  | FFin q => Qle_bool q (inject_Z n)
  end.

(** [v >= n] for an int constant [n]. *)
Definition py_ge_int (v : pyval) (n : Z) : result bool :=
  match v with
  | PBool b => Ok (n <=? Z.b2z b)
  | PInt z => Ok (n <=? z)
  | PFloat f => Ok (float_ge_int f n)
  | _ => Raise TypeError
  end.

(** [v <= n] for an int constant [n]. *)
Definition py_le_int (v : pyval) (n : Z) : result bool :=
  match v with
  | PBool b => Ok (Z.b2z b <=? n)
  | PInt z => Ok (z <=? n)
  | PFloat f => Ok (float_le_int f n)
  | _ => Raise TypeError
  end.

(** [v == s] for a string constant [s]. *)
Definition py_eq_str (v : pyval) (s : string) : bool :=
  match v with
  | PStr s' => String.eqb s' s
  | _ => false
  end.

(** [s in v] for a string constant [s]: substring of a [str], element of a
    list, key of a dict. *)
Definition py_contains (s : string) (v : pyval) : result bool :=
  match v with
  | PStr s' => Ok (str_contains s s')
  | PList l => Ok (existsb (λ x, py_eq_str x s) l)
  | PDict d => Ok (bool_decide (is_Some (d !! s)))
  | _ => Raise TypeError
  end.

Definition str_of_Z (z : Z) : string :=
  DecimalString.NilZero.string_of_int (Z.to_int z).

(** ** Diagnostics and the monad of [parse_log_file] *)

(** One event per [print] call of the program, with the values the message
    is formatted from. *)
Inductive diag :=
| InvalidMetadata (benchmark_file : string)
| UnknownAMDFrequency (cpu_frequency_mhz : pyval)
| UnknownProvider (provider benchmark_file : string)
| LineError (benchmark_file : string) (e : exn).

(** A computation that prints and then returns or raises. *)
Record io (A : Type) := IO { output : list diag; outcome : result A }.
Arguments IO {A} output outcome.
Arguments output {A} i.
Arguments outcome {A} i.

#[global] Instance io_ret : MRet io := λ A a, IO [] (Ok a).
#[global] Instance io_bind : MBind io := λ A B f m,
  match outcome m with
  | Ok a => IO (output m ++ output (f a)) (outcome (f a))
  | Raise e => IO (output m) (Raise e)
  end.

Definition print (d : diag) : io unit := IO [d] (Ok tt).
Definition lift {A} (r : result A) : io A := IO [] r.
Arguments io_bind : simpl never.
Arguments print : simpl never.
Arguments lift : simpl never.

(** A record: a Python dict with string keys. *)
Abbreviation record := (gmap string pyval).

(** The metadata of a file, lines 31 to 38. *)
Record metadata := Metadata {
  meta_timestamp : datetime;
  meta_provider : string;
  meta_region : pyval;
  meta_memory : Z;
  meta_function : pyval;
  meta_parallel : Z;
  meta_iterations : Z;
  meta_retries : Z }.

Definition GCP_CPU_MAPPING : gmap string string :=
  list_to_map
    [("1", "Model 1 (AMD)"); ("17", "Model 17 (AMD)");
     ("85", "Model 85 (Intel)"); ("106", "Model 106 (Intel)");
     ("143", "Model 143 (Intel)"); ("173", "Model 173 (Intel)")].

(** [freq and freq >= lo and freq <= hi], as a condition. *)
Definition in_band (freq : pyval) (lo hi : Z) : result bool :=
  if py_truthy freq then
    ge ← py_ge_int freq lo;
    if ge : bool then py_le_int freq hi else mret false
  else mret false.

(** Lines 65 to 71: the label of an AMD processor on AWS. *)
Definition aws_amd_cpu_field (cpu_frequency_mhz : pyval) : io pyval :=
  b265 ← lift (in_band cpu_frequency_mhz 2640 2660);
  if b265 : bool then mret (PStr "AMD EPYC 2.65GHz")
  else
    b225 ← lift (in_band cpu_frequency_mhz 2240 2260);
    if b225 : bool then mret (PStr "AMD EPYC 2.25GHz")
    else
      print (UnknownAMDFrequency cpu_frequency_mhz);;
      mret (PStr "AMD EPYC unknown").

(** Lines 120 to 138: the fields of the benchmark type. *)
Definition benchmark_fields (benchmark : pyval) (rec : record) : result record :=
  ty ← py_get benchmark "type" PNone;
  if py_eq_str ty "gemm" then
    matrix_size ← py_get benchmark "matrixSize" PNone;
    multiplication_time_ms ← py_get benchmark "multiplicationTimeMs" PNone;
    mret (<["multiplication_time_ms" := multiplication_time_ms]>
            (<["matrix_size" := matrix_size]> rec))
  else if py_eq_str ty "aesCtr" then
    key_size ← py_get benchmark "keySize" PNone;
    encrypt_size_mb ← py_get benchmark "encryptSizeMB" PNone;
    encrypt_time_ms ← py_get benchmark "encryptTimeMs" PNone;
    mret (<["encrypt_time_ms" := encrypt_time_ms]>
            (<["encrypt_size_mb" := encrypt_size_mb]>
               (<["key_size" := key_size]> rec)))
  else if py_eq_str ty "gzip" then
    compress_size_mb ← py_get benchmark "compressSizeMB" PNone;
    compress_time_ms ← py_get benchmark "compressTimeMS" PNone;
    mret (<["compress_time_ms" := compress_time_ms]>
            (<["compress_size_mb" := compress_size_mb]> rec))
  else if py_eq_str ty "sha256" then
    hash_size_mb ← py_get benchmark "hashSizeMB" PNone;
    hash_time_ms ← py_get benchmark "hashTimeMs" PNone;
    mret (<["hash_time_ms" := hash_time_ms]>
            (<["hash_size_mb" := hash_size_mb]> rec))
  else if py_eq_str ty "json" then
    json_time_ms ← py_get benchmark "jsonTimeMs" PNone;
    mret (<["json_time_ms" := json_time_ms]> rec)
  else mret rec.

(** Lines 106 to 115: the request id of the provider. *)
Definition request_id_field (provider benchmark_file : string)
    (header : pyval) (rec : record) : io record :=
  if (provider =? "azure")%string then
    v ← lift (py_get header "azure-invocation-id" (PStr "unknown"));
    mret (<["azure_invocation_id" := v]> rec)
  else if (provider =? "gcp")%string then
    v ← lift (py_get header "function-execution-id" (PStr "unknown"));
    mret (<["gcp_execution_id" := v]> rec)
  else if (provider =? "aws")%string then
    v ← lift (py_get header "aws-request-id" (PStr "unknown"));
    mret (<["aws_request_id" := v]> rec)
  else if (provider =? "alibaba")%string then
    v ← lift (py_get header "ali-request-id" (PStr "unknown"));
    mret (<["alibaba_request_id" := v]> rec)
  else
    print (UnknownProvider provider benchmark_file);;
    mret rec.

(** Lines 157 to 164. *)
Definition metric_for_benchmark (benchmark_type : string) : string :=
  let mapping : gmap string string :=
    list_to_map
      [("gemm", "multiplication_time_ms"); ("aesCtr", "encrypt_time_ms");
       ("gzip", "compress_time_ms"); ("sha256", "hash_time_ms");
       ("json", "json_time_ms")] in
  default "runtime_ms" (mapping !! benchmark_type).

Section Extractor.

(** The library functions and the collaborator that the module imports.
    [json_loads] is [json.loads], which returns a value or raises:
    [JSONDecodeError] for a text that is not JSON, and also
    [RecursionError] or [ValueError] for a text nested or a number written
    beyond its limits; [fromisoformat] is [datetime.fromisoformat], [None]
    standing for [ValueError]; [lower_text] is [str.lower] and [int_text]
    is [int], [None] standing for [ValueError], on a text that is not
    ASCII; [readlines] opens a path and reads its lines;
    [shorten_cpu_name] is the function of [helpers.cpus]; [py_repr] is
    the text that [str] gives for a float, a container or a datetime. *)
Variable json_loads : string → result pyval.
Variable fromisoformat : string → option datetime.
Variable lower_text : string → string.
Variable int_text : string → option Z.
Variable readlines : string → result (list string).
Variable shorten_cpu_name : pyval → result pyval.
Variable py_repr : pyval → string.

Definition loads (line : string) : result pyval := json_loads line.

(** [v.lower()]: only a [str] has the method.  On an ASCII text it lowers
    the capitals.  Any other text goes through the mapping of the library;
    what [str.lower] returns holds no ASCII capital, so lowering the
    capitals of it changes nothing. *)
Definition py_lower (v : pyval) : result string :=
  match v with
  | PStr s => Ok (str_lower (if is_ascii s then s else lower_text s))
  | _ => Raise AttributeError
  end.

(** [int(s)] for a text [s]. *)
Definition int_of_text (s : string) : option Z :=
  if is_ascii s then int_of_str s else int_text s.

(** [int(v)]. *)
Definition py_int (v : pyval) : result Z :=
  match v with
  | PBool b => Ok (Z.b2z b)
  | PInt z => Ok z
  | PFloat FNaN => Raise ValueError
  | PFloat (FInf _) => Raise OverflowError
  | PFloat (FFin q) => Ok (Z.quot (Qnum q) (Z.pos (Qden q)))
  | PStr s => match int_of_text s with Some z => Ok z | None => Raise ValueError end
  | _ => Raise TypeError
  end.

(** [str(v)], which is also what an f-string inserts for [{v}]. *)
Definition py_str (v : pyval) : string :=
  match v with
  | PNone => "None"
  | PBool true => "True"
  | PBool false => "False"
  | PInt z => str_of_Z z
  | PStr s => s
  | _ => py_repr v
  end.

(** Lines 31 to 38.  They stand outside every [try]. *)
Definition extract_metadata (meta : pyval) : result metadata :=
  ts ← py_getitem meta "timestamp";
  iso ← py_replace ts "Z" "+00:00";
  timestamp ← match fromisoformat iso with
              | Some t => Ok t
              | None => Raise ValueError
              end;
  provider ← py_get meta "provider" (PStr "unknown") ≫= py_lower;
  region ← py_get meta "region" (PStr "unknown");
  memory ← py_get meta "memorySize" (PStr "unknown") ≫= py_int;
  function ← py_get meta "function" (PStr "unknown");
  parallel ← py_get meta "parallel-requests" (PInt 0) ≫= py_int;
  iterations ← py_get meta "iterationsPerBenchmark" (PInt 0) ≫= py_int;
  retries ← py_get meta "retries" (PInt 0) ≫= py_int;
  mret (Metadata timestamp provider region memory function
          parallel iterations retries).

(** Lines 50 to 62: the label of a processor on GCP. *)
Definition gcp_cpu_field (body : pyval) : result pyval :=
  model ← py_get body "cpuModel" (PStr "unknown");
  mret (PStr (default ("Model " +:+ py_str model +:+ " (Unknown)")
                (GCP_CPU_MAPPING !! py_str model))).

(** Lines 46 to 71: the processor label before it is shortened. *)
Definition resolve_cpu_field (provider : string) (body : pyval) : io pyval :=
  cpu_field ← lift (py_get body "cpuType" (PStr "unknown"));
  cpu_frequency_mhz ← lift (py_get body "cpuFrequencyMHz" PNone);
  cpu_field ← (if (provider =? "gcp")%string then lift (gcp_cpu_field body)
               else mret cpu_field);
  amd ← lift (py_contains "AMD" cpu_field);
  if amd && (provider =? "aws")%string
  then aws_amd_cpu_field cpu_frequency_mhz
  else mret cpu_field.

(** Lines 73 to 103: the dict literal. *)
Definition common_fields (m : metadata) (body benchmark : pyval)
    (cpu_field : pyval) : result record :=
  cpu_type ← shorten_cpu_name cpu_field;
  cpu_model_number ← py_get body "cpuModel" (PStr "unknown");
  runtime_ms ← py_get body "runtime" PNone;
  user_runtime_ms ← py_get body "userRuntime" PNone;
  framework_runtime_ms ← py_get body "frameworkRuntime" PNone;
  container_id ← py_get body "containerID" (PStr "unknown");
  new_container ← py_get body "newcontainer" PNone;
  invocation_count ← py_get body "invocationCount" PNone;
  instance_id ← py_get body "instanceId" (PStr "unknown");
  uuid ← py_get body "uuid" (PStr "unknown");
  benchmark_type ← py_get benchmark "type" (PStr "unknown");
  flags ← py_get body "cpuFlags" (PList []);
  cpu_frequency ← py_get body "cpuFrequencyMHz" PNone;
  mret (list_to_map
    [("timestamp", PDatetime (meta_timestamp m));
     ("provider", PStr (meta_provider m));
     ("region", meta_region m);
     ("function", meta_function m);
     ("memory_size_mb", PInt (meta_memory m));
     ("parallel_requests", PInt (meta_parallel m));
     ("iterations_per_benchmark", PInt (meta_iterations m));
     ("retries", PInt (meta_retries m));
     ("cpu_type", cpu_type);
     ("cpu_model_number", cpu_model_number);
     ("runtime_ms", runtime_ms);
     ("user_runtime_ms", user_runtime_ms);
     ("framework_runtime_ms", framework_runtime_ms);
     ("container_id", container_id);
     ("new_container", new_container);
     ("invocation_count", invocation_count);
     ("instance_id", instance_id);
     ("uuid", uuid);
     ("benchmark_type", benchmark_type);
     ("flags", flags);
     ("cpu_frequency", cpu_frequency)]).

(** Lines 43 to 138: the body of the [try] block up to the record that
    line 141 appends. *)
Definition build_record (benchmark_file : string) (m : metadata)
    (line : string) : io record :=
  data ← lift (loads line);
  body ← lift (py_getitem data "body");
  benchmark ← lift (py_get body "benchmark" (PDict ∅));
  cpu_field ← resolve_cpu_field (meta_provider m) body;
  rec ← lift (common_fields m body benchmark cpu_field);
  header ← lift (py_get data "header" (PDict ∅));
  rec ← request_id_field (meta_provider m) benchmark_file header rec;
  lift (benchmark_fields benchmark rec).

(** Lines 42 and 141 to 148: one turn of the loop.  [JSONDecodeError] is
    passed over in silence, any other exception is printed. *)
Definition try_line (benchmark_file : string) (attempt : io record)
    (records : list record) : io (list record) :=
  match outcome attempt with
  | Ok rec => IO (output attempt) (Ok (records ++ [rec]))
  | Raise JSONDecodeError => IO (output attempt) (Ok records)
  | Raise e => IO (output attempt ++ [LineError benchmark_file e]) (Ok records)
  end.

(** Line 41: the loop over [lines[1:]]. *)
Fixpoint parse_lines (benchmark_file : string) (m : metadata)
    (lines : list string) (records : list record) : io (list record) :=
  match lines with
  | [] => mret records
  | line :: rest =>
      records ← try_line benchmark_file
                  (build_record benchmark_file m line) records;
      parse_lines benchmark_file m rest records
  end.

(** Lines 10 to 150. *)
Definition parse_log_file (benchmark_file : string) : io (list record) :=
  lines ← lift (readlines benchmark_file);
  match lines with
  | [] => mret []
  | first :: rest =>
      match json_loads first with
      | Raise JSONDecodeError => print (InvalidMetadata benchmark_file);; mret []
      | Raise e => lift (Raise e)
      | Ok meta =>
          m ← lift (extract_metadata meta);
          parse_lines benchmark_file m rest []
      end
  end.

(** The record that one line contributes: the one [build_record] returns,
    and none when it raises. *)
Definition built_record (benchmark_file : string) (m : metadata)
    (line : string) : option record :=
  match outcome (build_record benchmark_file m line) with
  | Ok rec => Some rec
  | Raise _ => None
  end.

(** What one turn of the loop prints. *)
Definition line_output (benchmark_file : string) (m : metadata)
    (line : string) : list diag :=
  output (try_line benchmark_file (build_record benchmark_file m line) []).

(** [benchmark.get("type")] of a line, when the line has a benchmark. *)
Definition benchmark_type_of (line : string) : option pyval :=
  match data ← loads line;
        body ← py_getitem data "body";
        benchmark ← py_get body "benchmark" (PDict ∅);
        py_get benchmark "type" PNone with
  | Ok ty => Some ty
  | Raise _ => None
  end.

(** [data["body"]] of a line. *)
Definition body_of (line : string) : option pyval :=
  match data ← loads line; py_getitem data "body" with
  | Ok body => Some body
  | Raise _ => None
  end.


End Extractor.

(** ** Tables

    A [DataFrame] is modelled by its column labels and its rows in order;
    a row is the mapping from the labels to the cells it holds, and a label
    it does not hold is a missing cell (NaN).  Rows are identified by their
    position: every table of this module has a unique index. *)

Record DataFrame := { columns : gset string; rows : list record }.

Definition NaN : pyval := PFloat FNaN.

Definition cell (r : record) (c : string) : pyval := default NaN (r !! c).

(** [pd.DataFrame(records)] for a list of dicts. *)
Definition pd_DataFrame (records : list record) : DataFrame :=
  {| columns := ⋃ (dom <$> records); rows := records |}.

(** [df[c]] for a label [c]. *)
Definition column (d : DataFrame) (c : string) : result (list pyval) :=
  if decide (c ∈ columns d) then Ok ((λ r, cell r c) <$> rows d)
  else Raise (KeyError c).

(** The value of a cell as a grouping key: the class of the values that
    Python's [==] and [hash] identify.  A number is its rational value, an
    aware datetime its instant. *)
Inductive hkey :=
| HNum (q : Qc)
| HInf (negative : bool)
| HStr (s : string)
| HNaive (wall : Z)
| HAware (instant : Z).

#[global] Instance Qc_eq_decision : EqDecision Qc := Qc_eq_dec.
#[global] Instance hkey_eq_decision : EqDecision hkey.
Proof. solve_decision. Defined.

(** The key of a cell: [None] for a missing value ([None], NaN), which
    [groupby] leaves out of every group; a list or a dict is unhashable. *)
Definition hash_key (v : pyval) : result (option hkey) :=
  match v with
  | PNone => Ok None
  | PFloat FNaN => Ok None
  | PBool b => Ok (Some (HNum (Q2Qc (inject_Z (Z.b2z b)))))
  | PInt z => Ok (Some (HNum (Q2Qc (inject_Z z))))
  | PFloat (FFin q) => Ok (Some (HNum (Q2Qc q)))
  | PFloat (FInf negative) => Ok (Some (HInf negative))
  | PStr s => Ok (Some (HStr s))
  | PDatetime t =>
      Ok (Some match dt_utcoffset t with
               | None => HNaive (dt_wall t)
               | Some offset => HAware (dt_wall t - offset)
               end)
  | PList _ | PDict _ => Raise TypeError
  end.

(** The key of a row under [groupby(by)]: missing when one of its parts is. *)
Fixpoint row_key (by_ : list string) (r : record) : result (option (list hkey)) :=
  match by_ with
  | [] => Ok (Some [])
  | c :: by' =>
      k ← hash_key (cell r c);
      ks ← row_key by' r;
      mret (k' ← k; ks' ← ks; Some (k' :: ks'))
  end.

Section Groupby.
Context {K : Type} `{EqDecision K}.

(** The positions of the rows with key [k]. *)
Definition positions (k : K) (keys : list (option K)) : list nat :=
  filter (λ i, keys !! i = Some (Some k)) (seq 0 (length keys)).

(** [groupby]: the distinct keys, each with the positions of its rows.
    pandas sorts the groups by key; nothing below depends on their order. *)
Definition groupby (keys : list (option K)) : list (K * list nat) :=
  (λ k, (k, positions k keys)) <$> remove_dups (omap id keys).

(** The values of a series at some positions. *)
Definition take {A} (idxs : list nat) (series : list A) : list A :=
  omap (λ i, series !! i) idxs.

(** [groupby(...)[c].transform(func)]: [func] is applied to the values of
    each group, the results are concatenated and put back at the positions
    of their rows; a row outside every group gets a missing value.  When
    there is no group at all the result is an empty series. *)
Definition transform {A B} (keys : list (option K)) (series : list A)
    (func : list A → list B) : list (option B) :=
  let results : list (nat * B) :=
    '(k, idxs) ← groupby keys; zip idxs (func (take idxs series)) in
  match groupby keys with
  | [] => []
  | _ => (λ i, (list_to_map results : gmap nat B) !! i) <$> seq 0 (length keys)
  end.
End Groupby.

(** [df[mask]] for the series that [transform] returns: a series with a
    missing value is refused as a mask; an empty series selects no column,
    which leaves every row without cells. *)
Definition getitem_mask (d : DataFrame) (mask : list (option bool)) : result DataFrame :=
  match mask with
  | [] => Ok {| columns := ∅; rows := (λ _, ∅) <$> rows d |}
  | _ =>
      match mapM id mask with
      | Some bs => Ok {| columns := columns d;
                         rows := (zip (rows d) bs) ≫= (λ '(r, b), if b : bool then [r] else []) |}
      | None => Raise ValueError
      end
  end.

(** [df[mask]] for a boolean series. *)
Definition getitem_bool (d : DataFrame) (mask : list bool) : DataFrame :=
  {| columns := columns d;
     rows := (zip (rows d) mask) ≫= (λ '(r, b), if b : bool then [r] else []) |}.

(** The integer nearest to [q], and the even one of two that are as near. *)
Definition round_half_even (q : Q) : Z :=
  let f := Qfloor q in
  match Qcompare (q - inject_Z f) (1 # 2) with
  | Lt => f
  | Gt => f + 1
  | Eq => if Z.even f then f else f + 1
  end.

(** The exponent [e] with [2^e <= |q| < 2^(e+1)], for [q] other than 0. *)
Definition exponent (q : Q) : Z :=
  let e := Z.log2 (Z.abs (Qnum q)) - Z.log2 (Z.pos (Qden q)) in
  if Qle_bool (Qpower 2 e) (Qabs q) then e else e - 1.

(** The binary64 float nearest to [q]: 53 significant bits, the smallest
    step [2^-1074], ties to the even significand, and infinity from
    [2^1024] on. *)
Definition binary64 (q : Q) : pyfloat :=
  if Qeq_bool q 0 then FFin 0
  else
    let ulp := Qpower 2 (Z.max (exponent q - 52) (-1074)) in
    let r := Qred (inject_Z (round_half_even (q / ulp)) * ulp) in
    if Qle_bool (Qpower 2 1024) (Qabs r) then FInf (Qnum q <? 0) else FFin r.

(** An integer of 64 bits. *)
Definition int64 (z : Z) : bool := (- 2 ^ 63 <=? z) && (z <? 2 ^ 63).

(** A metric cell as a float: an integer is rounded to the nearest float,
    which is how a column of integers is compared with a float and how a
    column of floats holds an integer.  An integer beyond 64 bits makes a
    column of objects, which this model does not cover: it is given as an
    error. *)
Definition to_float (v : pyval) : result pyfloat :=
  match v with
  | PNone => Ok FNaN
  | PInt z => if int64 z then Ok (binary64 (inject_Z z)) else Raise OverflowError
  | PFloat f => Ok f
  | _ => Raise TypeError
  end.

Definition float_of (v : pyval) : pyfloat :=
  match to_float v with
  | Ok x => x
  | Raise _ => FNaN
  end.

Definition is_int64 (v : pyval) : bool :=
  match v with
  | PInt z => int64 z
  | _ => false
  end.

(** The cells of a numeric column as the column holds them: a column whose
    cells are all integers has the dtype int64 and holds them as they are;
    with a float or a missing value among the cells the dtype is float64,
    and every cell is held as a float. *)
Definition numeric (cells : list pyval) : result (list pyval) :=
  if forallb is_int64 cells then Ok cells
  else mapM (λ v, x ← to_float v; mret (PFloat x)) cells.

Definition is_nan (f : pyfloat) : bool :=
  match f with FNaN => true | _ => false end.

(** [x <= y] on floats. *)
Definition float_le (x y : pyfloat) : bool :=
  match x, y with
  | FNaN, _ | _, FNaN => false
  | FInf true, _ => true
  | _, FInf false => true
  | FFin a, FFin b => Qle_bool a b
  | _, _ => false
  end.

(** [v > n] on a cell of a column: a missing value compares false. *)
Definition cell_gt_int (v : pyval) (n : Z) : result bool :=
  match v with
  | PNone => Ok false
  | PBool b => Ok (n <? Z.b2z b)
  | PInt z => Ok (n <? z)
  | PFloat f => Ok (negb (is_nan f) && negb (float_le_int f n))
  | _ => Raise TypeError
  end.

(** [series.isin(values)]. *)
Definition isin (v : pyval) (values : list hkey) : bool :=
  match hash_key v with
  | Ok (Some k) => bool_decide (k ∈ values)
  | _ => false
  end.

(** ** The store of tables *)

Abbreviation loc := positive.
Abbreviation heap := (gmap positive DataFrame).

(** A computation on the store that returns or raises. *)
Record pd (A : Type) := PD { run : heap → result A * heap }.
Arguments PD {A} run.
Arguments run {A} p h.

#[global] Instance pd_ret : MRet pd := λ A a, PD (λ h, (Ok a, h)).
#[global] Instance pd_bind : MBind pd := λ A B f m,
  PD (λ h, match run m h with
           | (Ok a, h') => run (f a) h'
           | (Raise e, h') => (Raise e, h')
           end).

Definition raise_or_return {A} (r : result A) : pd A := PD (λ h, (r, h)).

(** The table a reference denotes.  A reference of a running program always
    denotes an object; the other case is given as an error. *)
Definition deref (df : loc) : pd DataFrame :=
  PD (λ h, match h !! df with
           | Some d => (Ok d, h)
           | None => (Raise TypeError, h)
           end).

(** A new object holding [d]. *)
Definition alloc (d : DataFrame) : pd loc :=
  PD (λ h, let l := fresh (dom h) in (Ok l, <[l := d]> h)).

(** [df.copy()]. *)
Definition copy (df : loc) : pd loc := d ← deref df; alloc d.

(** A computation that leaves every object of the store as it is. *)
Definition preserves {A} (m : pd A) : Prop := ∀ h, h ⊆ (run m h).2.

(** A computation whose result is an object that did not exist before. *)
Definition returns_new (m : pd loc) : Prop :=
  ∀ h l h', run m h = (Ok l, h') → h !! l = None ∧ is_Some (h' !! l).

Section Trimmer.

(** [quantile xs q] is what [Series.quantile(q)] computes for a numeric
    series whose values that are not missing are [xs], when there is one;
    the values of a column of integers are integers, those of a column of
    floats are floats. *)
Variable quantile : list pyval → pyfloat → pyfloat.

(** [series.quantile(q)]: missing values are skipped, and the quantile of
    no value is NaN. *)
Definition series_quantile (series : list pyval) (q : pyfloat) : pyfloat :=
  match filter (λ v, is_nan (float_of v) = false) series with
  | [] => FNaN
  | xs => quantile xs q
  end.

(** Lines 175 to 177.  Python reads the literal [0.99] as the float
    4458563631096791 / 2^52, and line 177 compares floats. *)
Definition trim_outliers (series : list pyval) : list bool :=
  let high := series_quantile series (FFin (4458563631096791 # 4503599627370496)) in
  (λ v, float_le (float_of v) high) <$> series.

(** Line 183: [df.groupby(group_by)[metric].transform(trim_outliers)].
    With a label that is not a column, a list of as many labels as the
    table has rows is taken as the group values themselves, one for each
    row; any other list with such a label is refused with the first one. *)
Definition groupby_transform (d : DataFrame) (group_by : list string)
    (metric : string) : result (list (option bool)) :=
  match filter (λ c, c ∉ columns d) group_by with
  | c :: _ =>
      if decide (length group_by = length (rows d)) then
        series ← column d metric;
        values ← numeric series;
        mret (transform ((λ label, Some [HStr label]) <$> group_by) values
                trim_outliers)
      else Raise (KeyError c)
  | [] =>
      series ← column d metric;
      keys ← mapM (row_key group_by) (rows d);
      values ← numeric series;
      mret (transform keys values trim_outliers)
  end.

(** Lines 167 to 187. *)
Definition trim_on_benchmark (df : loc) (group_on_timestamp : bool)
    (benchmark : string) : pd loc :=
  let metric := metric_for_benchmark benchmark in
  let group_by := ["cpu_type"] ++ (if group_on_timestamp then ["timestamp"] else []) in
  d ← deref df;
  mask ← raise_or_return (groupby_transform d group_by metric);
  selected ← raise_or_return (getitem_mask d mask);
  trimmed_df ← alloc selected ≫= copy;
  mret trimmed_df.

End Trimmer.

(** The key of a row under [groupby(group_by)], when it has one. *)
Definition group_key (group_by : list string) (r : record) : option (list hkey) :=
  match row_key group_by r with
  | Ok k => k
  | Raise _ => None
  end.

(** The metric of a row as a float; a missing value is NaN. *)
Definition metric_value (metric : string) (r : record) : pyfloat :=
  float_of (cell r metric).

(** The metric of a row as the column of the table holds it. *)
Definition metric_cell (d : DataFrame) (metric : string) (r : record) : pyval :=
  if forallb is_int64 ((λ r, cell r metric) <$> rows d) then cell r metric
  else PFloat (metric_value metric r).

(** The metric values of the rows of one group, in the order of the rows. *)
Definition group_values (d : DataFrame) (group_by : list string)
    (metric : string) (k : list hkey) : list pyval :=
  metric_cell d metric <$> filter (λ r, group_key group_by r = Some k) (rows d).

(** Lines 192 to 210. *)
Definition filter_full_lifecycle (df : loc) (remove_cold : bool) : pd loc :=
  subset ← copy df;
  d ← deref subset;
  ids ← raise_or_return (column d "instance_id");
  keys ← raise_or_return (mapM hash_key ids);
  let grouped := groupby keys in
  let valid_ids := (filter (λ g, length g.2 = 4%nat) grouped).*1 in
  subset ← alloc (getitem_bool d ((λ v, isin v valid_ids) <$> ids));
  if remove_cold then
    d ← deref subset;
    counts ← raise_or_return (column d "invocation_count");
    warm ← raise_or_return (mapM (λ v, cell_gt_int v 1) counts);
    alloc (getitem_bool d warm)
  else mret subset.

(** The key of the [instance_id] of a row, when it has one. *)
Definition instance_key (r : record) : option hkey :=
  match hash_key (cell r "instance_id") with
  | Ok k => k
  | Raise _ => None
  end.

(** How many rows of a table hold the instance id [k]. *)
Definition occurrences (d : DataFrame) (k : hkey) : nat :=
  length (filter (λ r, instance_key r = Some k) (rows d)).

(** The instance id of a row occurs exactly 4 times in the table. *)
Definition full_lifecycle (d : DataFrame) (r : record) : bool :=
  match instance_key r with
  | Some k => bool_decide (occurrences d k = 4%nat)
  | None => false
  end.

(** [invocation_count > 1] holds for a row. *)
Definition warm_row (r : record) : bool :=
  match cell_gt_int (cell r "invocation_count") 1 with
  | Ok b => b
  | Raise _ => false
  end.

(** An invocation count is a number that is at most 1. *)
Definition at_most_one (v : pyval) : Prop :=
  match v with
  | PBool _ => True
  | PInt z => z ≤ 1
  | PFloat (FFin q) => (q <= 1)%Q
  | PFloat (FInf negative) => negative = true
  | _ => False
  end.

(** ** Directories *)

(** A directory: its sub-directories by name, and the names of its files. *)
Inductive dirtree :=
| Dir (subdirs : list (string * dirtree)) (files : list string).

(** [os.path.join(a, b)] on a POSIX system. *)
Definition path_join (a b : string) : string :=
  if String.prefix "/" b then b
  else if (a =? "")%string || str_endswith a "/" then a +:+ b
  else a +:+ "/" +:+ b.

(** [os.walk(top)] on the directory [t] found at [top]: top-down, one entry
    [(root, dirs, files)] per directory. *)
Fixpoint walk (top : string) (t : dirtree) : list (string * list string * list string) :=
  match t with
  | Dir subdirs files =>
      (top, subdirs.*1, files) ::
      (p ← subdirs; walk (path_join top p.1) p.2)
  end.

Section Aggregator.

Variable json_loads : string → result pyval.
Variable fromisoformat : string → option datetime.
Variable lower_text : string → string.
Variable int_text : string → option Z.
Variable readlines : string → result (list string).
Variable shorten_cpu_name : pyval → result pyval.
Variable py_repr : pyval → string.

(** The directory found at a path, when the path names one. *)
Variable listdir : string → option dirtree.

Definition os_walk (top : string) : list (string * list string * list string) :=
  match listdir top with
  | Some t => walk top t
  | None => []
  end.

Let parse := parse_log_file json_loads fromisoformat lower_text int_text readlines shorten_cpu_name py_repr.

(** Lines 224 to 228: the loop over the files of one directory. *)
Fixpoint load_files (root : string) (files : list string)
    (all_records : list record) : io (list record) :=
  match files with
  | [] => mret all_records
  | file :: rest =>
      if str_endswith file ".log" then
        records ← parse (path_join root file);
        load_files root rest (all_records ++ records)
      else load_files root rest all_records
  end.

(** Lines 221 to 228: the loop over the entries of the walk. *)
Fixpoint load_entries (entries : list (string * list string * list string))
    (all_records : list record) : io (list record) :=
  match entries with
  | [] => mret all_records
  | (root, _, files) :: rest =>
      if bool_decide ("logs" ∈ str_split "/" root) then
        load_entries rest all_records
      else
        all_records ← load_files root files all_records;
        load_entries rest all_records
  end.

(** Lines 213 to 230. *)
Definition load_records_from_directory (log_dir : string) : io DataFrame :=
  all_records ← load_entries (os_walk log_dir) [];
  mret (pd_DataFrame all_records).

(** The log files of one entry of the walk: none when a component of the
    root is [logs], else the files whose name ends in [.log]. *)
Definition entry_log_files (entry : string * list string * list string) : list string :=
  let '(root, _, files) := entry in
  if bool_decide ("logs" ∈ str_split "/" root) then []
  else path_join root <$> filter (λ file, str_endswith file ".log" = true) files.

(** The paths of the log files under a directory, in the order of the walk. *)
Definition log_files (log_dir : string) : list string :=
  os_walk log_dir ≫= entry_log_files.

End Aggregator.

(** ** The tables of the specification *)

(** The label of a GCP processor model, as the specification words it. *)
Definition spec_gcp_label (model : string) : string :=
  if (model =? "1")%string then "Model 1 (AMD)"
  else if (model =? "17")%string then "Model 17 (AMD)"
  else if (model =? "85")%string then "Model 85 (Intel)"
  else if (model =? "106")%string then "Model 106 (Intel)"
  else if (model =? "143")%string then "Model 143 (Intel)"
  else if (model =? "173")%string then "Model 173 (Intel)"
  else "Model " +:+ model +:+ " (Unknown)".

(** A frequency lies in the band from [lo] to [hi] MHz, both included. *)
Definition in_range (lo hi : Z) (freq : pyval) : Prop :=
  match freq with
  | PInt z => lo ≤ z ≤ hi
  | PFloat (FFin q) => (inject_Z lo <= q)%Q ∧ (q <= inject_Z hi)%Q
  | _ => False
  end.

(** A frequency is a number, or is missing. *)
Definition number_or_missing (freq : pyval) : Prop :=
  match freq with
  | PNone | PInt _ | PFloat _ => True
  | _ => False
  end.

(** The fields that each recognized benchmark type adds. *)
Definition spec_type_fields : list (string * list string) :=
  [("gemm", ["matrix_size"; "multiplication_time_ms"]);
   ("aesCtr", ["key_size"; "encrypt_size_mb"; "encrypt_time_ms"]);
   ("gzip", ["compress_size_mb"; "compress_time_ms"]);
   ("sha256", ["hash_size_mb"; "hash_time_ms"]);
   ("json", ["json_time_ms"])].

(** The keys of the dict literal of lines 73 to 103. *)
Definition common_keys : list string :=
  ["timestamp"; "provider"; "region"; "function"; "memory_size_mb";
   "parallel_requests"; "iterations_per_benchmark"; "retries"; "cpu_type";
   "cpu_model_number"; "runtime_ms"; "user_runtime_ms";
   "framework_runtime_ms"; "container_id"; "new_container";
   "invocation_count"; "instance_id"; "uuid"; "benchmark_type"; "flags";
   "cpu_frequency"].

(** For each provider with a request id: the key of the record and the key
    of the header it is read from. *)
Definition spec_request_id : list (string * (string * string)) :=
  [("azure", ("azure_invocation_id", "azure-invocation-id"));
   ("gcp", ("gcp_execution_id", "function-execution-id"));
   ("aws", ("aws_request_id", "aws-request-id"));
   ("alibaba", ("alibaba_request_id", "ali-request-id"))].

Definition request_id_keys : list string := (λ p, p.2.1) <$> spec_request_id.

(** Every field that some benchmark type adds. *)
Definition type_keys : list string := mjoin (spec_type_fields.*2).

Section Percentile.

(** The quantile of the library, as in the trimmer. *)
Variable quantile : list pyval → pyfloat → pyfloat.

(** The 99th percentile of some values: the quantile at 99/100, a
    fraction that the floats hold as the nearest of them, of the values
    that are not missing; without such a value there is none. *)
Definition percentile_99 (values : list pyval) : pyfloat :=
  match filter (λ v, is_nan (float_of v) = false) values with
  | [] => FNaN
  | present => quantile present (binary64 (99 # 100))
  end.

(** The metric of a row is at most the 99th percentile of its group. *)
Definition within_percentile (d : DataFrame) (group_by : list string)
    (metric : string) (r : record) : bool :=
  match group_key group_by r with
  | Some k =>
      float_le (metric_value metric r)
        (percentile_99 (group_values d group_by metric k))
  | None => false
  end.

End Percentile.

(** Modelled from the spec: the CPU Name Normalizer, the function
    [shorten_cpu_name] of [helpers/cpus.py], which the module imports and
    whose code is not among the sources.  The specification gives it as a
    pure and total mapping from strings to strings over a fixed table
    keyed on substrings of the known processor names: a known name is
    shortened to its label, an unknown name passes through unchanged or is
    tagged unknown, and a record gets from its default a [cpu_type] that
    is not empty.  So a name that holds a pattern of [table] gets the label
    of the first such pattern, any other name passes through unchanged,
    and the empty name, which holds nothing to pass on, gets the default
    ["unknown"].  The mapping is one of strings: a value of another type
    is refused. *)
Definition spec_shorten_cpu_name (table : list (string * string))
    (cpu_field : pyval) : result pyval :=
  match cpu_field with
  | PStr name =>
      Ok (PStr match list_find (λ p, str_contains p.1 name = true) table with
               | Some (_, (_, label)) => label
               | None => if (name =? "")%string then "unknown" else name
               end)
  | _ => Raise TypeError
  end.

(** ** A log directory, for examples *)

Module Example.

Definition dq : string := String (ascii_of_nat 34) EmptyString.
Definition quoted (s : string) : string := dq +:+ s +:+ dq.

(** Metadata lines: a complete one, one with an empty provider, one
    without [memorySize], one without [timestamp]. *)
Definition metadata_line : string :=
  "{" +:+ quoted "timestamp" +:+ ": " +:+ quoted "2024-01-01T00:00:00Z" +:+ ", "
      +:+ quoted "provider" +:+ ": " +:+ quoted "AWS" +:+ ", "
      +:+ quoted "memorySize" +:+ ": 128}".
Definition metadata_empty_provider : string :=
  "{" +:+ quoted "timestamp" +:+ ": " +:+ quoted "2024-01-01T00:00:00Z" +:+ ", "
      +:+ quoted "provider" +:+ ": " +:+ quoted "" +:+ ", "
      +:+ quoted "memorySize" +:+ ": 128}".
Definition metadata_no_memory : string :=
  "{" +:+ quoted "timestamp" +:+ ": " +:+ quoted "2024-01-01T00:00:00Z" +:+ ", "
      +:+ quoted "provider" +:+ ": " +:+ quoted "aws" +:+ "}".
Definition metadata_no_timestamp : string :=
  "{" +:+ quoted "provider" +:+ ": " +:+ quoted "aws" +:+ ", "
      +:+ quoted "memorySize" +:+ ": 128}".

(** Invocation lines. *)
Definition gemm_line : string :=
  "{" +:+ quoted "header" +:+ ": {" +:+ quoted "aws-request-id" +:+ ": " +:+ quoted "r-1" +:+ "}, "
      +:+ quoted "body" +:+ ": {" +:+ quoted "cpuType" +:+ ": " +:+ quoted "AMD EPYC" +:+ ", "
      +:+ quoted "cpuFrequencyMHz" +:+ ": 2650, "
      +:+ quoted "benchmark" +:+ ": {" +:+ quoted "type" +:+ ": " +:+ quoted "gemm" +:+ ", "
      +:+ quoted "matrixSize" +:+ ": 64}}}".
Definition plain_line : string :=
  "{" +:+ quoted "body" +:+ ": {}}".
Definition broken_line : string := "{".

(** The body of [gemm_line] without its benchmark. *)
Definition amd_body : gmap string pyval :=
  list_to_map [("cpuType", PStr "AMD EPYC"); ("cpuFrequencyMHz", PInt 2650)].

(** A number of 4301 digits, one more than [json.loads] converts. *)
Definition long_number : string :=
  string_of_list_ascii (replicate 4301 ("1"%char : ascii)).

(** [json.loads] on the lines above; any other text counts as malformed. *)
Definition json_loads (line : string) : result pyval :=
  if (line =? metadata_line)%string then
    Ok (PDict (list_to_map
      [("timestamp", PStr "2024-01-01T00:00:00Z"); ("provider", PStr "AWS");
       ("memorySize", PInt 128)]))
  else if (line =? metadata_empty_provider)%string then
    Ok (PDict (list_to_map
      [("timestamp", PStr "2024-01-01T00:00:00Z"); ("provider", PStr "");
       ("memorySize", PInt 128)]))
  else if (line =? metadata_no_memory)%string then
    Ok (PDict (list_to_map
      [("timestamp", PStr "2024-01-01T00:00:00Z"); ("provider", PStr "aws")]))
  else if (line =? metadata_no_timestamp)%string then
    Ok (PDict (list_to_map
      [("provider", PStr "aws"); ("memorySize", PInt 128)]))
  else if (line =? gemm_line)%string then
    Ok (PDict (list_to_map
      [("header", PDict (list_to_map [("aws-request-id", PStr "r-1")]));
       ("body", PDict (list_to_map
          [("cpuType", PStr "AMD EPYC"); ("cpuFrequencyMHz", PInt 2650);
           ("benchmark", PDict (list_to_map
              [("type", PStr "gemm"); ("matrixSize", PInt 64)]))]))]))
  else if (line =? plain_line)%string then
    Ok (PDict (list_to_map [("body", PDict ∅)]))
  else if (line =? long_number)%string then Raise ValueError
  else Raise JSONDecodeError.

(** [datetime.fromisoformat] on the one timestamp of the examples. *)
Definition fromisoformat (s : string) : option datetime :=
  if (s =? "2024-01-01T00:00:00+00:00")%string
  then Some (Datetime 1704067200000000 (Some 0))
  else None.

(** [str.lower] and [int] on a text that is not ASCII: the examples hold
    none. *)
Definition lower_text (s : string) : string := s.
Definition int_text (s : string) : option Z := None.

(** A normalizer with one known name. *)
Definition cpu_table : list (string * string) := [("Xeon", "Intel Xeon")].

Definition shorten_cpu_name : pyval → result pyval :=
  spec_shorten_cpu_name cpu_table.

Definition py_repr (v : pyval) : string := "<object>".

(** The files of the examples. *)
Definition readlines (path : string) : result (list string) :=
  if (path =? "root/run1/y.log")%string then
    Ok [metadata_line; gemm_line; broken_line; plain_line]
  else if (path =? "root/run1/long.log")%string then
    Ok [metadata_line; gemm_line; long_number; plain_line]
  else if (path =? "root/run1/short.log")%string then
    Ok [metadata_line; gemm_line; plain_line]
  else if (path =? "root/logs/x.log")%string then
    Ok [metadata_line; plain_line]
  else if (path =? "root/run2/empty_provider.log")%string then
    Ok [metadata_empty_provider; plain_line]
  else if (path =? "root/run3/no_memory.log")%string then
    Ok [metadata_no_memory; gemm_line]
  else if (path =? "root/run3/no_timestamp.log")%string then
    Ok [metadata_no_timestamp; gemm_line]
  else Raise OSError.

Definition tree : dirtree :=
  Dir [("logs", Dir [] ["x.log"]); ("run1", Dir [] ["y.log"; "notes.txt"])] [].

Definition listdir (path : string) : option dirtree :=
  if (path =? "root")%string then Some tree
  else if (path =? "root/run3")%string then Some (Dir [] ["no_memory.log"])
  else None.

(** The metadata of [metadata_line]. *)
Definition meta : metadata :=
  Metadata (Datetime 1704067200000000 (Some 0)) "aws" (PStr "unknown") 128
    (PStr "unknown") 0 0 0.

(** The files again, with the malformed line of [y.log] and the long
    number of [long.log] taken out. *)
Definition readlines_repaired (path : string) : result (list string) :=
  if (path =? "root/run1/y.log")%string || (path =? "root/run1/long.log")%string
  then readlines "root/run1/short.log"
  else readlines path.

Definition parse : string → io (list record) :=
  parse_log_file json_loads fromisoformat lower_text int_text readlines shorten_cpu_name py_repr.

(** The records of [y.log], and the first of them. *)
Definition y_records : list record :=
  match outcome (parse "root/run1/y.log") with
  | Ok records => records
  | Raise _ => []
  end.
Definition first_record : record := default ∅ (head y_records).

(** A quantile by linear interpolation between the two nearest ranks, in
    exact arithmetic. *)
Definition interpolate (a b : pyfloat) (t : Q) : pyfloat :=
  match a, b with
  | FFin qa, FFin qb => FFin (Qred (qa + (qb - qa) * t))
  | _, _ => if Qeq_bool t 0 then a else FNaN
  end.

Definition at_most (x y : pyfloat) : Prop := float_le x y = true.

#[global] Instance at_most_dec (x y : pyfloat) : Decision (at_most x y).
Proof. unfold at_most. apply _. Defined.

Definition quantile (xs : list pyval) (q : pyfloat) : pyfloat :=
  let sorted := merge_sort at_most (float_of <$> xs) in
  match q with
  | FFin q =>
      let pos := (q * inject_Z (Z.of_nat (length sorted - 1)))%Q in
      let lo := Z.to_nat (Qfloor pos) in
      match sorted !! lo, sorted !! S lo with
      | Some a, Some b => interpolate a b (pos - inject_Z (Qfloor pos))
      | Some a, None => a
      | _, _ => FNaN
      end
  | _ => FNaN
  end.

(** A table of invocations: instance [A] and instance [C] with four rows
    each, instance [B] with three. *)
Definition invocation (instance_id : string) (invocation_count : Z) : record :=
  list_to_map [("instance_id", PStr instance_id);
               ("invocation_count", PInt invocation_count)].

Definition lifecycle_table : DataFrame :=
  pd_DataFrame
    [invocation "A" 1; invocation "B" 1; invocation "A" 2; invocation "C" 1;
     invocation "B" 2; invocation "A" 3; invocation "C" 2; invocation "B" 3;
     invocation "A" 4; invocation "C" 3; invocation "C" 4].

(** A table of timings: a group of 100 rows with the runtimes 1 to 100, and
    a group of two rows. *)
Definition timing (cpu_type : string) (runtime_ms : Z) : record :=
  list_to_map [("cpu_type", PStr cpu_type);
               ("timestamp", PDatetime (Datetime 1704067200000000 (Some 0)));
               ("runtime_ms", PInt runtime_ms)].

Definition timing_table : DataFrame :=
  pd_DataFrame
    (((λ i, timing "X" (Z.of_nat i)) <$> seq 1 100) ++ [timing "Y" 5; timing "Y" 700]).

(** A table of one row that has a runtime and no [cpu_type]. *)
Definition lone_table : DataFrame :=
  pd_DataFrame [list_to_map [("runtime_ms", PInt 7)]].

(** A store with the three tables. *)
Definition store : heap :=
  <[1%positive := lifecycle_table]>
    (<[2%positive := timing_table]> (<[3%positive := lone_table]> ∅)).

(** The runtimes of the rows of a table. *)
Definition runtimes (d : DataFrame) : list (pyval * pyval) :=
  (λ r, (cell r "cpu_type", cell r "runtime_ms")) <$> rows d.

(** The instance ids and counts of the rows of a table. *)
Definition invocations (d : DataFrame) : list (pyval * pyval) :=
  (λ r, (cell r "instance_id", cell r "invocation_count")) <$> rows d.

(** The table that a computation on [store] returns. *)
Definition returned (m : pd loc) : option DataFrame :=
  match run m store with
  | (Ok l, h') => h' !! l
  | (Raise _, _) => None
  end.

End Example.

(** ** Notions for the further properties *)

(** A diagnostic of line 147. *)
Definition is_line_error (d : diag) : bool :=
  match d with
  | LineError _ _ => true
  | _ => false
  end.

(** The exception is the [JSONDecodeError] that line 143 passes over. *)
Definition is_json_error {A} (r : result A) : bool :=
  match r with
  | Raise JSONDecodeError => true
  | _ => false
  end.

(** A computation that prints no diagnostic of line 147. *)
Definition no_line_error {A} (m : io A) : Prop :=
  Forall (λ d, is_line_error d = false) (output m).

(** The fields of a record that are read from the metadata line. *)
Definition metadata_keys : list string :=
  ["timestamp"; "provider"; "region"; "function"; "memory_size_mb";
   "parallel_requests"; "iterations_per_benchmark"; "retries"].

(** An upper-case ASCII letter. *)
Definition is_upper (c : ascii) : bool :=
  let n := nat_of_ascii c in ((65 <=? n) && (n <=? 90))%nat.

(** A tree without the directories named [logs] and what is below them. *)
Fixpoint prune (t : dirtree) : dirtree :=
  match t with
  | Dir subdirs files =>
      Dir (omap (λ p, if (p.1 =? "logs")%string then None
                      else Some (p.1, prune p.2)) subdirs)
          files
  end.

(** No name of a directory of the tree holds the separator of paths. *)
Fixpoint names_ok (t : dirtree) : bool :=
  match t with
  | Dir subdirs _ =>
      forallb (λ p, negb (str_contains "/" p.1) && names_ok p.2) subdirs
  end.

(** Induction on a tree, with the property at hand for the sub-directories. *)
Fixpoint dirtree_forall_ind (P : dirtree → Prop)
    (step : ∀ subdirs files, Forall (λ p, P p.2) subdirs → P (Dir subdirs files))
    (t : dirtree) : P t :=
  match t with
  | Dir subdirs files =>
      step subdirs files
        ((fix go (l : list (string * dirtree)) : Forall (λ p, P p.2) l :=
            match l with
            | [] => @List.Forall_nil _ (λ p, P p.2)
            | p :: l' =>
                @List.Forall_cons _ (λ p, P p.2) p l'
                  (dirtree_forall_ind P step p.2) (go l')
            end) subdirs)
  end.

(** More files for examples. *)
Module Sample.

Definition readlines (path : string) : result (list string) :=
  if (path =? "data/empty.log")%string then Ok []
  else if (path =? "data/bad_meta.log")%string then
    Ok [Example.broken_line; Example.gemm_line]
  else if (path =? "data/first.log")%string then
    Ok [Example.metadata_line; Example.gemm_line]
  else if (path =? "data/second.log")%string then
    Ok [Example.metadata_line; Example.plain_line]
  else if (path =? "data/both.log")%string then
    Ok [Example.metadata_line; Example.gemm_line; Example.plain_line]
  else if (path =? "data/mixed.log")%string then
    Ok [Example.metadata_line; Example.gemm_line; Example.broken_line;
        Example.metadata_no_memory; Example.long_number; Example.plain_line]
  else if (path =? "data/long_meta.log")%string then
    Ok [Example.long_number; Example.gemm_line]
  else Raise OSError.

Definition parse : string → io (list record) :=
  parse_log_file Example.json_loads Example.fromisoformat Example.lower_text Example.int_text readlines
    Example.shorten_cpu_name Example.py_repr.

(** A directory below a directory named [logs], and a directory whose log
    files are all below such a directory. *)
Definition listdir (path : string) : option dirtree :=
  if (path =? "archive/logs")%string then
    Some (Dir [("run1", Dir [] ["y.log"])] ["z.log"])
  else if (path =? "data/none")%string then
    Some (Dir [("logs", Dir [] ["x.log"])] ["notes.txt"])
  else None.

Definition load : string → io DataFrame :=
  load_records_from_directory Example.json_loads Example.fromisoformat
    Example.lower_text Example.int_text
    readlines Example.shorten_cpu_name Example.py_repr listdir.

End Sample.

(** * Properties *)

(** ** The monads *)

Lemma Ok_inj {A} (a b : A) : Ok a = Ok b → a = b.
Proof. by intros [= ->]. Qed.

Lemma result_bind_Ok {A B} (r : result A) (f : A → result B) (b : B) :
  r ≫= f = Ok b → ∃ a, r = Ok a ∧ f a = Ok b.
Proof. destruct r as [a|e]; simpl; [eauto | discriminate]. Qed.

Lemma outcome_bind_Ok {A B} (m : io A) (f : A → io B) (b : B) :
  outcome (m ≫= f) = Ok b → ∃ a, outcome m = Ok a ∧ outcome (f a) = Ok b.
Proof.
  unfold mbind, io_bind. destruct (outcome m) as [a|e]; simpl; [eauto | discriminate].
Qed.

Lemma io_bind_Ok {A B} (m : io A) (f : A → io B) (a : A) :
  outcome m = Ok a → m ≫= f = IO (output m ++ output (f a)) (outcome (f a)).
Proof. intros H. unfold mbind, io_bind. by rewrite H. Qed.

Lemma output_bind_Ok {A B} (m : io A) (f : A → io B) (a : A) :
  outcome m = Ok a → output (m ≫= f) = output m ++ output (f a).
Proof. intros H. by rewrite (io_bind_Ok _ _ _ H). Qed.

Lemma io_bind_lift_Ok {A B} (a : A) (f : A → io B) : lift (Ok a) ≫= f = f a.
Proof. unfold mbind, io_bind, lift; simpl. by destruct (f a). Qed.

Lemma io_bind_lift_Raise {A B} (e : exn) (f : A → io B) :
  lift (Raise e) ≫= f = IO [] (Raise e).
Proof. reflexivity. Qed.

Lemma io_bind_ret {A B} (a : A) (f : A → io B) : mret a ≫= f = f a.
Proof. apply io_bind_lift_Ok. Qed.

Lemma io_bind_assoc {A B C} (m : io A) (f : A → io B) (g : B → io C) :
  (m ≫= f) ≫= g = m ≫= (λ a, f a ≫= g).
Proof.
  unfold mbind, io_bind. destruct m as [o [a|e]]; simpl; [|done].
  destruct (f a) as [o' [b|e]]; simpl; [|done].
  by rewrite app_assoc.
Qed.

Lemma outcome_lift_Ok {A} (r : result A) (a : A) : outcome (lift r) = Ok a → r = Ok a.
Proof. done. Qed.

Lemma io_bind_IO_Ok {A B} (a : A) (f : A → io B) : io_bind A B f (IO [] (Ok a)) = f a.
Proof. apply io_bind_lift_Ok. Qed.

Lemma io_bind_IO_Raise {A B} (e : exn) (f : A → io B) o :
  io_bind A B f (IO o (Raise e)) = IO o (Raise e).
Proof. reflexivity. Qed.

(** Runs the steps of a computation whose outcome is known. *)
Ltac io_simpl :=
  repeat (simpl; rewrite ?io_bind_lift_Ok, ?io_bind_IO_Ok, ?io_bind_IO_Raise).

(** ** The fields of a record *)

Lemma py_eq_str_true (v : pyval) (s : string) : py_eq_str v s = true ↔ v = PStr s.
Proof.
  destruct v; simpl; try (split; [done | discriminate]).
  rewrite String.eqb_eq. split; [by intros -> | by intros [= ->]].
Qed.

Lemma py_eq_str_false (v : pyval) (s : string) : py_eq_str v s = false ↔ v ≠ PStr s.
Proof. rewrite <- py_eq_str_true. by destruct (py_eq_str v s). Qed.

Ltac inv_elem H :=
  repeat (apply elem_of_cons in H; destruct H as [H | H]; [simplify_eq |]);
  try (apply elem_of_nil in H; destruct H).

Lemma benchmark_fields_frame benchmark w rec k :
  benchmark_fields benchmark w = Ok rec → k ∉ type_keys → rec !! k = w !! k.
Proof.
  intros H Hk. destruct benchmark; try discriminate. unfold benchmark_fields in H. simpl in H.
  unfold type_keys, spec_type_fields in Hk; simpl in Hk. rewrite !not_elem_of_cons in Hk.
  repeat match type of H with
         | (if ?c then _ else _) = _ => destruct c
         end; cbv [mret result_ret] in H; injection H as <-; rewrite ?lookup_insert_ne by (intro; subst; tauto); done.
Qed.

Lemma benchmark_fields_types b w rec t ks k :
  benchmark_fields (PDict b) w = Ok rec →
  (t, ks) ∈ spec_type_fields → k ∈ ks →
  let ty := default PNone (b !! "type") in
  (ty = PStr t → is_Some (rec !! k)) ∧ (ty ≠ PStr t → rec !! k = w !! k).
Proof.
  intros H Ht Hk ty. unfold benchmark_fields in H. simpl in H. fold ty in H.
  unfold spec_type_fields in Ht.
  repeat match type of H with
         | (if py_eq_str ty ?s then _ else _) = _ =>
             let E := fresh "E" in
             destruct (py_eq_str ty s) eqn:E;
             [apply py_eq_str_true in E | apply py_eq_str_false in E]
         end; cbv [mret result_ret] in H; injection H as <-.
  all: inv_elem Ht; inv_elem Hk.
  all: split; intros Hty; try congruence.
  all: repeat (rewrite lookup_insert_ne by done); try done.
  all: rewrite lookup_insert_eq; by eexists.
Qed.
Lemma request_id_field_frame provider file header base w k :
  outcome (request_id_field provider file header base) = Ok w →
  k ∉ request_id_keys → w !! k = base !! k.
Proof.
  intros H Hk. unfold request_id_field in H.
  unfold request_id_keys, spec_request_id in Hk; simpl in Hk.
  rewrite !not_elem_of_cons in Hk.
  repeat match type of H with
         | outcome (if ?c then _ else _) = _ => destruct c
         end.
  1-4: apply outcome_bind_Ok in H as (v & _ & H); simpl in H; injection H as <-;
       rewrite lookup_insert_ne by (intro; subst; tauto); done.
  simpl in H. by injection H as <-.
Qed.


(** The three families of keys are disjoint. *)
Lemma type_keys_fresh k : k ∈ type_keys → (k ∉ common_keys) ∧ (k ∉ request_id_keys).
Proof.
  revert k. apply Forall_forall.
  apply (bool_decide_unpack _). vm_compute. exact I.
Qed.

Lemma common_keys_fresh k : k ∈ common_keys → (k ∉ type_keys) ∧ (k ∉ request_id_keys).
Proof.
  revert k. apply Forall_forall.
  apply (bool_decide_unpack _). vm_compute. exact I.
Qed.


Lemma in_type_keys t ks k : (t, ks) ∈ spec_type_fields → k ∈ ks → k ∈ type_keys.
Proof.
  intros Ht Hk. unfold type_keys. apply list_elem_of_join.
  exists ks. split; [done|]. apply list_elem_of_fmap. by exists (t, ks).
Qed.

(** ** The record extractor *)

Section ExtractorFacts.

Variable json_loads : string → result pyval.
Variable fromisoformat : string → option datetime.
Variable lower_text : string → string.
Variable int_text : string → option Z.
Variable readlines : string → result (list string).
Variable shorten_cpu_name : pyval → result pyval.
Variable py_repr : pyval → string.

Let build := build_record json_loads shorten_cpu_name py_repr.
Let built := built_record json_loads shorten_cpu_name py_repr.
Let printed := line_output json_loads shorten_cpu_name py_repr.
Let lines_loop := parse_lines json_loads shorten_cpu_name py_repr.
Let parse := parse_log_file json_loads fromisoformat lower_text int_text readlines shorten_cpu_name py_repr.

Lemma try_line_spec file m line records :
  try_line file (build file m line) records =
  IO (printed file m line)
     (Ok (records ++ from_option (λ rec, [rec]) [] (built file m line))).
Proof.
  unfold try_line, printed, line_output, built, built_record, try_line.
  fold (build file m line).
  destruct (outcome (build file m line)) as [rec|e]; simpl; [done|].
  rewrite app_nil_r. by destruct e.
Qed.

Lemma parse_lines_spec file m lines records :
  lines_loop file m lines records =
  IO (lines ≫= printed file m) (Ok (records ++ omap (built file m) lines)).
Proof.
  revert records. induction lines as [|line rest IH]; intros records; simpl.
  - by rewrite app_nil_r.
  - fold (build file m line). rewrite try_line_spec.
    unfold mbind at 1, io_bind; simpl. fold lines_loop. rewrite IH; simpl.
    f_equal. f_equal. rewrite <- app_assoc. f_equal.
    by destruct (built file m line).
Qed.

Lemma parse_lines_returns file m lines records :
  is_Ok (outcome (lines_loop file m lines records)).
Proof. rewrite parse_lines_spec. by eexists. Qed.

Lemma malformed_line_skipped file m line :
  json_loads line = Raise JSONDecodeError →
  built file m line = None ∧ printed file m line = [].
Proof.
  intros H. unfold built, built_record, printed, line_output, try_line, build_record, loads.
  by rewrite H.
Qed.

Lemma failing_line_reported file m line e :
  json_loads line = Raise e → e ≠ JSONDecodeError →
  built file m line = None ∧ printed file m line = [LineError file e].
Proof.
  intros H He. unfold built, built_record, printed, line_output, try_line, build_record, loads.
  rewrite H. by destruct e.
Qed.

Lemma parse_log_file_valid_metadata file first rest meta m :
  readlines file = Ok (first :: rest) →
  json_loads first = Ok meta →
  extract_metadata fromisoformat lower_text int_text meta = Ok m →
  parse file = IO (rest ≫= printed file m) (Ok (omap (built file m) rest)).
Proof.
  intros Hread Hmeta Hm. unfold parse, parse_log_file.
  rewrite Hread, io_bind_lift_Ok, Hmeta, Hm, io_bind_lift_Ok.
  apply parse_lines_spec.
Qed.

Lemma parse_log_file_invalid_metadata file first rest :
  readlines file = Ok (first :: rest) →
  json_loads first = Raise JSONDecodeError →
  parse file = IO [InvalidMetadata file] (Ok []).
Proof.
  intros Hread Hmeta. unfold parse, parse_log_file.
  by rewrite Hread, io_bind_lift_Ok, Hmeta.
Qed.

Lemma build_record_Ok file m line rec :
  outcome (build file m line) = Ok rec →
  ∃ data body benchmark cpu_field base header with_id,
    loads json_loads line = Ok data ∧
    py_getitem data "body" = Ok body ∧
    py_get body "benchmark" (PDict ∅) = Ok benchmark ∧
    outcome (resolve_cpu_field py_repr (meta_provider m) body) = Ok cpu_field ∧
    common_fields shorten_cpu_name m body benchmark cpu_field = Ok base ∧
    py_get data "header" (PDict ∅) = Ok header ∧
    outcome (request_id_field (meta_provider m) file header base) = Ok with_id ∧
    benchmark_fields benchmark with_id = Ok rec ∧
    output (build file m line)
      = output (resolve_cpu_field py_repr (meta_provider m) body)
        ++ output (request_id_field (meta_provider m) file header base).
Proof.
  intros H. unfold build, build_record in H.
  apply outcome_bind_Ok in H as (data & Hdata & H).
  apply outcome_bind_Ok in H as (body & Hbody & H).
  apply outcome_bind_Ok in H as (benchmark & Hbench & H).
  apply outcome_bind_Ok in H as (cpu_field & Hcpu & H).
  apply outcome_bind_Ok in H as (base & Hbase & H).
  apply outcome_bind_Ok in H as (header & Hheader & H).
  apply outcome_bind_Ok in H as (with_id & Hid & H).
  exists data, body, benchmark, cpu_field, base, header, with_id.
  repeat split; try done.
  unfold build, build_record.
  rewrite (output_bind_Ok _ _ _ Hdata), (output_bind_Ok _ _ _ Hbody),
    (output_bind_Ok _ _ _ Hbench), (output_bind_Ok _ _ _ Hcpu),
    (output_bind_Ok _ _ _ Hbase), (output_bind_Ok _ _ _ Hheader),
    (output_bind_Ok _ _ _ Hid).
  simpl. by rewrite app_nil_r.
Qed.

Lemma common_fields_spec m body benchmark cpu_field base :
  common_fields shorten_cpu_name m body benchmark cpu_field = Ok base →
  (∃ cpu_type, shorten_cpu_name cpu_field = Ok cpu_type ∧
               base !! "cpu_type" = Some cpu_type)
  ∧ base !! "provider" = Some (PStr (meta_provider m))
  ∧ ∀ k, is_Some (base !! k) ↔ k ∈ common_keys.
Proof.
  intros H. unfold common_fields in H.
  apply result_bind_Ok in H as (cpu_type & Hcpu & H).
  do 12 (apply result_bind_Ok in H as (? & _ & H)).
  cbv [mret result_ret] in H. apply Ok_inj in H. subst base.
  split; [|split].
  - exists cpu_type. split; [done | by vm_compute].
  - by vm_compute.
  - intros k. by rewrite <- elem_of_dom, dom_list_to_map_L, elem_of_list_to_set.
Qed.

Lemma parse_log_file_record_origin file records rec :
  outcome (parse file) = Ok records → rec ∈ records →
  ∃ first rest meta m line,
    readlines file = Ok (first :: rest) ∧
    json_loads first = Ok meta ∧
    extract_metadata fromisoformat lower_text int_text meta = Ok m ∧
    line ∈ rest ∧
    outcome (build file m line) = Ok rec.
Proof.
  intros H Hrec. unfold parse, parse_log_file in H.
  apply outcome_bind_Ok in H as (lines & Hread & H).
  apply outcome_lift_Ok in Hread.
  destruct lines as [|first rest].
  { simpl in H. injection H as <-. by apply elem_of_nil in Hrec. }
  destruct (json_loads first) as [meta|e] eqn:Hmeta.
  2:{ destruct e; try discriminate.
      simpl in H. injection H as <-. by apply elem_of_nil in Hrec. }
  apply outcome_bind_Ok in H as (m & Hm & H). apply outcome_lift_Ok in Hm.
  fold lines_loop in H. rewrite parse_lines_spec in H. simpl in H. injection H as <-.
  apply list_elem_of_omap in Hrec as (line & Hline & Hbuilt).
  exists first, rest, meta, m, line. repeat split; try done.
  unfold built, built_record in Hbuilt. fold (build file m line) in Hbuilt.
  destruct (outcome (build file m line)); by simplify_eq.
Qed.

(** C5: with a valid metadata line, [parse_log_file] returns one record for
    each following line whose record builds, in the order of the lines; a
    line that is not JSON, on which [json.loads] raises [JSONDecodeError],
    prints nothing, and the file without that line gives the same records
    and the same output.  A line on which [json.loads] raises another
    exception gives no record either and leaves the other records as they
    are, but it is reported by line 147. *)
Theorem parse_log_file_one_record_per_valid_line file first rest meta m :
  readlines file = Ok (first :: rest) →
  json_loads first = Ok meta →
  extract_metadata fromisoformat lower_text int_text meta = Ok m →
  outcome (parse file) = Ok (omap (built file m) rest)
  ∧ (∀ before bad after readlines',
       rest = before ++ bad :: after →
       json_loads bad = Raise JSONDecodeError →
       readlines' file = Ok (first :: before ++ after) →
       parse_log_file json_loads fromisoformat lower_text int_text readlines'
         shorten_cpu_name py_repr file = parse file)
  ∧ (∀ before bad after e readlines',
       rest = before ++ bad :: after →
       json_loads bad = Raise e → e ≠ JSONDecodeError →
       readlines' file = Ok (first :: before ++ after) →
       outcome (parse_log_file json_loads fromisoformat lower_text int_text
                  readlines' shorten_cpu_name py_repr file)
       = outcome (parse file)
       ∧ output (parse file)
         = (before ≫= printed file m) ++ LineError file e
             :: (after ≫= printed file m)
       ∧ output (parse_log_file json_loads fromisoformat lower_text int_text
                   readlines' shorten_cpu_name py_repr file)
         = (before ≫= printed file m) ++ (after ≫= printed file m)).
Proof.
  intros Hread Hmeta Hm. split; [|split].
  - by rewrite (parse_log_file_valid_metadata _ _ _ _ _ Hread Hmeta Hm).
  - intros before bad after readlines' -> Hbad Hread'.
    rewrite (parse_log_file_valid_metadata _ _ _ _ _ Hread Hmeta Hm).
    unfold parse_log_file.
    rewrite Hread', io_bind_lift_Ok, Hmeta, Hm, io_bind_lift_Ok.
    fold lines_loop. rewrite parse_lines_spec.
    destruct (malformed_line_skipped file m bad Hbad) as [Hnone Hquiet].
    rewrite !bind_app, !omap_app; simpl.
    fold (built file m bad). by rewrite Hnone, Hquiet.
  - intros before bad after e readlines' -> Hbad He Hread'.
    rewrite (parse_log_file_valid_metadata _ _ _ _ _ Hread Hmeta Hm).
    unfold parse_log_file.
    rewrite Hread', io_bind_lift_Ok, Hmeta, Hm, io_bind_lift_Ok.
    fold lines_loop. rewrite parse_lines_spec.
    destruct (failing_line_reported file m bad e Hbad He) as [Hnone Hloud].
    rewrite !bind_app, !omap_app; simpl.
    fold (built file m bad). by rewrite Hnone, Hloud.
Qed.

(** The exceptions of lines 31 to 38 leave the function. *)
Lemma parse_log_file_metadata_raises file first rest meta e :
  readlines file = Ok (first :: rest) →
  json_loads first = Ok meta →
  extract_metadata fromisoformat lower_text int_text meta = Raise e →
  parse file = IO [] (Raise e).
Proof.
  intros Hread Hmeta Hm. unfold parse, parse_log_file.
  by rewrite Hread, io_bind_lift_Ok, Hmeta, Hm.
Qed.

(** C1: a metadata line that is valid JSON but lacks [timestamp] or
    [memorySize], or holds an ill-formed timestamp or a [memorySize] that
    is not a number, makes [parse_log_file] raise. *)
Theorem parse_log_file_raises_on_metadata_fields file first rest d :
  readlines file = Ok (first :: rest) →
  json_loads first = Ok (PDict d) →
  (d !! "timestamp" = None → parse file = IO [] (Raise (KeyError "timestamp")))
  ∧ (∀ ts, d !! "timestamp" = Some (PStr ts) →
       fromisoformat (str_replace "Z" "+00:00" ts) = None →
       parse file = IO [] (Raise ValueError))
  ∧ (∀ ts t provider,
       d !! "timestamp" = Some (PStr ts) →
       fromisoformat (str_replace "Z" "+00:00" ts) = Some t →
       default (PStr "unknown") (d !! "provider") = PStr provider →
       (d !! "memorySize" = None ∨
        ∃ s, d !! "memorySize" = Some (PStr s) ∧ int_of_text int_text s = None) →
       parse file = IO [] (Raise ValueError)).
Proof.
  intros Hread Hmeta. repeat split.
  - intros Hts. apply (parse_log_file_metadata_raises _ _ _ _ _ Hread Hmeta).
    unfold extract_metadata; simpl. by rewrite Hts.
  - intros ts Hts Hiso.
    apply (parse_log_file_metadata_raises _ _ _ _ _ Hread Hmeta).
    unfold extract_metadata; simpl. rewrite Hts; simpl. by rewrite Hiso.
  - intros ts t provider Hts Hiso Hprov Hmem.
    apply (parse_log_file_metadata_raises _ _ _ _ _ Hread Hmeta).
    unfold extract_metadata; simpl. rewrite Hts; simpl. rewrite Hiso; simpl.
    rewrite Hprov; simpl.
    destruct Hmem as [-> | (s & -> & Hs)]; simpl; [done|]. by rewrite Hs.
Qed.


(** The fields of the type of a record, and the common fields. *)
Lemma build_record_fields file m line rec :
  outcome (build file m line) = Ok rec →
  ∃ ty body benchmark cpu_field base,
    benchmark_type_of json_loads line = Some ty ∧
    (∀ t ks k, (t, ks) ∈ spec_type_fields → k ∈ ks →
               is_Some (rec !! k) ↔ ty = PStr t) ∧
    body_of json_loads line = Some body ∧
    py_get body "benchmark" (PDict ∅) = Ok benchmark ∧
    outcome (resolve_cpu_field py_repr (meta_provider m) body) = Ok cpu_field ∧
    common_fields shorten_cpu_name m body benchmark cpu_field = Ok base ∧
    (∀ k, k ∈ common_keys → rec !! k = base !! k).
Proof.
  intros H.
  apply build_record_Ok in H
    as (data & body & benchmark & cpu_field & base & header & with_id &
        Hdata & Hbody & Hbench & Hcpu & Hbase & Hheader & Hid & Hrec & _).
  destruct benchmark as [| | | | | |b|]; try discriminate.
  exists (default PNone (b !! "type")), body, (PDict b), cpu_field, base.
  destruct (common_fields_spec _ _ _ _ _ Hbase) as (_ & _ & Hdom).
  split; [|split; [|split; [|split; [|split; [|split]]]]].
  - unfold benchmark_type_of. by rewrite Hdata; simpl; rewrite Hbody; simpl; rewrite Hbench.
  - intros t ks k Ht Hk.
    destruct (benchmark_fields_types _ _ _ _ _ _ Hrec Ht Hk) as [Hyes Hno].
    split; [|done]. intros Hsome.
    destruct (py_eq_str (default PNone (b !! "type")) t) eqn:E;
      [by apply py_eq_str_true in E | apply py_eq_str_false in E as Hne].
    exfalso. rewrite (Hno Hne) in Hsome.
    destruct (type_keys_fresh k (in_type_keys _ _ _ Ht Hk)) as [Hcommon Hreq].
    rewrite (request_id_field_frame _ _ _ _ _ _ Hid Hreq) in Hsome.
    by apply Hdom in Hsome.
  - unfold body_of. by rewrite Hdata; simpl; rewrite Hbody.
  - done.
  - done.
  - done.
  - intros k Hk. destruct (common_keys_fresh k Hk) as [Htype Hreq].
    rewrite (benchmark_fields_frame _ _ _ _ Hrec Htype).
    apply (request_id_field_frame _ _ _ _ _ _ Hid Hreq).
Qed.

(** C6: a record holds the fields of a benchmark type exactly when
    [benchmark.type] of its line is that type, so that it holds none of
    them for any other type; and every common field of the record has the
    value that the dict literal gives it from the metadata of the file and
    the body of the line: the fields added after it change none. *)
Theorem benchmark_fields_iff_type file records rec :
  outcome (parse file) = Ok records → rec ∈ records →
  ∃ first rest meta m line ty body benchmark cpu_field base,
    readlines file = Ok (first :: rest) ∧
    json_loads first = Ok meta ∧
    extract_metadata fromisoformat lower_text int_text meta = Ok m ∧
    line ∈ rest ∧
    built file m line = Some rec ∧
    benchmark_type_of json_loads line = Some ty ∧
    (∀ t ks k, (t, ks) ∈ spec_type_fields → k ∈ ks →
               is_Some (rec !! k) ↔ ty = PStr t) ∧
    body_of json_loads line = Some body ∧
    py_get body "benchmark" (PDict ∅) = Ok benchmark ∧
    outcome (resolve_cpu_field py_repr (meta_provider m) body) = Ok cpu_field ∧
    common_fields shorten_cpu_name m body benchmark cpu_field = Ok base ∧
    (∀ k, k ∈ common_keys → rec !! k = base !! k).
Proof.
  intros H Hrec.
  destruct (parse_log_file_record_origin _ _ _ H Hrec)
    as (first & rest & meta & m & line & Hread & Hmeta & Hm & Hline & Hbuild).
  destruct (build_record_fields _ _ _ _ Hbuild)
    as (ty & body & benchmark & cpu_field & base & Hty & Hfields & Hbody &
        Hbench & Hcpu & Hbase & Hcommon).
  exists first, rest, meta, m, line, ty, body, benchmark, cpu_field, base.
  split; [done|]. split; [done|]. split; [done|]. split; [done|].
  split.
  { unfold built, built_record. fold (build file m line). by rewrite Hbuild. }
  split; [done|]. split; [done|]. split; [done|]. split; [done|].
  split; [done|]. by split.
Qed.





End ExtractorFacts.

(** ** The fields [provider] and [cpu_type] *)


Lemma is_ascii_false_nonempty (s : string) : is_ascii s = false → s ≠ "".
Proof. by intros H ->. Qed.

Section NormalizerFacts.

Variable json_loads : string → result pyval.
Variable fromisoformat : string → option datetime.
Variable lower_text : string → string.
Variable int_text : string → option Z.
Variable readlines : string → result (list string).
Variable py_repr : pyval → string.

(** The table of the normalizer. *)
Variable cpu_table : list (string * string).

Let shorten_cpu_name := spec_shorten_cpu_name cpu_table.
Let built := built_record json_loads shorten_cpu_name py_repr.
Let parse :=
  parse_log_file json_loads fromisoformat lower_text int_text readlines
    shorten_cpu_name py_repr.




End NormalizerFacts.

(** ** Processor labels *)

Lemma gcp_mapping_spec (model : string) :
  default ("Model " +:+ model +:+ " (Unknown)") (GCP_CPU_MAPPING !! model)
  = spec_gcp_label model.
Proof.
  unfold GCP_CPU_MAPPING, spec_gcp_label.
  repeat match goal with
         | |- context [String.eqb model ?s] =>
             destruct (String.eqb_spec model s) as [-> | ?]; [by vm_compute |]
         end.
  rewrite !list_to_map_cons, list_to_map_nil.
  by rewrite !lookup_insert_ne, lookup_empty by done.
Qed.

Lemma in_band_spec (freq : pyval) (lo hi : Z) :
  0 < lo → number_or_missing freq →
  ∃ b : bool, in_band freq lo hi = Ok b ∧ (b = true ↔ in_range lo hi freq).
Proof.
  intros Hlo Hnum. unfold in_band.
  destruct freq as [| |z|f| | | |]; try done; simpl.
  - exists false. split; [done|]. by split.
  - destruct (Z.eqb_spec z 0) as [-> | Hz]; simpl.
    + exists false. split; [done|]. split; [done | lia].
    + destruct (Z.leb_spec lo z); simpl.
      * eexists; split; [done|]. rewrite Z.leb_le. lia.
      * exists false. split; [done|]. split; [done | lia].
  - destruct f as [|negative|q]; simpl.
    + exists false. split; [done|]. by split.
    + destruct negative; simpl; eexists; (split; [done|]); by split.
    + destruct (Qeq_bool q 0) eqn:Hq; simpl.
      * exists false. split; [done|]. split; [done|]. intros [Hle _].
        apply Qeq_bool_iff in Hq. rewrite Hq in Hle.
        change 0%Q with (inject_Z 0) in Hle. rewrite <- Zle_Qle in Hle. lia.
      * destruct (Qle_bool (inject_Z lo) q) eqn:Hge; simpl.
        -- eexists; split; [done|]. rewrite Qle_bool_iff.
           apply Qle_bool_iff in Hge. tauto.
        -- exists false. split; [done|]. split; [done|]. intros [Hle _].
           apply Qle_bool_iff in Hle. congruence.
Qed.

Section CpuFacts.

Variable py_repr : pyval → string.

(** C2: on GCP the label is the entry of the model table for
    [body.cpuModel], and ["Model {model} (Unknown)"] for a model that has
    none; on AWS, for a [cpuType] that contains ["AMD"], the label follows
    the band of [cpuFrequencyMHz], and is ["AMD EPYC unknown"] for any
    other number and for a missing frequency. *)
Theorem cpu_field_resolution (d : gmap string pyval) :
  let model := default (PStr "unknown") (d !! "cpuModel") in
  let freq := default PNone (d !! "cpuFrequencyMHz") in
  resolve_cpu_field py_repr "gcp" (PDict d)
    = mret (PStr (spec_gcp_label (py_str py_repr model)))
  ∧ ∀ cpu_type,
      d !! "cpuType" = Some (PStr cpu_type) →
      str_contains "AMD" cpu_type = true →
      number_or_missing freq →
      (in_range 2640 2660 freq →
         resolve_cpu_field py_repr "aws" (PDict d) = mret (PStr "AMD EPYC 2.65GHz"))
      ∧ (in_range 2240 2260 freq →
         resolve_cpu_field py_repr "aws" (PDict d) = mret (PStr "AMD EPYC 2.25GHz"))
      ∧ (¬ in_range 2640 2660 freq → ¬ in_range 2240 2260 freq →
         resolve_cpu_field py_repr "aws" (PDict d)
           = IO [UnknownAMDFrequency freq] (Ok (PStr "AMD EPYC unknown"))).
Proof.
  intros model freq. split.
  - unfold resolve_cpu_field, gcp_cpu_field. io_simpl. fold model. rewrite gcp_mapping_spec.
    by rewrite andb_false_r.
  - intros cpu_type Htype Hamd Hnum.
    assert (resolve_cpu_field py_repr "aws" (PDict d) = aws_amd_cpu_field freq) as ->.
    { unfold resolve_cpu_field. io_simpl. rewrite Htype. io_simpl.
      by rewrite Hamd. }
    unfold aws_amd_cpu_field.
    destruct (in_band_spec freq 2640 2660) as (b1 & -> & H1); [lia | done |].
    destruct (in_band_spec freq 2240 2260) as (b2 & -> & H2); [lia | done |].
    assert (in_range 2640 2660 freq → in_range 2240 2260 freq → False) as Hdisj.
    { clear. destruct freq as [| |z|[| |q]| | | |]; simpl; try tauto; [lia|].
      intros [Hlo _] [_ Hhi].
      pose proof (Qle_trans _ _ _ Hlo Hhi) as Hle.
      rewrite <- Zle_Qle in Hle. lia. }
    destruct b1, b2; io_simpl; repeat split; intros; try done; try tauto.
    all: try (exfalso; tauto).
Qed.

End CpuFacts.

(** ** The extractor on the example files *)

Lemma parse_log_file_one_record_per_valid_line_witness :
  outcome (Example.parse "root/run1/y.log")
    = Ok (omap (built_record Example.json_loads Example.shorten_cpu_name
                  Example.py_repr "root/run1/y.log" Example.meta)
               [Example.gemm_line; Example.broken_line; Example.plain_line])
  ∧ parse_log_file Example.json_loads Example.fromisoformat
      Example.lower_text Example.int_text
      Example.readlines_repaired Example.shorten_cpu_name Example.py_repr
      "root/run1/y.log"
    = Example.parse "root/run1/y.log"
  ∧ outcome (parse_log_file Example.json_loads Example.fromisoformat
               Example.lower_text Example.int_text
               Example.readlines_repaired Example.shorten_cpu_name
               Example.py_repr "root/run1/long.log")
    = outcome (Example.parse "root/run1/long.log")
  ∧ output (Example.parse "root/run1/long.log")
    = [LineError "root/run1/long.log" ValueError].
Proof.
  set (meta := PDict (list_to_map
                 [("timestamp", PStr "2024-01-01T00:00:00Z");
                  ("provider", PStr "AWS"); ("memorySize", PInt 128)])).
  destruct (parse_log_file_one_record_per_valid_line
              Example.json_loads Example.fromisoformat Example.lower_text
              Example.int_text Example.readlines
              Example.shorten_cpu_name Example.py_repr
              "root/run1/y.log" Example.metadata_line
              [Example.gemm_line; Example.broken_line; Example.plain_line]
              meta Example.meta)
    as (Hrecords & Hskip & _); [vm_compute; reflexivity ..|].
  destruct (parse_log_file_one_record_per_valid_line
              Example.json_loads Example.fromisoformat Example.lower_text
              Example.int_text Example.readlines
              Example.shorten_cpu_name Example.py_repr
              "root/run1/long.log" Example.metadata_line
              [Example.gemm_line; Example.long_number; Example.plain_line]
              meta Example.meta)
    as (_ & _ & Hreport); [vm_compute; reflexivity ..|].
  destruct (Hreport [Example.gemm_line] Example.long_number [Example.plain_line]
              ValueError Example.readlines_repaired)
    as (Hsame & Hloud & _);
    [reflexivity | vm_compute; reflexivity | discriminate
    | vm_compute; reflexivity |].
  split; [exact Hrecords|]. split.
  { apply (Hskip [Example.gemm_line] Example.broken_line [Example.plain_line]);
      vm_compute; reflexivity. }
  split; [exact Hsame|].
  etrans; [exact Hloud|]. vm_compute. reflexivity.
Defined.

Lemma parse_log_file_raises_on_metadata_fields_witness :
  Example.parse "root/run3/no_timestamp.log" = IO [] (Raise (KeyError "timestamp"))
  ∧ Example.parse "root/run3/no_memory.log" = IO [] (Raise ValueError).
Proof.
  split.
  - refine (proj1 (parse_log_file_raises_on_metadata_fields
              Example.json_loads Example.fromisoformat Example.lower_text Example.int_text Example.readlines
              Example.shorten_cpu_name Example.py_repr
              "root/run3/no_timestamp.log" Example.metadata_no_timestamp
              [Example.gemm_line]
              (list_to_map [("provider", PStr "aws"); ("memorySize", PInt 128)])
              _ _) _); vm_compute; reflexivity.
  - refine (proj2 (proj2 (parse_log_file_raises_on_metadata_fields
              Example.json_loads Example.fromisoformat Example.lower_text Example.int_text Example.readlines
              Example.shorten_cpu_name Example.py_repr
              "root/run3/no_memory.log" Example.metadata_no_memory
              [Example.gemm_line]
              (list_to_map [("timestamp", PStr "2024-01-01T00:00:00Z");
                            ("provider", PStr "aws")])
              _ _)) "2024-01-01T00:00:00Z" (Datetime 1704067200000000 (Some 0))
              "aws" _ _ _ _); try (vm_compute; reflexivity).
    left. vm_compute. reflexivity.
Defined.


Lemma y_records_parsed :
  outcome (Example.parse "root/run1/y.log") = Ok Example.y_records.
Proof.
  unfold Example.y_records.
  destruct (outcome (Example.parse "root/run1/y.log")) as [records|e] eqn:E;
    [reflexivity|].
  assert (length Example.y_records = 2%nat) as Hlen by (vm_compute; reflexivity).
  unfold Example.y_records in Hlen. rewrite E in Hlen. discriminate.
Defined.

Lemma first_record_parsed : Example.first_record ∈ Example.y_records.
Proof.
  unfold Example.first_record.
  destruct Example.y_records as [|rec records] eqn:E.
  - apply (f_equal length) in E. vm_compute in E. discriminate.
  - left.
Defined.

Lemma benchmark_fields_iff_type_witness :
  outcome (Example.parse "root/run1/y.log") = Ok Example.y_records
  ∧ Example.first_record ∈ Example.y_records
  ∧ ∃ first rest meta m line ty body benchmark cpu_field base,
      Example.readlines "root/run1/y.log" = Ok (first :: rest) ∧
      Example.json_loads first = Ok meta ∧
      extract_metadata Example.fromisoformat Example.lower_text
        Example.int_text meta = Ok m ∧
      line ∈ rest ∧
      built_record Example.json_loads Example.shorten_cpu_name Example.py_repr
        "root/run1/y.log" m line = Some Example.first_record ∧
      benchmark_type_of Example.json_loads line = Some ty ∧
      (∀ t ks k, (t, ks) ∈ spec_type_fields → k ∈ ks →
                 is_Some (Example.first_record !! k) ↔ ty = PStr t) ∧
      body_of Example.json_loads line = Some body ∧
      py_get body "benchmark" (PDict ∅) = Ok benchmark ∧
      outcome (resolve_cpu_field Example.py_repr (meta_provider m) body)
        = Ok cpu_field ∧
      common_fields Example.shorten_cpu_name m body benchmark cpu_field = Ok base ∧
      (∀ k, k ∈ common_keys → Example.first_record !! k = base !! k).
Proof.
  split; [exact y_records_parsed|]. split; [exact first_record_parsed|].
  exact (benchmark_fields_iff_type Example.json_loads Example.fromisoformat
           Example.lower_text Example.int_text
           Example.readlines Example.shorten_cpu_name Example.py_repr
           "root/run1/y.log" Example.y_records Example.first_record
           y_records_parsed first_record_parsed).
Defined.



Lemma cpu_field_resolution_witness :
  Example.amd_body !! "cpuType" = Some (PStr "AMD EPYC")
  ∧ str_contains "AMD" "AMD EPYC" = true
  ∧ in_range 2640 2660 (PInt 2650)
  ∧ resolve_cpu_field Example.py_repr "aws" (PDict Example.amd_body)
    = mret (PStr "AMD EPYC 2.65GHz").
Proof.
  set (d := Example.amd_body).
  assert (d !! "cpuType" = Some (PStr "AMD EPYC")) as Htype by (vm_compute; reflexivity).
  assert (default PNone (d !! "cpuFrequencyMHz") = PInt 2650) as Hfreq
    by (vm_compute; reflexivity).
  assert (in_range 2640 2660 (PInt 2650)) as Hband by (simpl; lia).
  split; [exact Htype|]. split; [reflexivity|]. split; [exact Hband|].
  pose proof (proj2 (cpu_field_resolution Example.py_repr d) "AMD EPYC" Htype eq_refl) as H.
  simpl in H. rewrite Hfreq in H. exact (proj1 (H I) Hband).
Defined.

(** ** The directory aggregator *)

Lemma io_bind_ret_r {A} (m : io A) : m ≫= mret = m.
Proof.
  unfold mbind, io_bind. destruct m as [o [a|e]]; simpl; [|done].
  by rewrite app_nil_r.
Qed.

Lemma io_bind_ext {A B} (m : io A) (f g : A → io B) :
  (∀ a, f a = g a) → m ≫= f = m ≫= g.
Proof.
  intros H. unfold mbind, io_bind. destruct (outcome m); [|done]. by rewrite H.
Qed.

Lemma io_mapM_nil {A B} (f : A → io B) : mapM f [] = mret [].
Proof. reflexivity. Qed.

Lemma io_mapM_cons {A B} (f : A → io B) (x : A) (l : list A) :
  mapM f (x :: l) = y ← f x; k ← mapM f l; mret (y :: k).
Proof. reflexivity. Qed.

Lemma io_mapM_app {A B} (f : A → io B) (l1 l2 : list A) :
  mapM f (l1 ++ l2) = r1 ← mapM f l1; r2 ← mapM f l2; mret (r1 ++ r2).
Proof.
  induction l1 as [|x l1 IH].
  - rewrite io_mapM_nil, io_bind_ret. symmetry. apply io_bind_ret_r.
  - rewrite <- app_comm_cons, !io_mapM_cons, !io_bind_assoc. apply io_bind_ext; intros y.
    rewrite IH, !io_bind_assoc. apply io_bind_ext; intros r1.
    rewrite io_bind_ret, io_bind_assoc. apply io_bind_ext; intros r2.
    by rewrite io_bind_ret.
Qed.

Section AggregatorFacts.

Variable json_loads : string → result pyval.
Variable fromisoformat : string → option datetime.
Variable lower_text : string → string.
Variable int_text : string → option Z.
Variable readlines : string → result (list string).
Variable shorten_cpu_name : pyval → result pyval.
Variable py_repr : pyval → string.
Variable listdir : string → option dirtree.

Let parse := parse_log_file json_loads fromisoformat lower_text int_text readlines shorten_cpu_name py_repr.
Let files_loop :=
  load_files json_loads fromisoformat lower_text int_text readlines shorten_cpu_name py_repr.
Let entries_loop :=
  load_entries json_loads fromisoformat lower_text int_text readlines shorten_cpu_name py_repr.
Let load :=
  load_records_from_directory json_loads fromisoformat lower_text int_text readlines
    shorten_cpu_name py_repr listdir.

Lemma load_files_spec root files all_records :
  files_loop root files all_records =
  rs ← mapM parse (path_join root <$> filter (λ file, str_endswith file ".log" = true) files);
  mret (all_records ++ concat rs).
Proof.
  revert all_records. induction files as [|file rest IH]; intros all_records.
  - rewrite filter_nil, fmap_nil, io_mapM_nil, io_bind_ret. simpl. by rewrite app_nil_r.
  - rewrite filter_cons. unfold files_loop. cbn [load_files]. fold files_loop parse.
    destruct (str_endswith file ".log") eqn:E.
    + rewrite decide_True by done. rewrite fmap_cons, io_mapM_cons.
      rewrite io_bind_assoc. apply io_bind_ext; intros records.
      rewrite IH, io_bind_assoc. apply io_bind_ext; intros rs.
      rewrite io_bind_ret. simpl. by rewrite app_assoc.
    + rewrite decide_False by done. apply IH.
Qed.

Lemma load_entries_spec entries all_records :
  entries_loop entries all_records =
  rs ← mapM parse (entries ≫= entry_log_files);
  mret (all_records ++ concat rs).
Proof.
  revert all_records.
  induction entries as [|[[root dirs] files] rest IH]; intros all_records.
  - change ([] ≫= entry_log_files) with (@nil string).
    rewrite io_mapM_nil, io_bind_ret. simpl. by rewrite app_nil_r.
  - rewrite bind_cons. unfold entries_loop. cbn [load_entries].
    fold entries_loop files_loop. unfold entry_log_files at 1.
    destruct (bool_decide ("logs" ∈ str_split "/" root)).
    + apply IH.
    + rewrite load_files_spec, io_mapM_app, !io_bind_assoc.
      apply io_bind_ext; intros r1.
      rewrite io_bind_ret, IH, !io_bind_assoc. apply io_bind_ext; intros r2.
      rewrite !io_bind_ret. by rewrite concat_app, app_assoc.
Qed.

Lemma io_mapM_Forall2 {A B} (f : A → io B) (l : list A) (ys : list B) :
  Forall2 (λ x y, outcome (f x) = Ok y) l ys → outcome (mapM f l) = Ok ys.
Proof.
  induction 1 as [|x y l ys Hx _ IH]; [done|].
  rewrite io_mapM_cons, (io_bind_Ok _ _ _ Hx). simpl.
  by rewrite (io_bind_Ok _ _ _ IH).
Qed.

Lemma elem_of_log_files log_dir path :
  path ∈ log_files listdir log_dir ↔
  ∃ root dirs files file,
    (root, dirs, files) ∈ os_walk listdir log_dir ∧
    ("logs" ∉ str_split "/" root) ∧
    file ∈ files ∧ str_endswith file ".log" = true ∧
    path = path_join root file.
Proof.
  unfold log_files. rewrite list_elem_of_bind. split.
  - intros ([[root dirs] files] & Hpath & Hentry). unfold entry_log_files in Hpath.
    destruct (bool_decide_reflect ("logs" ∈ str_split "/" root)) as [|Hlogs].
    { by apply elem_of_nil in Hpath. }
    apply list_elem_of_fmap in Hpath as (file & -> & Hfile).
    apply list_elem_of_filter in Hfile as [Hlog Hfile].
    by exists root, dirs, files, file.
  - intros (root & dirs & files & file & Hentry & Hlogs & Hfile & Hlog & ->).
    exists (root, dirs, files). split; [|done]. unfold entry_log_files.
    rewrite bool_decide_eq_false_2 by done.
    apply list_elem_of_fmap. exists file. split; [done|].
    by apply list_elem_of_filter.
Qed.

(** C8: [load_records_from_directory] parses the files of the walk whose
    name ends in [.log] and whose directory has no component [logs], in
    the order of the walk, and returns the table of the concatenated
    records; without such a file the table is empty. *)
Theorem load_records_from_directory_spec log_dir :
  (∀ path, path ∈ log_files listdir log_dir ↔
     ∃ root dirs files file,
       (root, dirs, files) ∈ os_walk listdir log_dir ∧
       ("logs" ∉ str_split "/" root) ∧
       file ∈ files ∧ str_endswith file ".log" = true ∧
       path = path_join root file)
  ∧ load log_dir
    = (rs ← mapM parse (log_files listdir log_dir); mret (pd_DataFrame (concat rs)))
  ∧ (∀ rss, Forall2 (λ path rs, outcome (parse path) = Ok rs)
              (log_files listdir log_dir) rss →
            outcome (load log_dir) = Ok (pd_DataFrame (concat rss)))
  ∧ (log_files listdir log_dir = [] →
     load log_dir = mret {| columns := ∅; rows := [] |}).
Proof.
  assert (load log_dir
          = (rs ← mapM parse (log_files listdir log_dir);
             mret (pd_DataFrame (concat rs)))) as Hload.
  { unfold load, load_records_from_directory. fold entries_loop.
    rewrite load_entries_spec, io_bind_assoc. fold (log_files listdir log_dir).
    apply io_bind_ext; intros rs. by rewrite io_bind_ret. }
  split; [apply elem_of_log_files|]. split; [exact Hload|]. split.
  - intros rss Hall. rewrite Hload.
    by rewrite (io_bind_Ok _ _ _ (io_mapM_Forall2 _ _ _ Hall)).
  - intros Hnone. rewrite Hload, Hnone, io_mapM_nil, io_bind_ret. done.
Qed.

End AggregatorFacts.

Lemma load_records_from_directory_spec_witness :
  log_files Example.listdir "root" = ["root/run1/y.log"]
  ∧ Forall2 (λ path rs, outcome (Example.parse path) = Ok rs)
      (log_files Example.listdir "root") [Example.y_records]
  ∧ outcome (load_records_from_directory Example.json_loads Example.fromisoformat
               Example.lower_text Example.int_text
               Example.readlines Example.shorten_cpu_name Example.py_repr
               Example.listdir "root")
    = Ok (pd_DataFrame (concat [Example.y_records])).
Proof.
  assert (log_files Example.listdir "root" = ["root/run1/y.log"]) as Hfiles
    by (vm_compute; reflexivity).
  assert (Forall2 (λ path rs, outcome (Example.parse path) = Ok rs)
            (log_files Example.listdir "root") [Example.y_records]) as Hall.
  { rewrite Hfiles. constructor; [exact y_records_parsed | constructor]. }
  split; [exact Hfiles|]. split; [exact Hall|].
  exact (proj1 (proj2 (proj2 (load_records_from_directory_spec
           Example.json_loads Example.fromisoformat Example.lower_text Example.int_text Example.readlines
           Example.shorten_cpu_name Example.py_repr Example.listdir "root")))
           [Example.y_records] Hall).
Defined.

(** The exception of a metadata line leaves the aggregator as well. *)
Lemma load_records_from_directory_raises :
  outcome (load_records_from_directory Example.json_loads Example.fromisoformat
             Example.lower_text Example.int_text
             Example.readlines Example.shorten_cpu_name Example.py_repr
             Example.listdir "root/run3")
  = Raise ValueError.
Proof. vm_compute. reflexivity. Qed.

(** ** Grouping *)

Lemma filter_ext_in {A} (P Q : A → Prop) `{∀ x, Decision (P x)}
    `{∀ x, Decision (Q x)} (l : list A) :
  (∀ x, x ∈ l → P x ↔ Q x) → filter P l = filter Q l.
Proof.
  induction l as [|x l IH]; intros Hext; [done|].
  rewrite !filter_cons.
  rewrite IH by (intros y Hy; apply Hext; by right).
  destruct (decide (P x)) as [HP|HP], (decide (Q x)) as [HQ|HQ]; try done.
  - destruct HQ. apply Hext; [by left | done].
  - destruct HP. apply Hext; [by left | done].
Qed.

Lemma filter_none {A} (P : A → Prop) `{∀ x, Decision (P x)} (l : list A) :
  (∀ x, x ∈ l → ¬ P x) → filter P l = [].
Proof.
  induction l as [|x l IH]; intros Hnone; [done|].
  rewrite filter_cons, decide_False by (apply Hnone; by left).
  apply IH. intros y Hy. apply Hnone. by right.
Qed.

Lemma omap_ext_in {A B} (f g : A → option B) (l : list A) :
  (∀ x, x ∈ l → f x = g x) → omap f l = omap g l.
Proof.
  intros Hext. apply list_omap_ext, Forall_Forall2_diag, Forall_forall, Hext.
Qed.

Lemma omap_cons_eq {A B} (f : A → option B) (x : A) (l : list A) :
  omap f (x :: l) = match f x with Some y => y :: omap f l | None => omap f l end.
Proof. reflexivity. Qed.

(** Selecting rows by a boolean series. *)
Lemma getitem_rows {A} (f : A → bool) (l : list A) :
  zip l (f <$> l) ≫= (λ '(r, b), if b : bool then [r] else []) = filter (λ r, f r = true) l.
Proof.
  induction l as [|x l IH]; [done|].
  rewrite fmap_cons. simpl zip. rewrite bind_cons, IH, filter_cons.
  by destruct (f x).
Qed.

Section GroupbyFacts.
Context {K : Type} `{EqDecision K}.

Lemma positions_snoc (k : K) (keys : list (option K)) (x : option K) :
  positions k (keys ++ [x])
  = positions k keys ++ (if decide (x = Some k) then [length keys] else []).
Proof.
  unfold positions. rewrite length_app. simpl length.
  replace (length keys + 1)%nat with (S (length keys)) by lia.
  rewrite seq_S, filter_app. simpl. f_equal.
  - apply filter_ext_in. intros i Hi. apply elem_of_seq in Hi.
    by rewrite lookup_app_l by lia.
  - rewrite filter_cons, filter_nil.
    rewrite list_lookup_middle by done.
    destruct (decide (x = Some k)) as [->|Hne].
    + by rewrite decide_True.
    + rewrite decide_False; [done|]. by intros [= ->].
Qed.

Lemma positions_lt (k : K) (keys : list (option K)) (i : nat) :
  i ∈ positions k keys ↔ keys !! i = Some (Some k).
Proof.
  unfold positions. rewrite list_elem_of_filter, elem_of_seq. split; [tauto|].
  intros H. split; [done|]. apply lookup_lt_Some in H. lia.
Qed.

(** The values of a group are the values of the rows that hold its key. *)
Lemma take_positions {R A} (key : R → option K) (val : R → A) (l : list R) (k : K) :
  take (positions k (key <$> l)) (val <$> l)
  = val <$> filter (λ r, key r = Some k) l.
Proof.
  induction l as [|r l IH] using rev_ind; [done|].
  rewrite !fmap_app, filter_app, fmap_app. simpl (_ <$> [r]).
  rewrite positions_snoc. unfold take in *. rewrite omap_app.
  rewrite <- IH. f_equal.
  - apply omap_ext_in. intros i Hi. apply positions_lt in Hi.
    apply lookup_lt_Some in Hi. rewrite length_fmap in Hi.
    apply lookup_app_l. by rewrite length_fmap.
  - rewrite filter_cons, filter_nil.
    destruct (decide (key r = Some k)); [|done].
    simpl. rewrite length_fmap.
    rewrite list_lookup_middle by (by rewrite length_fmap). done.
Qed.

Lemma length_positions {R} (key : R → option K) (l : list R) (k : K) :
  length (positions k (key <$> l)) = length (filter (λ r, key r = Some k) l).
Proof.
  induction l as [|r l IH] using rev_ind; [done|].
  rewrite fmap_app, filter_app, !length_app. simpl (_ <$> [r]).
  rewrite positions_snoc, length_app, IH. f_equal.
  rewrite filter_cons, filter_nil. by destruct (decide (key r = Some k)).
Qed.

Lemma elem_of_groupby (keys : list (option K)) (k : K) (idxs : list nat) :
  (k, idxs) ∈ groupby keys ↔ Some k ∈ keys ∧ idxs = positions k keys.
Proof.
  unfold groupby. rewrite list_elem_of_fmap. split.
  - intros (k' & [= -> ->] & Hk). split; [|done].
    apply elem_of_remove_dups, list_elem_of_omap in Hk as (x & Hx & Hid).
    simpl in Hid. by subst x.
  - intros [Hk ->]. exists k. split; [done|].
    apply elem_of_remove_dups, list_elem_of_omap. by exists (Some k).
Qed.

Lemma zip_take {A B} (h : A → B) (idxs : list nat) (series : list A) :
  Forall (λ j, is_Some (series !! j)) idxs →
  zip idxs (h <$> take idxs series)
  = omap (λ j, x ← series !! j; Some (j, h x)) idxs.
Proof.
  unfold take. induction 1 as [|j idxs [x Hx] _ IH]; [done|].
  rewrite !omap_cons_eq, Hx. simpl. f_equal. exact IH.
Qed.

(** The result of [transform] for a function that maps each value of a
    group to a value computed from the group. *)
Lemma transform_pointwise {R A B} (key : R → option K) (val : R → A)
    (g : list A → A → B) (l : list R) :
  (∃ r, r ∈ l ∧ is_Some (key r)) →
  transform (key <$> l) (val <$> l) (λ xs, g xs <$> xs)
  = (λ r, k ← key r;
          Some (g (val <$> filter (λ r', key r' = Some k) l) (val r))) <$> l.
Proof.
  intros (r0 & Hr0 & [k0 Hk0]). unfold transform.
  set (results := groupby (key <$> l) ≫= _).
  assert (∀ i y, (i, y) ∈ results ↔
            ∃ r k, l !! i = Some r ∧ key r = Some k ∧
                   y = g (val <$> filter (λ r', key r' = Some k) l) (val r))
    as Hresults.
  { intros i y. unfold results. rewrite list_elem_of_bind. split.
    - intros ([k idxs] & Hin & Hgroup).
      apply elem_of_groupby in Hgroup as [_ ->].
      rewrite zip_take in Hin.
      2:{ apply Forall_forall. intros j Hj. apply positions_lt in Hj.
          rewrite list_lookup_fmap in Hj. rewrite list_lookup_fmap.
          destruct (l !! j); [by eexists | done]. }
      apply list_elem_of_omap in Hin as (j & Hj & Hy).
      rewrite list_lookup_fmap in Hy. apply positions_lt in Hj.
      rewrite list_lookup_fmap in Hj.
      destruct (l !! j) as [r|] eqn:Hr; [|done]. simpl in Hy, Hj.
      injection Hy as -> <-. injection Hj as Hj. rewrite take_positions.
      by exists r, k.
    - intros (r & k & Hr & Hk & ->).
      exists (k, positions k (key <$> l)). split.
      + cbv beta iota. rewrite zip_take.
        2:{ apply Forall_forall. intros j Hj. apply positions_lt in Hj.
            rewrite list_lookup_fmap in Hj. rewrite list_lookup_fmap.
            destruct (l !! j); [by eexists | done]. }
        apply list_elem_of_omap. exists i. split.
        * apply positions_lt. by rewrite list_lookup_fmap, Hr; simpl; rewrite Hk.
        * by rewrite list_lookup_fmap, Hr, take_positions.
      + apply elem_of_groupby. split; [|done].
        apply list_elem_of_fmap. exists r. split; [done|].
        by apply list_elem_of_lookup_2 in Hr. }
  destruct (groupby (key <$> l)) as [|g0 gs] eqn:Hgroups.
  { exfalso. assert ((k0, positions k0 (key <$> l)) ∈ groupby (key <$> l)) as Hin.
    { apply elem_of_groupby. split; [|done]. apply list_elem_of_fmap. by exists r0. }
    rewrite Hgroups in Hin. by apply elem_of_nil in Hin. }
  rewrite length_fmap. apply list_eq. intros i. rewrite !list_lookup_fmap.
  destruct (l !! i) as [r|] eqn:Hr.
  - rewrite lookup_seq_lt by (by apply lookup_lt_Some in Hr). simpl. f_equal.
    destruct (key r) as [k|] eqn:Hk; simpl.
    + apply elem_of_list_to_map_1'.
      * intros y Hy. apply Hresults in Hy as (r' & k' & Hr' & Hk' & ->).
        by simplify_eq.
      * apply Hresults. by exists r, k.
    + apply not_elem_of_list_to_map. intros Hin.
      apply list_elem_of_fmap in Hin as ([i' y] & Hi & Hin). simpl in Hi. subst i'.
      apply Hresults in Hin as (r' & k' & Hr' & Hk' & _). by simplify_eq.
  - rewrite lookup_seq_ge by (by apply lookup_ge_None in Hr). done.
Qed.

End GroupbyFacts.

(** ** The outlier trimmer *)

Lemma result_mapM_Ok {A B} (f : A → result B) (g : A → B) (l : list A) :
  (∀ x, x ∈ l → f x = Ok (g x)) → mapM f l = Ok (g <$> l).
Proof.
  induction l as [|x l IH]; intros H; [done|].
  cbn [mapM]. rewrite (H x) by (by left).
  rewrite IH by (intros y Hy; apply H; by right). done.
Qed.

Lemma result_mapM_fmap {A B C} (f : B → result C) (g : A → B) (l : list A) :
  mapM f (g <$> l) = mapM (λ x, f (g x)) l.
Proof.
  induction l as [|x l IH]; [done|].
  rewrite fmap_cons. cbn [mapM]. by rewrite IH.
Qed.

Lemma fmap_ext_in {A B} (f g : A → B) (l : list A) :
  (∀ x, x ∈ l → f x = g x) → f <$> l = g <$> l.
Proof.
  intros H. apply list_fmap_ext. intros i x Hx. apply H.
  by apply list_elem_of_lookup_2 in Hx.
Qed.

Lemma group_key_Some group_by r k :
  group_key group_by r = Some k → row_key group_by r = Ok (Some k).
Proof.
  unfold group_key. destruct (row_key group_by r) as [k'|e]; [by intros -> | done].
Qed.

Lemma metric_value_Ok metric r :
  is_Ok (to_float (cell r metric)) →
  to_float (cell r metric) = Ok (metric_value metric r).
Proof. unfold metric_value, float_of. intros [x ->]. done. Qed.

Lemma float_of_metric_cell d metric r :
  float_of (metric_cell d metric r) = metric_value metric r.
Proof. unfold metric_cell. by destruct (forallb _ _). Qed.

(** The cells that the metric column holds. *)
Lemma numeric_spec d metric :
  (∀ r, r ∈ rows d → is_Ok (to_float (cell r metric))) →
  numeric ((λ r, cell r metric) <$> rows d) = Ok (metric_cell d metric <$> rows d).
Proof.
  intros Hrows. unfold numeric.
  destruct (forallb is_int64 ((λ r, cell r metric) <$> rows d)) eqn:Hint.
  - f_equal. apply fmap_ext_in. intros r _. unfold metric_cell. by rewrite Hint.
  - rewrite result_mapM_fmap.
    rewrite (result_mapM_Ok _ (λ r, PFloat (metric_value metric r))).
    + f_equal. apply fmap_ext_in. intros r _. unfold metric_cell. by rewrite Hint.
    + intros r Hr. by rewrite (metric_value_Ok _ _ (Hrows r Hr)).
Qed.

(** The literal of line 176 is the float nearest to 99/100. *)
Lemma literal_0_99 :
  FFin (4458563631096791 # 4503599627370496) = binary64 (99 # 100).
Proof. vm_compute. reflexivity. Qed.

Section TrimmerFacts.

Variable quantile : list pyval → pyfloat → pyfloat.

Let keep := within_percentile quantile.

Lemma series_quantile_percentile_99 (values : list pyval) :
  series_quantile quantile values (FFin (4458563631096791 # 4503599627370496))
  = percentile_99 quantile values.
Proof. unfold series_quantile, percentile_99. by rewrite literal_0_99. Qed.

(** The mask of line 183 on a table whose rows all have a group. *)
Lemma groupby_transform_spec d group_by metric :
  (∀ c, c ∈ metric :: group_by → c ∈ columns d) →
  (∀ r, r ∈ rows d →
        is_Some (group_key group_by r) ∧ is_Ok (to_float (cell r metric))) →
  groupby_transform quantile d group_by metric
  = Ok (match rows d with
        | [] => []
        | _ => (λ r, Some (keep d group_by metric r)) <$> rows d
        end).
Proof.
  intros Hcols Hrows. unfold groupby_transform.
  assert (filter (λ c, c ∉ columns d) group_by = []) as ->.
  { apply filter_none. intros c Hc Hnot. apply Hnot, Hcols. by right. }
  unfold column. rewrite decide_True by (apply Hcols; by left). simpl.
  rewrite (result_mapM_Ok _ (group_key group_by)).
  2:{ intros r Hr. destruct (Hrows r Hr) as [[k Hk] _].
      by rewrite Hk, (group_key_Some _ _ _ Hk). }
  simpl. rewrite numeric_spec by (intros r Hr; apply (Hrows r Hr)).
  simpl. f_equal.
  destruct (rows d) as [|r0 l] eqn:Hd; [done|]. rewrite <- Hd in *.
  unfold trim_outliers.
  rewrite (transform_pointwise (group_key group_by) (metric_cell d metric)
             (λ xs v, float_le (float_of v)
                        (series_quantile quantile xs
                           (FFin (4458563631096791 # 4503599627370496))))).
  2:{ exists r0. rewrite Hd. split; [by left|]. apply Hrows. rewrite Hd. by left. }
  apply fmap_ext_in. intros r Hr. destruct (Hrows r Hr) as [[k Hk] _].
  unfold keep, within_percentile, group_values.
  rewrite Hk. cbv beta. simpl.
  by rewrite float_of_metric_cell, series_quantile_percentile_99.
Qed.

Lemma getitem_mask_spec d (f : record → bool) :
  getitem_mask d (match rows d with
                  | [] => []
                  | _ => (λ r, Some (f r)) <$> rows d
                  end)
  = Ok {| columns := (match rows d with [] => ∅ | _ => columns d end);
          rows := filter (λ r, f r = true) (rows d) |}.
Proof.
  destruct (rows d) as [|r0 l] eqn:Hd.
  { unfold getitem_mask. by rewrite Hd. }
  unfold getitem_mask. rewrite Hd.
  change ((λ r, Some (f r)) <$> r0 :: l) with (Some (f r0) :: ((λ r, Some (f r)) <$> l)).
  cbv beta iota.
  change (Some (f r0) :: ((λ r, Some (f r)) <$> l)) with ((Some ∘ f) <$> (r0 :: l)).
  rewrite list_fmap_compose, (mapM_fmap_Some id Some) by done.
  by rewrite getitem_rows.
Qed.

End TrimmerFacts.

(** ** The store *)

Lemma run_bind {A B} (m : pd A) (f : A → pd B) (h : heap) :
  run (m ≫= f) h
  = match run m h with
    | (Ok a, h') => run (f a) h'
    | (Raise e, h') => (Raise e, h')
    end.
Proof. reflexivity. Qed.

Lemma run_deref (df : loc) (h : heap) (d : DataFrame) :
  h !! df = Some d → run (deref df) h = (Ok d, h).
Proof. intros H. unfold deref; simpl. by rewrite H. Qed.

Lemma run_alloc (d : DataFrame) (h : heap) :
  run (alloc d) h = (Ok (fresh (dom h)), <[fresh (dom h) := d]> h).
Proof. reflexivity. Qed.

Lemma run_copy (df : loc) (h : heap) (d : DataFrame) :
  h !! df = Some d →
  run (copy df) h = (Ok (fresh (dom h)), <[fresh (dom h) := d]> h).
Proof. intros H. unfold copy. by rewrite run_bind, (run_deref _ _ _ H). Qed.

Lemma fresh_loc_None (h : heap) : h !! fresh (dom h) = None.
Proof. apply not_elem_of_dom, is_fresh. Qed.

Lemma preserves_ret {A} (a : A) : preserves (mret a).
Proof. by intros h. Qed.

Lemma preserves_raise_or_return {A} (r : result A) : preserves (raise_or_return r).
Proof. by intros h. Qed.

Lemma preserves_deref (df : loc) : preserves (deref df).
Proof. intros h. unfold deref; simpl. by destruct (h !! df). Qed.

Lemma preserves_alloc (d : DataFrame) : preserves (alloc d).
Proof. intros h. rewrite run_alloc. simpl. apply insert_subseteq, fresh_loc_None. Qed.

Lemma preserves_bind {A B} (m : pd A) (f : A → pd B) :
  preserves m → (∀ a, preserves (f a)) → preserves (m ≫= f).
Proof.
  intros Hm Hf h. rewrite run_bind. specialize (Hm h).
  destruct (run m h) as [[a|e] h1]; simpl in *; [|done].
  etrans; [exact Hm | apply Hf].
Qed.

Lemma preserves_copy (df : loc) : preserves (copy df).
Proof.
  apply preserves_bind; [apply preserves_deref | intros; apply preserves_alloc].
Qed.

Lemma returns_new_alloc (d : DataFrame) : returns_new (alloc d).
Proof.
  intros h l h'. rewrite run_alloc. intros [= <- <-].
  split; [apply fresh_loc_None | by rewrite lookup_insert_eq].
Qed.

Lemma returns_new_bind {A} (m : pd A) (f : A → pd loc) :
  preserves m → (∀ a, returns_new (f a)) → returns_new (m ≫= f).
Proof.
  intros Hm Hf h l h'. rewrite run_bind. specialize (Hm h).
  destruct (run m h) as [[a|e] h1]; simpl in *; [|done].
  intros Hrun. destruct (Hf a h1 l h' Hrun) as [Hnone Hsome].
  split; [|done]. by eapply lookup_weaken_None.
Qed.

Lemma returns_new_copy (df : loc) : returns_new (copy df).
Proof.
  apply returns_new_bind; [apply preserves_deref | intros; apply returns_new_alloc].
Qed.

Lemma returns_new_bind_ret (m : pd loc) : returns_new m → returns_new (m ≫= mret).
Proof.
  intros Hm h l h'. rewrite run_bind.
  destruct (run m h) as [[a|e] h1] eqn:Hrun; simpl; [|done].
  intros [= <- <-]. by apply Hm.
Qed.

Lemma preserves_trim_on_benchmark quantile df group_on_timestamp benchmark :
  preserves (trim_on_benchmark quantile df group_on_timestamp benchmark).
Proof.
  unfold trim_on_benchmark.
  repeat first
    [ apply preserves_bind; [|intros ?]
    | apply preserves_deref | apply preserves_raise_or_return
    | apply preserves_alloc | apply preserves_copy | apply preserves_ret ].
Qed.

Lemma returns_new_trim_on_benchmark quantile df group_on_timestamp benchmark :
  returns_new (trim_on_benchmark quantile df group_on_timestamp benchmark).
Proof.
  unfold trim_on_benchmark.
  apply returns_new_bind; [apply preserves_deref | intros d].
  apply returns_new_bind; [apply preserves_raise_or_return | intros mask].
  apply returns_new_bind; [apply preserves_raise_or_return | intros selected].
  apply returns_new_bind_ret.
  apply returns_new_bind; [apply preserves_alloc | intros l; apply returns_new_copy].
Qed.

Lemma preserves_filter_full_lifecycle df remove_cold :
  preserves (filter_full_lifecycle df remove_cold).
Proof.
  unfold filter_full_lifecycle.
  repeat first
    [ apply preserves_bind; [|intros ?]
    | apply preserves_deref | apply preserves_raise_or_return
    | apply preserves_alloc | apply preserves_copy | apply preserves_ret
    | destruct remove_cold ].
Qed.

Lemma returns_new_filter_full_lifecycle df remove_cold :
  returns_new (filter_full_lifecycle df remove_cold).
Proof.
  unfold filter_full_lifecycle.
  apply returns_new_bind; [apply preserves_copy | intros subset].
  apply returns_new_bind; [apply preserves_deref | intros d].
  apply returns_new_bind; [apply preserves_raise_or_return | intros ids].
  apply returns_new_bind; [apply preserves_raise_or_return | intros keys].
  destruct remove_cold.
  - apply returns_new_bind; [apply preserves_alloc | intros subset'].
    apply returns_new_bind; [apply preserves_deref | intros d'].
    apply returns_new_bind; [apply preserves_raise_or_return | intros counts].
    apply returns_new_bind; [apply preserves_raise_or_return | intros warm].
    apply returns_new_alloc.
  - apply returns_new_bind_ret, returns_new_alloc.
Qed.

(** C10: whatever the two functions do, every table of the store, the
    argument among them, is afterwards what it was before, and the table
    they return is an object that did not exist before the call. *)
Theorem tables_not_mutated quantile (h : heap) (df : loc) (d : DataFrame)
    (group_on_timestamp remove_cold : bool) (benchmark : string) :
  h !! df = Some d →
  let trimmed := run (trim_on_benchmark quantile df group_on_timestamp benchmark) h in
  let filtered := run (filter_full_lifecycle df remove_cold) h in
  (trimmed.2 !! df = Some d ∧ h ⊆ trimmed.2 ∧
   ∀ l, trimmed.1 = Ok l → l ≠ df ∧ h !! l = None ∧ is_Some (trimmed.2 !! l))
  ∧ (filtered.2 !! df = Some d ∧ h ⊆ filtered.2 ∧
     ∀ l, filtered.1 = Ok l → l ≠ df ∧ h !! l = None ∧ is_Some (filtered.2 !! l)).
Proof.
  intros Hdf trimmed filtered.
  pose proof (preserves_trim_on_benchmark quantile df group_on_timestamp benchmark h)
    as Htrim.
  pose proof (preserves_filter_full_lifecycle df remove_cold h) as Hfilter.
  fold trimmed in Htrim. fold filtered in Hfilter.
  split; (split; [by eapply lookup_weaken|]; split; [done|]); intros l Hl.
  - destruct (returns_new_trim_on_benchmark quantile df group_on_timestamp
                benchmark h l trimmed.2) as [Hnone Hsome].
    { fold trimmed. destruct trimmed as [r h']. simpl in Hl. by subst r. }
    split; [|done]. intros ->. by rewrite Hdf in Hnone.
  - destruct (returns_new_filter_full_lifecycle df remove_cold h l filtered.2)
      as [Hnone Hsome].
    { fold filtered. destruct filtered as [r h']. simpl in Hl. by subst r. }
    split; [|done]. intros ->. by rewrite Hdf in Hnone.
Qed.

Section TrimmerTheorem.

Variable quantile : list pyval → pyfloat → pyfloat.

Let keep := within_percentile quantile.

(** C3: on a table that has the columns and whose rows all have a group,
    [trim_on_benchmark] returns a new table holding, unchanged and in
    their order, exactly the rows whose metric is at most the 99th
    percentile of the metric values of their group: the quantile at
    99/100 of the values of the group that are not missing.  A row without
    a metric value is dropped, and whether a row stays depends on the
    metric values of its own group only. *)
Theorem trim_on_benchmark_spec (h : heap) (df : loc) (d : DataFrame)
    (group_on_timestamp : bool) (benchmark : string) :
  let metric := metric_for_benchmark benchmark in
  let group_by := "cpu_type" :: (if group_on_timestamp then ["timestamp"] else []) in
  h !! df = Some d →
  (∀ c, c ∈ metric :: group_by → c ∈ columns d) →
  (∀ r, r ∈ rows d →
        is_Some (group_key group_by r) ∧ is_Ok (to_float (cell r metric))) →
  ∃ l h' d',
    run (trim_on_benchmark quantile df group_on_timestamp benchmark) h = (Ok l, h') ∧
    h' !! l = Some d' ∧
    rows d' = filter (λ r, keep d group_by metric r = true) (rows d) ∧
    (rows d ≠ [] → columns d' = columns d) ∧
    (∀ r, r ∈ rows d → is_nan (metric_value metric r) = true → r ∉ rows d') ∧
    (∀ d2 r k,
       group_key group_by r = Some k →
       group_values d2 group_by metric k = group_values d group_by metric k →
       keep d2 group_by metric r = keep d group_by metric r).
Proof.
  intros metric group_by Hdf Hcols Hrows.
  set (selected := {| columns := (match rows d with [] => ∅ | _ => columns d end);
                      rows := filter (λ r, keep d group_by metric r = true) (rows d) |}).
  set (l1 := fresh (dom h)). set (h1 := <[l1 := selected]> h).
  exists (fresh (dom h1)), (<[fresh (dom h1) := selected]> h1), selected.
  split; [|split; [|split; [|split; [|split]]]].
  - unfold trim_on_benchmark. fold metric.
    change (["cpu_type"] ++ (if group_on_timestamp then ["timestamp"] else []))
      with group_by.
    rewrite run_bind, (run_deref _ _ _ Hdf).
    rewrite run_bind, (groupby_transform_spec quantile d group_by metric Hcols Hrows).
    cbn [raise_or_return run].
    rewrite run_bind, getitem_mask_spec. cbn [raise_or_return run].
    rewrite run_bind, run_bind, run_alloc. fold l1 h1. cbv beta iota.
    erewrite run_copy by apply lookup_insert_eq.
    reflexivity.
  - apply lookup_insert_eq.
  - done.
  - intros Hne. simpl. by destruct (rows d).
  - intros r Hr Hnan Hin. simpl in Hin.
    apply list_elem_of_filter in Hin as [Hkeep _].
    unfold keep, within_percentile in Hkeep.
    destruct (group_key group_by r); [|done].
    by destruct (metric_value metric r).
  - intros d2 r k Hk Hvalues. unfold keep, within_percentile.
    by rewrite Hk, Hvalues.
Qed.

End TrimmerTheorem.

(** ** The lifecycle filter *)

Lemma column_Ok (d : DataFrame) (c : string) :
  c ∈ columns d → column d c = Ok ((λ r, cell r c) <$> rows d).
Proof. intros H. unfold column. by rewrite decide_True. Qed.

Lemma instance_key_Ok (r : record) :
  is_Ok (hash_key (cell r "instance_id")) →
  hash_key (cell r "instance_id") = Ok (instance_key r).
Proof. unfold instance_key. by intros [k ->]. Qed.

Lemma warm_row_Ok (r : record) :
  is_Ok (cell_gt_int (cell r "invocation_count") 1) →
  cell_gt_int (cell r "invocation_count") 1 = Ok (warm_row r).
Proof. unfold warm_row. by intros [b ->]. Qed.

Lemma at_most_one_not_warm (v : pyval) :
  at_most_one v → cell_gt_int v 1 ≠ Ok true.
Proof.
  destruct v as [| b | z | [| negative | q] | | | |]; simpl; try done.
  - destruct b; by intros _ [=].
  - intros Hz [= H]. apply Z.ltb_lt in H. lia.
  - intros ->. by intros [=].
  - intros Hq [= H]. apply negb_true_iff in H.
    assert (Qle_bool q (inject_Z 1) = true) as Hle by (by apply Qle_bool_iff).
    congruence.
Qed.

(** The mask of line 205: the rows whose instance id has four rows. *)
Lemma lifecycle_mask (d : DataFrame) (r : record) :
  r ∈ rows d →
  is_Ok (hash_key (cell r "instance_id")) →
  let keys := instance_key <$> rows d in
  isin (cell r "instance_id")
    (filter (λ g, length g.2 = 4%nat) (groupby keys)).*1
  = full_lifecycle d r.
Proof.
  intros Hr Hok keys. unfold isin, full_lifecycle.
  rewrite (instance_key_Ok r Hok).
  destruct (instance_key r) as [k|] eqn:Hk; [|done].
  apply bool_decide_ext. unfold occurrences.
  rewrite <- (length_positions instance_key). fold keys.
  rewrite list_elem_of_fmap. split.
  - intros ([k' idxs] & -> & Hin). simpl.
    apply list_elem_of_filter in Hin as [Hlen Hin]. simpl in Hlen.
    by apply elem_of_groupby in Hin as [_ ->].
  - intros Hlen. exists (k, positions k keys). split; [done|].
    apply list_elem_of_filter. split; [done|].
    apply elem_of_groupby. split; [|done].
    unfold keys. apply list_elem_of_fmap. by exists r.
Qed.

(** C4: on a table with an [instance_id] column, [filter_full_lifecycle]
    returns a new table holding, in their order, exactly the rows whose
    instance id is held by exactly 4 rows of the table; with [remove_cold]
    it then keeps, of these, the rows whose [invocation_count] is above 1,
    so that no row with a count of at most 1 is left. *)
Theorem filter_full_lifecycle_spec (h : heap) (df : loc) (d : DataFrame)
    (remove_cold : bool) :
  h !! df = Some d →
  "instance_id" ∈ columns d →
  (∀ r, r ∈ rows d → is_Ok (hash_key (cell r "instance_id"))) →
  (remove_cold = true →
   "invocation_count" ∈ columns d ∧
   ∀ r, r ∈ rows d → full_lifecycle d r = true →
        is_Ok (cell_gt_int (cell r "invocation_count") 1)) →
  ∃ l h' d',
    run (filter_full_lifecycle df remove_cold) h = (Ok l, h') ∧
    h' !! l = Some d' ∧
    columns d' = columns d ∧
    rows d' = (if remove_cold then filter (λ r, warm_row r = true) else id)
                (filter (λ r, full_lifecycle d r = true) (rows d)) ∧
    (∀ r, full_lifecycle d r = true ↔
          ∃ k, instance_key r = Some k ∧ occurrences d k = 4%nat) ∧
    (remove_cold = true →
     ∀ r, r ∈ rows d' → ¬ at_most_one (cell r "invocation_count")).
Proof.
  intros Hdf Hcol Hkeys Hcold.
  set (complete := {| columns := columns d;
                      rows := filter (λ r, full_lifecycle d r = true) (rows d) |}).
  set (h1 := <[fresh (dom h) := d]> h).
  set (h2 := <[fresh (dom h1) := complete]> h1).
  assert (∀ r, full_lifecycle d r = true ↔
               ∃ k, instance_key r = Some k ∧ occurrences d k = 4%nat) as Hfull.
  { intros r. unfold full_lifecycle. destruct (instance_key r) as [k|].
    - rewrite bool_decide_eq_true. split; [by exists k | by intros (k' & [= <-] & H)].
    - split; [done | by intros (k & [=] & _)]. }
  destruct remove_cold.
  - destruct (Hcold eq_refl) as [Hcount Hwarm].
    set (warm := {| columns := columns d;
                    rows := filter (λ r, warm_row r = true) (rows complete) |}).
    exists (fresh (dom h2)), (<[fresh (dom h2) := warm]> h2), warm.
    split; [|split; [apply lookup_insert_eq|split; [done|split; [done|split; [done|]]]]].
    + unfold filter_full_lifecycle.
      rewrite run_bind, (run_copy _ _ _ Hdf). fold h1.
      rewrite run_bind, (run_deref _ h1 d) by apply lookup_insert_eq.
      rewrite (column_Ok d "instance_id") by done.
      rewrite run_bind. cbn [raise_or_return run].
      rewrite result_mapM_fmap, (result_mapM_Ok _ instance_key)
        by (intros r Hr; by apply instance_key_Ok, Hkeys).
      rewrite run_bind. cbn [raise_or_return run].
      rewrite run_bind, run_alloc.
      assert (getitem_bool d
                ((λ v, isin v (filter (λ g, length g.2 = 4%nat)
                                 (groupby (instance_key <$> rows d))).*1)
                   <$> ((λ r, cell r "instance_id") <$> rows d)) = complete) as ->.
      { unfold complete, getitem_bool. f_equal. rewrite <- list_fmap_compose.
        rewrite (fmap_ext_in _ (full_lifecycle d)).
        - apply getitem_rows.
        - intros r Hr. apply lifecycle_mask; [done | by apply Hkeys]. }
      fold h2.
      rewrite run_bind, (run_deref _ h2 complete) by apply lookup_insert_eq.
      rewrite (column_Ok complete "invocation_count") by done.
      rewrite run_bind. cbn [raise_or_return run].
      rewrite result_mapM_fmap, (result_mapM_Ok _ warm_row).
      2:{ intros r Hr. apply warm_row_Ok. simpl in Hr.
          apply list_elem_of_filter in Hr as [Hr_full Hr]. by apply Hwarm. }
      rewrite run_bind. cbn [raise_or_return run]. rewrite run_alloc.
      unfold warm, getitem_bool. do 3 f_equal. apply getitem_rows.
    + intros _ r Hr Hle. simpl in Hr.
      apply list_elem_of_filter in Hr as [Hr_warm Hr].
      apply list_elem_of_filter in Hr as [Hr_full Hr].
      apply (at_most_one_not_warm _ Hle).
      rewrite warm_row_Ok by (by apply Hwarm). by rewrite Hr_warm.
  - exists (fresh (dom h1)), h2, complete.
    split; [|split; [apply lookup_insert_eq|split; [done|split; [done|split; [done|done]]]]].
    unfold filter_full_lifecycle.
    rewrite run_bind, (run_copy _ _ _ Hdf). fold h1.
    rewrite run_bind, (run_deref _ h1 d) by apply lookup_insert_eq.
    rewrite (column_Ok d "instance_id") by done.
    rewrite run_bind. cbn [raise_or_return run].
    rewrite result_mapM_fmap, (result_mapM_Ok _ instance_key)
      by (intros r Hr; by apply instance_key_Ok, Hkeys).
    rewrite run_bind. cbn [raise_or_return run].
    rewrite run_bind, run_alloc. cbv beta iota. cbn [mret pd_ret run].
    unfold h2, complete, getitem_bool. do 3 f_equal.
    rewrite <- list_fmap_compose.
    rewrite (fmap_ext_in _ (full_lifecycle d)).
    + apply getitem_rows.
    + intros r Hr. apply lifecycle_mask; [done | by apply Hkeys].
Qed.

(** ** The cleaning functions on the example tables *)

Lemma store_lifecycle_table : Example.store !! 1%positive = Some Example.lifecycle_table.
Proof. unfold Example.store. apply lookup_insert_eq. Defined.

Lemma store_timing_table : Example.store !! 2%positive = Some Example.timing_table.
Proof.
  unfold Example.store. rewrite lookup_insert_ne by done. apply lookup_insert_eq.
Defined.

Lemma timing_table_columns (c : string) :
  c ∈ ["runtime_ms"; "cpu_type"; "timestamp"] → c ∈ columns Example.timing_table.
Proof.
  revert c. apply Forall_forall.
  apply (bool_decide_unpack _). vm_compute. exact I.
Defined.

Lemma timing_table_rows (r : record) :
  r ∈ rows Example.timing_table →
  is_Some (group_key ["cpu_type"; "timestamp"] r)
  ∧ is_Ok (to_float (cell r "runtime_ms")).
Proof.
  revert r. apply Forall_forall.
  apply (bool_decide_unpack _). vm_compute. exact I.
Defined.

Lemma trim_on_benchmark_spec_witness :
  Example.store !! 2%positive = Some Example.timing_table
  ∧ ∃ l h' d',
      run (trim_on_benchmark Example.quantile 2%positive true "other")
        Example.store = (Ok l, h') ∧
      h' !! l = Some d' ∧
      rows d' = filter (λ r, within_percentile Example.quantile
                               Example.timing_table ["cpu_type"; "timestamp"]
                               "runtime_ms" r = true)
                  (rows Example.timing_table).
Proof.
  split; [exact store_timing_table|].
  destruct (trim_on_benchmark_spec Example.quantile Example.store 2%positive
              Example.timing_table true "other" store_timing_table
              timing_table_columns timing_table_rows)
    as (l & h' & d' & Hrun & Hl & Hrows & _).
  exists l, h', d'. split; [exact Hrun|]. split; [exact Hl|exact Hrows].
Defined.

(** Of the runtimes 1 to 100 of one group the 99th percentile is 99.01:
    the row with 100 goes and the other 99 stay, in their order; the other
    group is trimmed by its own percentile. *)
Lemma trim_on_benchmark_one_to_hundred :
  Example.runtimes
    <$> Example.returned (trim_on_benchmark Example.quantile 2%positive false "other")
  = Some (((λ i, (PStr "X", PInt (Z.of_nat i))) <$> seq 1 99) ++ [(PStr "Y", PInt 5)]).
Proof. vm_compute. reflexivity. Qed.

Lemma lifecycle_table_keys (r : record) :
  r ∈ rows Example.lifecycle_table → is_Ok (hash_key (cell r "instance_id")).
Proof.
  revert r. apply Forall_forall.
  apply (bool_decide_unpack _). vm_compute. exact I.
Defined.

Lemma lifecycle_table_counts :
  "invocation_count" ∈ columns Example.lifecycle_table
  ∧ ∀ r, r ∈ rows Example.lifecycle_table →
         full_lifecycle Example.lifecycle_table r = true →
         is_Ok (cell_gt_int (cell r "invocation_count") 1).
Proof.
  split; [apply (bool_decide_unpack _); vm_compute; exact I|].
  intros r Hr _. revert r Hr. apply Forall_forall.
  apply (bool_decide_unpack _). vm_compute. exact I.
Defined.

Lemma filter_full_lifecycle_spec_witness :
  Example.store !! 1%positive = Some Example.lifecycle_table
  ∧ "instance_id" ∈ columns Example.lifecycle_table
  ∧ ∃ l h' d',
      run (filter_full_lifecycle 1%positive true) Example.store = (Ok l, h') ∧
      h' !! l = Some d' ∧
      rows d' = filter (λ r, warm_row r = true)
                  (filter (λ r, full_lifecycle Example.lifecycle_table r = true)
                     (rows Example.lifecycle_table)) ∧
      ∀ r, r ∈ rows d' → ¬ at_most_one (cell r "invocation_count").
Proof.
  assert ("instance_id" ∈ columns Example.lifecycle_table) as Hcol.
  { apply (bool_decide_unpack _). vm_compute. exact I. }
  split; [exact store_lifecycle_table|]. split; [exact Hcol|].
  destruct (filter_full_lifecycle_spec Example.store 1%positive
              Example.lifecycle_table true store_lifecycle_table Hcol
              lifecycle_table_keys (λ _, lifecycle_table_counts))
    as (l & h' & d' & Hrun & Hl & _ & Hrows & _ & Hcold).
  exists l, h', d'. split; [exact Hrun|]. split; [exact Hl|].
  split; [exact Hrows|]. exact (Hcold eq_refl).
Defined.

(** With the instance ids A (4 rows), B (3 rows) and C (4 rows) the rows of
    A and C stay; with [remove_cold] their first invocations go as well. *)
Lemma filter_full_lifecycle_four_three_four :
  Example.invocations <$> Example.returned (filter_full_lifecycle 1%positive false)
  = Some [(PStr "A", PInt 1); (PStr "A", PInt 2); (PStr "C", PInt 1);
          (PStr "A", PInt 3); (PStr "C", PInt 2); (PStr "A", PInt 4);
          (PStr "C", PInt 3); (PStr "C", PInt 4)]
  ∧ Example.invocations <$> Example.returned (filter_full_lifecycle 1%positive true)
    = Some [(PStr "A", PInt 2); (PStr "A", PInt 3); (PStr "C", PInt 2);
            (PStr "A", PInt 4); (PStr "C", PInt 3); (PStr "C", PInt 4)].
Proof. split; vm_compute; reflexivity. Qed.

Lemma tables_not_mutated_witness :
  Example.store !! 1%positive = Some Example.lifecycle_table
  ∧ (run (filter_full_lifecycle 1%positive true) Example.store).2 !! 1%positive
    = Some Example.lifecycle_table
  ∧ (run (trim_on_benchmark Example.quantile 1%positive true "other")
       Example.store).2 !! 1%positive
    = Some Example.lifecycle_table.
Proof.
  destruct (tables_not_mutated Example.quantile Example.store 1%positive
              Example.lifecycle_table true true "other" store_lifecycle_table)
    as [[Htrim _] [Hfilter _]].
  split; [exact store_lifecycle_table|]. split; [exact Hfilter|exact Htrim].
Defined.

(** ** More on the record extractor *)

Lemma no_line_error_bind {A B} (m : io A) (f : A → io B) :
  no_line_error m → (∀ a, no_line_error (f a)) → no_line_error (m ≫= f).
Proof.
  unfold no_line_error, mbind, io_bind. intros Hm Hf.
  destruct (outcome m) as [a|e]; simpl; [|done].
  apply Forall_app. split; [done | apply Hf].
Qed.

Lemma no_line_error_lift {A} (r : result A) : no_line_error (lift r).
Proof. apply Forall_nil_2. Qed.

Lemma no_line_error_ret {A} (a : A) : no_line_error (mret a).
Proof. apply Forall_nil_2. Qed.

Lemma no_line_error_print (d : diag) : is_line_error d = false → no_line_error (print d).
Proof. intros H. apply Forall_cons. split; [done | apply Forall_nil_2]. Qed.

Ltac solve_no_line_error :=
  repeat first
    [ apply no_line_error_lift | apply no_line_error_ret
    | apply no_line_error_print; reflexivity
    | apply no_line_error_bind; [|intros ?]
    | match goal with
      | |- no_line_error (if ?c then _ else _) => destruct c
      end ].

Lemma result_bind_not_json {A B} (r : result A) (f : A → result B) :
  r ≠ Raise JSONDecodeError → (∀ a, f a ≠ Raise JSONDecodeError) →
  r ≫= f ≠ Raise JSONDecodeError.
Proof.
  intros Hr Hf. destruct r as [a|e]; simpl; [apply Hf|].
  intros [= ->]. by destruct Hr.
Qed.

Lemma outcome_bind_not_json {A B} (m : io A) (f : A → io B) :
  outcome m ≠ Raise JSONDecodeError →
  (∀ a, outcome (f a) ≠ Raise JSONDecodeError) →
  outcome (m ≫= f) ≠ Raise JSONDecodeError.
Proof.
  intros Hm Hf. unfold mbind, io_bind.
  destruct (outcome m) as [a|e]; simpl; [apply Hf|].
  intros [= ->]. by destruct Hm.
Qed.

Lemma py_get_not_json v k dflt : py_get v k dflt ≠ Raise JSONDecodeError.
Proof. by destruct v. Qed.

Lemma py_getitem_not_json v k : py_getitem v k ≠ Raise JSONDecodeError.
Proof. destruct v; try done. simpl. by destruct (d !! k). Qed.

Lemma py_contains_not_json s v : py_contains s v ≠ Raise JSONDecodeError.
Proof. by destruct v. Qed.

Lemma in_band_not_json freq lo hi : in_band freq lo hi ≠ Raise JSONDecodeError.
Proof.
  unfold in_band. destruct (py_truthy freq); [|done].
  destruct freq as [| | |f| | | |]; simpl; try done.
  - by destruct (lo <=? Z.b2z b).
  - by destruct (lo <=? z).
  - by destruct (float_ge_int f lo).
Qed.

Ltac not_json :=
  repeat first
    [ apply py_get_not_json | apply py_getitem_not_json
    | apply py_contains_not_json | apply in_band_not_json
    | apply outcome_bind_not_json; [|intros ?]
    | apply result_bind_not_json; [|intros ?]
    | match goal with
      | |- outcome (if ?c then _ else _) ≠ _ => destruct c
      | |- (if ?c then _ else _) ≠ _ => destruct c
      | |- outcome (lift _) ≠ _ => unfold lift; cbn [outcome]
      | |- outcome (print _) ≠ _ => done
      | |- outcome (mret _) ≠ _ => done
      | |- mret _ ≠ _ => done
      end ].

Lemma ascii_lower_not_upper (c : ascii) : is_upper (ascii_lower c) = false.
Proof. by destruct c as [[] [] [] [] [] [] [] []]. Qed.

Lemma str_lower_not_upper (s : string) (c : ascii) :
  c ∈ list_ascii_of_string (str_lower s) → is_upper c = false.
Proof.
  induction s as [|a s IH]; simpl; intros Hc.
  - by apply elem_of_nil in Hc.
  - apply elem_of_cons in Hc as [-> | Hc]; [apply ascii_lower_not_upper | by apply IH].
Qed.

Lemma benchmark_fields_keys benchmark w rec k :
  benchmark_fields benchmark w = Ok rec →
  is_Some (rec !! k) → is_Some (w !! k) ∨ k ∈ type_keys.
Proof.
  intros H Hk. destruct (decide (k ∈ type_keys)) as [|Hfresh]; [by right | left].
  by rewrite <- (benchmark_fields_frame _ _ _ _ H Hfresh).
Qed.

Lemma request_id_field_keys provider file header base w k :
  outcome (request_id_field provider file header base) = Ok w →
  is_Some (w !! k) → is_Some (base !! k) ∨ k ∈ request_id_keys.
Proof.
  intros H Hk. destruct (decide (k ∈ request_id_keys)) as [|Hfresh]; [by right | left].
  by rewrite <- (request_id_field_frame _ _ _ _ _ _ H Hfresh).
Qed.

Lemma request_id_field_outcome provider file file' header base :
  outcome (request_id_field provider file header base)
  = outcome (request_id_field provider file' header base).
Proof.
  unfold request_id_field.
  repeat match goal with
         | |- context [String.eqb provider ?s] => destruct (String.eqb provider s)
         end; reflexivity.
Qed.

Lemma outcome_bind {A B} (m : io A) (f : A → io B) :
  outcome (m ≫= f) = outcome m ≫= (λ a, outcome (f a)).
Proof. unfold mbind at 1, io_bind. by destruct (outcome m). Qed.

Lemma metric_for_benchmark_cases (t : string) :
  (t ∈ spec_type_fields.*1 ∧
   ∃ ks, (t, ks) ∈ spec_type_fields ∧ metric_for_benchmark t ∈ ks)
  ∨ ((t ∉ spec_type_fields.*1) ∧ metric_for_benchmark t = "runtime_ms").
Proof.
  change (spec_type_fields.*1) with ["gemm"; "aesCtr"; "gzip"; "sha256"; "json"].
  destruct (decide (t ∈ ["gemm"; "aesCtr"; "gzip"; "sha256"; "json"])) as [Hin|Hout].
  - left. split; [done|]. inv_elem Hin.
    + exists ["matrix_size"; "multiplication_time_ms"].
      split; apply (bool_decide_unpack _); vm_compute; exact I.
    + exists ["key_size"; "encrypt_size_mb"; "encrypt_time_ms"].
      split; apply (bool_decide_unpack _); vm_compute; exact I.
    + exists ["compress_size_mb"; "compress_time_ms"].
      split; apply (bool_decide_unpack _); vm_compute; exact I.
    + exists ["hash_size_mb"; "hash_time_ms"].
      split; apply (bool_decide_unpack _); vm_compute; exact I.
    + exists ["json_time_ms"].
      split; apply (bool_decide_unpack _); vm_compute; exact I.
  - right. split; [done|]. unfold metric_for_benchmark.
    rewrite !not_elem_of_cons in Hout.
    rewrite !list_to_map_cons, list_to_map_nil.
    rewrite !lookup_insert_ne, lookup_empty by (intros <-; tauto). done.
Qed.

Section ExtractorMore.

Variable json_loads : string → result pyval.
Variable fromisoformat : string → option datetime.
Variable lower_text : string → string.
Variable int_text : string → option Z.
Variable readlines : string → result (list string).
Variable shorten_cpu_name : pyval → result pyval.
Variable py_repr : pyval → string.

Let build := build_record json_loads shorten_cpu_name py_repr.
Let built := built_record json_loads shorten_cpu_name py_repr.
Let printed := line_output json_loads shorten_cpu_name py_repr.
Let parse := parse_log_file json_loads fromisoformat lower_text int_text readlines shorten_cpu_name py_repr.

(** X1: a file without lines gives no record and no output; a file whose
    first line is not JSON, so that [json.loads] raises [JSONDecodeError],
    gives no record and the one message of line 27, whatever its other
    lines hold, and neither raises.  Any other exception of [json.loads]
    on the first line is not caught by line 26: [parse_log_file] raises
    it, and prints nothing. *)
Theorem parse_log_file_without_metadata file lines :
  readlines file = Ok lines →
  (lines = [] → parse file = IO [] (Ok []))
  ∧ (∀ first, head lines = Some first →
       json_loads first = Raise JSONDecodeError →
       parse file = IO [InvalidMetadata file] (Ok []))
  ∧ (∀ first e, head lines = Some first →
       json_loads first = Raise e → e ≠ JSONDecodeError →
       parse file = IO [] (Raise e)).
Proof.
  intros Hread. unfold parse, parse_log_file.
  rewrite Hread, io_bind_lift_Ok. split; [|split].
  - by intros ->.
  - intros first Hfirst Hbad. destruct lines as [|first' rest]; [done|].
    injection Hfirst as ->. by rewrite Hbad.
  - intros first e Hfirst Hbad He. destruct lines as [|first' rest]; [done|].
    injection Hfirst as ->. rewrite Hbad. by destruct e.
Qed.

Lemma build_record_no_line_error file m line : no_line_error (build file m line).
Proof.
  unfold build, build_record, resolve_cpu_field, aws_amd_cpu_field, request_id_field.
  solve_no_line_error.
Qed.

Lemma build_record_not_json file m line :
  (∀ v, shorten_cpu_name v ≠ Raise JSONDecodeError) →
  is_Ok (json_loads line) →
  outcome (build file m line) ≠ Raise JSONDecodeError.
Proof.
  intros Hshort [data Hdata].
  unfold build, build_record, loads. rewrite Hdata, io_bind_lift_Ok.
  unfold resolve_cpu_field, aws_amd_cpu_field, gcp_cpu_field, common_fields,
    request_id_field, benchmark_fields.
  not_json. apply Hshort.
Qed.

(** Every line is a record, or is not JSON, or is reported once. *)
Lemma line_accounted file m line :
  (∀ v, shorten_cpu_name v ≠ Raise JSONDecodeError) →
  (length (from_option (λ rec, [rec]) [] (built file m line))
   + length (filter (λ l, is_json_error (json_loads l) = true) [line])
   + length (filter (λ d, is_line_error d = true) (printed file m line)) = 1)%nat.
Proof.
  intros Hshort.
  pose proof (build_record_no_line_error file m line) as Hquiet.
  pose proof (build_record_not_json file m line Hshort) as Hjson.
  assert (filter (λ d, is_line_error d = true) (output (build file m line)) = [])
    as Hnone.
  { apply filter_none. intros d Hd Htrue.
    unfold no_line_error in Hquiet. rewrite Forall_forall in Hquiet.
    rewrite (Hquiet d Hd) in Htrue. discriminate. }
  unfold built, built_record, printed, line_output, try_line.
  fold (build file m line).
  rewrite filter_cons, filter_nil.
  destruct (json_loads line) as [data|e'] eqn:Hdata.
  - rewrite decide_False by done.
    destruct (outcome (build file m line)) as [rec|e] eqn:Hout.
    + cbv beta iota. cbn [output]. by rewrite Hnone.
    + assert (e ≠ JSONDecodeError) as He.
      { intros ->. apply Hjson; [by eexists | done]. }
      destruct e; try done; cbv beta iota; cbn [output];
        rewrite filter_app, Hnone; done.
  - assert (build file m line = IO [] (Raise e')) as ->.
    { unfold build, build_record, loads. by rewrite Hdata. }
    cbn [outcome output]. destruct e'; simpl; done.
Qed.

(** X2: with a valid metadata line [parse_log_file] returns, and every
    following line is accounted for exactly once: it gives a record, or it
    is not JSON, so that [json.loads] raises [JSONDecodeError], and is
    passed over in silence, or it is reported by one message of line
    147. *)
Theorem parse_log_file_accounts_for_lines file first rest meta m :
  (∀ v, shorten_cpu_name v ≠ Raise JSONDecodeError) →
  readlines file = Ok (first :: rest) →
  json_loads first = Ok meta →
  extract_metadata fromisoformat lower_text int_text meta = Ok m →
  ∃ records,
    outcome (parse file) = Ok records ∧
    (length records
     + length (filter (λ line, is_json_error (json_loads line) = true) rest)
     + length (filter (λ d, is_line_error d = true) (output (parse file)))
     = length rest)%nat.
Proof.
  intros Hshort Hread Hmeta Hm.
  unfold parse.
  rewrite (parse_log_file_valid_metadata json_loads fromisoformat lower_text int_text readlines
             shorten_cpu_name py_repr _ _ _ _ _ Hread Hmeta Hm).
  eexists. split; [reflexivity|]. cbn [output].
  fold built printed. clear Hread.
  induction rest as [|line rest IH]; [done|].
  rewrite omap_cons_eq, bind_cons.
  rewrite (filter_app _ (printed file m line)), length_app.
  change (filter (λ line, is_json_error (json_loads line) = true) (line :: rest))
    with (filter (λ l, is_json_error (json_loads l) = true) ([line] ++ rest)).
  rewrite (filter_app _ [line] rest), length_app.
  pose proof (line_accounted file m line Hshort) as Hline.
  destruct (built file m line) as [rec|]; simpl in *; lia.
Qed.

Lemma extract_metadata_Ok meta m :
  extract_metadata fromisoformat lower_text int_text meta = Ok m →
  ∃ d ts,
    meta = PDict d ∧
    d !! "timestamp" = Some (PStr ts) ∧
    fromisoformat (str_replace "Z" "+00:00" ts) = Some (meta_timestamp m) ∧
    py_lower lower_text (default (PStr "unknown") (d !! "provider")) = Ok (meta_provider m) ∧
    meta_region m = default (PStr "unknown") (d !! "region") ∧
    py_int int_text (default (PStr "unknown") (d !! "memorySize")) = Ok (meta_memory m) ∧
    meta_function m = default (PStr "unknown") (d !! "function") ∧
    py_int int_text (default (PInt 0) (d !! "parallel-requests")) = Ok (meta_parallel m) ∧
    py_int int_text (default (PInt 0) (d !! "iterationsPerBenchmark")) = Ok (meta_iterations m) ∧
    py_int int_text (default (PInt 0) (d !! "retries")) = Ok (meta_retries m).
Proof.
  intros H. unfold extract_metadata in H.
  destruct meta as [| | | | | |d|]; try discriminate.
  apply result_bind_Ok in H as (ts & Hts & H).
  apply result_bind_Ok in H as (iso & Hiso & H).
  apply result_bind_Ok in H as (timestamp & Htime & H).
  apply result_bind_Ok in H as (provider & Hprov & H).
  apply result_bind_Ok in H as (region & Hregion & H).
  apply result_bind_Ok in H as (memory & Hmemory & H).
  apply result_bind_Ok in H as (function & Hfunction & H).
  apply result_bind_Ok in H as (parallel & Hparallel & H).
  apply result_bind_Ok in H as (iterations & Hiterations & H).
  apply result_bind_Ok in H as (retries & Hretries & H).
  apply Ok_inj in H. subst m. cbn [meta_timestamp meta_provider meta_region
    meta_memory meta_function meta_parallel meta_iterations meta_retries].
  simpl in Hts. destruct (d !! "timestamp") as [v|] eqn:Hv; [|discriminate].
  apply Ok_inj in Hts. subst v.
  destruct ts as [| | | |ts| | |]; try discriminate.
  simpl in Hiso. apply Ok_inj in Hiso. subst iso.
  destruct (fromisoformat (str_replace "Z" "+00:00" ts)) as [t|] eqn:Hiso;
    [|discriminate].
  apply Ok_inj in Htime. subst t.
  simpl in Hregion, Hfunction. apply Ok_inj in Hregion, Hfunction.
  exists d, ts. by repeat split.
Qed.

Lemma common_fields_metadata m body benchmark cpu_field base :
  common_fields shorten_cpu_name m body benchmark cpu_field = Ok base →
  base !! "timestamp" = Some (PDatetime (meta_timestamp m)) ∧
  base !! "provider" = Some (PStr (meta_provider m)) ∧
  base !! "region" = Some (meta_region m) ∧
  base !! "function" = Some (meta_function m) ∧
  base !! "memory_size_mb" = Some (PInt (meta_memory m)) ∧
  base !! "parallel_requests" = Some (PInt (meta_parallel m)) ∧
  base !! "iterations_per_benchmark" = Some (PInt (meta_iterations m)) ∧
  base !! "retries" = Some (PInt (meta_retries m)).
Proof.
  intros H. unfold common_fields in H.
  do 13 (apply result_bind_Ok in H as (? & _ & H)).
  cbv [mret result_ret] in H. apply Ok_inj in H. subst base.
  repeat split; by vm_compute.
Qed.

Lemma common_fields_benchmark_type m body b cpu_field base :
  common_fields shorten_cpu_name m body (PDict b) cpu_field = Ok base →
  base !! "benchmark_type" = Some (default (PStr "unknown") (b !! "type")).
Proof.
  intros H. unfold common_fields in H.
  do 10 (apply result_bind_Ok in H as (? & _ & H)).
  apply result_bind_Ok in H as (benchmark_type & Hty & H).
  do 2 (apply result_bind_Ok in H as (? & _ & H)).
  cbv [mret result_ret] in H. apply Ok_inj in H. subst base.
  simpl in Hty. apply Ok_inj in Hty. subst benchmark_type. by vm_compute.
Qed.

(** The parts that the record of a line is made of. *)
Lemma build_record_parts file m line rec :
  outcome (build file m line) = Ok rec →
  ∃ body b cpu_field base header with_id,
    common_fields shorten_cpu_name m body (PDict b) cpu_field = Ok base ∧
    outcome (request_id_field (meta_provider m) file header base) = Ok with_id ∧
    benchmark_fields (PDict b) with_id = Ok rec ∧
    (∀ k, is_Some (base !! k) ↔ k ∈ common_keys) ∧
    (∀ k, k ∈ common_keys → rec !! k = base !! k).
Proof.
  intros H.
  apply (build_record_Ok json_loads shorten_cpu_name py_repr) in H
    as (data & body & benchmark & cpu_field & base & header & with_id &
        Hdata & Hbody & Hbench & Hcpu & Hbase & Hheader & Hid & Hrec & _).
  destruct benchmark as [| | | | | |b|]; try discriminate.
  exists body, b, cpu_field, base, header, with_id.
  destruct (common_fields_spec _ _ _ _ _ _ Hbase) as (_ & _ & Hdom).
  repeat split; try done; try apply Hdom.
  intros k Hk. destruct (common_keys_fresh k Hk) as [Htype Hreq].
  rewrite (benchmark_fields_frame _ _ _ _ Hrec Htype).
  apply (request_id_field_frame _ _ _ _ _ _ Hid Hreq).
Qed.

(** X3: the eight fields that come from the metadata line are the same in
    every record of a file: the parsed timestamp, the lower-cased provider,
    the region and the function as given (["unknown"] without them), and
    the four integers that [int] makes of [memorySize],
    [parallel-requests], [iterationsPerBenchmark] and [retries]. *)
Theorem records_carry_the_metadata file records rec :
  outcome (parse file) = Ok records → rec ∈ records →
  ∃ first rest d ts m,
    readlines file = Ok (first :: rest) ∧
    json_loads first = Ok (PDict d) ∧
    d !! "timestamp" = Some (PStr ts) ∧
    fromisoformat (str_replace "Z" "+00:00" ts) = Some (meta_timestamp m) ∧
    py_lower lower_text (default (PStr "unknown") (d !! "provider")) = Ok (meta_provider m) ∧
    meta_region m = default (PStr "unknown") (d !! "region") ∧
    py_int int_text (default (PStr "unknown") (d !! "memorySize")) = Ok (meta_memory m) ∧
    meta_function m = default (PStr "unknown") (d !! "function") ∧
    py_int int_text (default (PInt 0) (d !! "parallel-requests")) = Ok (meta_parallel m) ∧
    py_int int_text (default (PInt 0) (d !! "iterationsPerBenchmark")) = Ok (meta_iterations m) ∧
    py_int int_text (default (PInt 0) (d !! "retries")) = Ok (meta_retries m) ∧
    ∀ rec', rec' ∈ records →
      rec' !! "timestamp" = Some (PDatetime (meta_timestamp m)) ∧
      rec' !! "provider" = Some (PStr (meta_provider m)) ∧
      rec' !! "region" = Some (meta_region m) ∧
      rec' !! "function" = Some (meta_function m) ∧
      rec' !! "memory_size_mb" = Some (PInt (meta_memory m)) ∧
      rec' !! "parallel_requests" = Some (PInt (meta_parallel m)) ∧
      rec' !! "iterations_per_benchmark" = Some (PInt (meta_iterations m)) ∧
      rec' !! "retries" = Some (PInt (meta_retries m)).
Proof.
  intros H Hrec.
  destruct (parse_log_file_record_origin json_loads fromisoformat lower_text int_text readlines
              shorten_cpu_name py_repr _ _ _ H Hrec)
    as (first & rest & meta & m & line & Hread & Hmeta & Hm & _ & _).
  destruct (extract_metadata_Ok _ _ Hm)
    as (d & ts & -> & Hts & Hiso & Hprov & Hregion & Hmemory & Hfunction &
        Hparallel & Hiterations & Hretries).
  exists first, rest, d, ts, m. do 11 (split; [done|]).
  intros rec' Hrec'.
  destruct (parse_log_file_record_origin json_loads fromisoformat lower_text int_text readlines
              shorten_cpu_name py_repr _ _ _ H Hrec')
    as (first' & rest' & meta' & m' & line' & Hread' & Hmeta' & Hm' & _ & Hbuild).
  rewrite Hread in Hread'. apply Ok_inj in Hread'. injection Hread' as <- <-.
  rewrite Hmeta in Hmeta'. injection Hmeta' as <-.
  rewrite Hm in Hm'. apply Ok_inj in Hm'. subst m'.
  destruct (build_record_parts _ _ _ _ Hbuild)
    as (body & b & cpu_field & base & header & with_id & Hbase & _ & _ & _ & Hcommon).
  destruct (common_fields_metadata _ _ _ _ _ Hbase)
    as (H1 & H2 & H3 & H4 & H5 & H6 & H7 & H8).
  rewrite !Hcommon by (apply (bool_decide_unpack _); vm_compute; exact I).
  done.
Qed.

(** X4: the provider of a record holds no upper-case ASCII letter. *)
Theorem provider_has_no_upper_case file records rec :
  outcome (parse file) = Ok records → rec ∈ records →
  ∃ p, rec !! "provider" = Some (PStr p) ∧
       ∀ c, c ∈ list_ascii_of_string p → is_upper c = false.
Proof.
  intros H Hrec.
  destruct (parse_log_file_record_origin json_loads fromisoformat lower_text int_text readlines
              shorten_cpu_name py_repr _ _ _ H Hrec)
    as (first & rest & meta & m & line & _ & _ & Hm & _ & Hbuild).
  destruct (extract_metadata_Ok _ _ Hm) as (d & ts & _ & _ & _ & Hprov & _).
  destruct (build_record_parts _ _ _ _ Hbuild)
    as (body & b & cpu_field & base & header & with_id & Hbase & _ & _ & _ & Hcommon).
  destruct (common_fields_metadata _ _ _ _ _ Hbase) as (_ & Hprovider & _).
  exists (meta_provider m). split.
  - rewrite Hcommon by (apply (bool_decide_unpack _); vm_compute; exact I). done.
  - destruct (default (PStr "unknown") (d !! "provider")) as [| | | |s| | |];
      try discriminate.
    simpl in Hprov. apply Ok_inj in Hprov. rewrite <- Hprov.
    apply str_lower_not_upper.
Qed.

(** X5: a line that is JSON but has no [body], because the object lacks
    the key or because the value is not an object, gives no record and is
    reported by one message of line 147 with the [KeyError] or the
    [TypeError]; the other lines give what they give without it. *)
Theorem line_without_body_is_reported file first before bad after meta m data e :
  readlines file = Ok (first :: before ++ bad :: after) →
  json_loads first = Ok meta →
  extract_metadata fromisoformat lower_text int_text meta = Ok m →
  json_loads bad = Ok data →
  (∃ d, data = PDict d ∧ d !! "body" = None ∧ e = KeyError "body")
  ∨ ((∀ d, data ≠ PDict d) ∧ e = TypeError) →
  parse file
  = IO ((before ≫= printed file m) ++ [LineError file e] ++ (after ≫= printed file m))
       (Ok (omap (built file m) before ++ omap (built file m) after)).
Proof.
  intros Hread Hmeta Hm Hbad Hbody.
  unfold parse.
  rewrite (parse_log_file_valid_metadata json_loads fromisoformat lower_text int_text readlines
             shorten_cpu_name py_repr _ _ _ _ _ Hread Hmeta Hm).
  fold built printed.
  assert (py_getitem data "body" = Raise e ∧ e ≠ JSONDecodeError) as [Hget He].
  { destruct Hbody as [(d & -> & Hnone & ->) | [Hnot ->]].
    - simpl. by rewrite Hnone.
    - split; [|done]. destruct data; try done. by destruct (Hnot d). }
  assert (build file m bad = IO [] (Raise e)) as Hbuild.
  { unfold build, build_record, loads. by rewrite Hbad, io_bind_lift_Ok, Hget. }
  assert (built file m bad = None) as Hnone.
  { unfold built, built_record. fold (build file m bad). by rewrite Hbuild. }
  assert (printed file m bad = [LineError file e]) as Hprinted.
  { unfold printed, line_output, try_line. fold (build file m bad).
    rewrite Hbuild. cbn [outcome output]. by destruct e. }
  rewrite bind_app, bind_cons, omap_app, omap_cons_eq, Hnone, Hprinted. done.
Qed.

Lemma result_bind_ext {A B} (r : result A) (f g : A → result B) :
  (∀ a, f a = g a) → r ≫= f = r ≫= g.
Proof. intros H. destruct r as [a|e]; [apply H | done]. Qed.

(** The record of a line does not depend on the name of the file. *)
Lemma build_record_outcome_any_file file file' m line :
  outcome (build file m line) = outcome (build file' m line).
Proof.
  unfold build, build_record.
  do 6 (rewrite !outcome_bind; apply result_bind_ext; intros ?).
  rewrite !outcome_bind.
  by rewrite (request_id_field_outcome _ file file').
Qed.

Lemma built_record_any_file file file' m line :
  built file m line = built file' m line.
Proof.
  unfold built, built_record. fold (build file m line) (build file' m line).
  by rewrite (build_record_outcome_any_file file file').
Qed.

(** X6: the records of a file do not depend on its name, and they are the
    records of its lines one after the other: a file holds the records of
    its first part followed by those of the rest, each read under the same
    metadata line. *)
Theorem parse_log_file_concatenation file file1 file2 first lines1 lines2 meta m :
  readlines file = Ok (first :: lines1 ++ lines2) →
  readlines file1 = Ok (first :: lines1) →
  readlines file2 = Ok (first :: lines2) →
  json_loads first = Ok meta →
  extract_metadata fromisoformat lower_text int_text meta = Ok m →
  ∃ records1 records2,
    outcome (parse file1) = Ok records1 ∧
    outcome (parse file2) = Ok records2 ∧
    outcome (parse file) = Ok (records1 ++ records2).
Proof.
  intros Hread Hread1 Hread2 Hmeta Hm.
  exists (omap (built file m) lines1), (omap (built file m) lines2).
  unfold parse.
  rewrite (parse_log_file_valid_metadata json_loads fromisoformat lower_text int_text readlines
             shorten_cpu_name py_repr _ _ _ _ _ Hread Hmeta Hm).
  rewrite (parse_log_file_valid_metadata json_loads fromisoformat lower_text int_text readlines
             shorten_cpu_name py_repr _ _ _ _ _ Hread1 Hmeta Hm).
  rewrite (parse_log_file_valid_metadata json_loads fromisoformat lower_text int_text readlines
             shorten_cpu_name py_repr _ _ _ _ _ Hread2 Hmeta Hm).
  cbn [outcome]. fold built. split; [|split].
  - f_equal. apply omap_ext_in. intros line _. apply built_record_any_file.
  - f_equal. apply omap_ext_in. intros line _. apply built_record_any_file.
  - by rewrite omap_app.
Qed.

(** The keys of the record of a line. *)
Lemma build_record_keys file m line rec :
  outcome (build file m line) = Ok rec →
  (∀ k, k ∈ common_keys → is_Some (rec !! k))
  ∧ (∀ k, is_Some (rec !! k) → k ∈ common_keys ++ request_id_keys ++ type_keys).
Proof.
  intros Hbuild.
  destruct (build_record_parts _ _ _ _ Hbuild)
    as (body & b & cpu_field & base & header & with_id &
        Hbase & Hid & Hfields & Hdom & Hcommon).
  split.
  - intros k Hk. rewrite (Hcommon k Hk). by apply Hdom.
  - intros k Hk. rewrite !elem_of_app.
    destruct (benchmark_fields_keys _ _ _ _ Hfields Hk) as [Hk'|Hk'];
      [|by right; right].
    destruct (request_id_field_keys _ _ _ _ _ _ Hid Hk') as [Hk''|Hk''];
      [|by right; left].
    left. by apply Hdom.
Qed.

(** The metric of the record of a line. *)
Lemma build_record_metric file m line rec t :
  outcome (build file m line) = Ok rec →
  rec !! "benchmark_type" = Some (PStr t) →
  is_Some (rec !! metric_for_benchmark t).
Proof.
  intros Hbuild Hty.
  destruct (build_record_parts _ _ _ _ Hbuild)
    as (body & b & cpu_field & base & header & with_id &
        Hbase & Hid & Hfields & Hdom & Hcommon).
  rewrite Hcommon in Hty by (apply (bool_decide_unpack _); vm_compute; exact I).
  rewrite (common_fields_benchmark_type _ _ _ _ _ Hbase) in Hty.
  injection Hty as Hty.
  destruct (metric_for_benchmark_cases t) as [(Hin & ks & Hks & Hmetric) | [_ ->]].
  - assert (default PNone (b !! "type") = PStr t) as Hb.
    { destruct (b !! "type") as [v|]; [done|]. simpl in Hty.
      injection Hty as <-. exfalso. revert Hin.
      apply (bool_decide_unpack _). vm_compute. exact I. }
    by apply (proj1 (benchmark_fields_types _ _ _ _ _ _ Hfields Hks Hmetric)).
  - rewrite Hcommon by (apply (bool_decide_unpack _); vm_compute; exact I).
    apply Hdom. apply (bool_decide_unpack _). vm_compute. exact I.
Qed.

(** X7: a record holds each of the 21 fields of the dict literal, and no
    field besides these, the four request ids and the ten fields of the
    benchmark types. *)
Theorem record_keys file records rec :
  outcome (parse file) = Ok records → rec ∈ records →
  (∀ k, k ∈ common_keys → is_Some (rec !! k))
  ∧ (∀ k, is_Some (rec !! k) → k ∈ common_keys ++ request_id_keys ++ type_keys).
Proof.
  intros H Hrec.
  destruct (parse_log_file_record_origin json_loads fromisoformat lower_text int_text readlines
              shorten_cpu_name py_repr _ _ _ H Hrec)
    as (first & rest & meta & m & line & _ & _ & _ & _ & Hbuild).
  by apply (build_record_keys file m line).
Qed.

(** X8: a record whose [benchmark_type] is the string [t] holds the field
    that [metric_for_benchmark t] names. *)
Theorem record_holds_its_metric file records rec t :
  outcome (parse file) = Ok records → rec ∈ records →
  rec !! "benchmark_type" = Some (PStr t) →
  is_Some (rec !! metric_for_benchmark t).
Proof.
  intros H Hrec Hty.
  destruct (parse_log_file_record_origin json_loads fromisoformat lower_text int_text readlines
              shorten_cpu_name py_repr _ _ _ H Hrec)
    as (first & rest & meta & m & line & _ & _ & _ & _ & Hbuild).
  by apply (build_record_metric file m line).
Qed.

End ExtractorMore.

(** X9: [metric_for_benchmark] names a field that the extractor writes:
    the time field of a recognized benchmark type, and [runtime_ms] for
    every other text; two types with the same metric are the same type or
    are both unrecognized. *)
Theorem metric_for_benchmark_names_a_field (t : string) :
  metric_for_benchmark t ∈ common_keys ++ type_keys
  ∧ (metric_for_benchmark t = "runtime_ms" ↔ t ∉ spec_type_fields.*1)
  ∧ (∀ t', metric_for_benchmark t' = metric_for_benchmark t →
           t' = t ∨ ((t ∉ spec_type_fields.*1) ∧ (t' ∉ spec_type_fields.*1))).
Proof.
  assert (∀ u, u ∈ spec_type_fields.*1 →
            metric_for_benchmark u ≠ "runtime_ms" ∧
            ∀ u', u' ∈ spec_type_fields.*1 →
                  metric_for_benchmark u' = metric_for_benchmark u → u' = u)
    as Hknown.
  { assert (Forall (λ u, metric_for_benchmark u ≠ "runtime_ms" ∧
                         Forall (λ u', metric_for_benchmark u' = metric_for_benchmark u
                                       → u' = u) (spec_type_fields.*1))
                    (spec_type_fields.*1)) as Hall
      by (apply (bool_decide_unpack _); vm_compute; exact I).
    intros u Hu. rewrite Forall_forall in Hall.
    destruct (Hall u Hu) as [Hne Hinj]. split; [done|].
    intros u' Hu'. rewrite Forall_forall in Hinj. by apply Hinj. }
  split; [|split].
  - destruct (metric_for_benchmark_cases t) as [(_ & ks & Hks & Hmetric) | [_ ->]].
    + apply elem_of_app. right. by apply (in_type_keys t ks).
    + apply (bool_decide_unpack _). vm_compute. exact I.
  - split.
    + intros Hrun Hin. by destruct (Hknown t Hin) as [Hne _].
    + intros Hout. destruct (metric_for_benchmark_cases t) as [[Hin _] | [_ H]]; done.
  - intros t' Heq.
    destruct (metric_for_benchmark_cases t) as [[Hin _] | [Hout Hrun]],
             (metric_for_benchmark_cases t') as [[Hin' _] | [Hout' Hrun']].
    + left. by apply (proj2 (Hknown t Hin)).
    + rewrite Hrun' in Heq. symmetry in Heq. by destruct (Hknown t Hin) as [Hne _].
    + rewrite Hrun in Heq. by destruct (Hknown t' Hin') as [Hne _].
    + by right.
Qed.

(** ** The further properties of the extractor on the example files *)

Lemma parse_log_file_without_metadata_witness :
  Sample.parse "data/bad_meta.log" = IO [InvalidMetadata "data/bad_meta.log"] (Ok [])
  ∧ Sample.parse "data/empty.log" = IO [] (Ok [])
  ∧ Sample.parse "data/long_meta.log" = IO [] (Raise ValueError).
Proof.
  split; [|split].
  - refine (proj1 (proj2 (parse_log_file_without_metadata
              Example.json_loads Example.fromisoformat
              Example.lower_text Example.int_text
              Sample.readlines Example.shorten_cpu_name Example.py_repr
              "data/bad_meta.log" [Example.broken_line; Example.gemm_line] _))
              Example.broken_line _ _); vm_compute; reflexivity.
  - refine (proj1 (parse_log_file_without_metadata
              Example.json_loads Example.fromisoformat
              Example.lower_text Example.int_text
              Sample.readlines Example.shorten_cpu_name Example.py_repr
              "data/empty.log" [] _) _); vm_compute; reflexivity.
  - refine (proj2 (proj2 (parse_log_file_without_metadata
              Example.json_loads Example.fromisoformat
              Example.lower_text Example.int_text
              Sample.readlines Example.shorten_cpu_name Example.py_repr
              "data/long_meta.log" [Example.long_number; Example.gemm_line] _))
              Example.long_number ValueError _ _ _);
      [vm_compute; reflexivity | reflexivity | vm_compute; reflexivity
      | discriminate].
Defined.

Lemma shorten_cpu_name_not_json (v : pyval) :
  Example.shorten_cpu_name v ≠ Raise JSONDecodeError.
Proof. by destruct v. Defined.

Lemma parse_log_file_accounts_for_lines_witness :
  ∃ records,
    outcome (Sample.parse "data/mixed.log") = Ok records ∧
    (length records
     + length (filter (λ line, is_json_error (Example.json_loads line) = true)
                 [Example.gemm_line; Example.broken_line;
                  Example.metadata_no_memory; Example.long_number;
                  Example.plain_line])
     + length (filter (λ d, is_line_error d = true)
                 (output (Sample.parse "data/mixed.log")))
     = 5)%nat.
Proof.
  apply (parse_log_file_accounts_for_lines Example.json_loads Example.fromisoformat
           Example.lower_text Example.int_text
           Sample.readlines Example.shorten_cpu_name Example.py_repr
           "data/mixed.log" Example.metadata_line
           [Example.gemm_line; Example.broken_line; Example.metadata_no_memory;
            Example.long_number; Example.plain_line]
           (PDict (list_to_map
              [("timestamp", PStr "2024-01-01T00:00:00Z");
               ("provider", PStr "AWS"); ("memorySize", PInt 128)]))
           Example.meta shorten_cpu_name_not_json);
    vm_compute; reflexivity.
Defined.

Lemma records_carry_the_metadata_witness :
  ∃ m, ∀ rec, rec ∈ Example.y_records →
         rec !! "provider" = Some (PStr (meta_provider m))
         ∧ rec !! "memory_size_mb" = Some (PInt (meta_memory m)).
Proof.
  destruct (records_carry_the_metadata Example.json_loads Example.fromisoformat
              Example.lower_text Example.int_text
              Example.readlines Example.shorten_cpu_name Example.py_repr
              "root/run1/y.log" Example.y_records Example.first_record
              y_records_parsed first_record_parsed)
    as (first & rest & d & ts & m & _ & _ & _ & _ & _ & _ & _ & _ & _ & _ & _ & Hall).
  exists m. intros rec Hrec.
  destruct (Hall rec Hrec) as (_ & Hprovider & _ & _ & Hmemory & _).
  split; [exact Hprovider | exact Hmemory].
Defined.

Lemma provider_has_no_upper_case_witness :
  ∃ p, Example.first_record !! "provider" = Some (PStr p) ∧
       ∀ c, c ∈ list_ascii_of_string p → is_upper c = false.
Proof.
  exact (provider_has_no_upper_case Example.json_loads Example.fromisoformat
           Example.lower_text Example.int_text
           Example.readlines Example.shorten_cpu_name Example.py_repr
           "root/run1/y.log" Example.y_records Example.first_record
           y_records_parsed first_record_parsed).
Defined.

Lemma line_without_body_is_reported_witness :
  Sample.parse "data/mixed.log"
  = IO (([Example.gemm_line; Example.broken_line]
           ≫= line_output Example.json_loads Example.shorten_cpu_name
                Example.py_repr "data/mixed.log" Example.meta)
        ++ [LineError "data/mixed.log" (KeyError "body")]
        ++ ([Example.long_number; Example.plain_line]
              ≫= line_output Example.json_loads Example.shorten_cpu_name
                   Example.py_repr "data/mixed.log" Example.meta))
       (Ok (omap (built_record Example.json_loads Example.shorten_cpu_name
                    Example.py_repr "data/mixed.log" Example.meta)
              [Example.gemm_line; Example.broken_line]
            ++ omap (built_record Example.json_loads Example.shorten_cpu_name
                       Example.py_repr "data/mixed.log" Example.meta)
                 [Example.long_number; Example.plain_line])).
Proof.
  apply (line_without_body_is_reported Example.json_loads Example.fromisoformat
           Example.lower_text Example.int_text
           Sample.readlines Example.shorten_cpu_name Example.py_repr
           "data/mixed.log" Example.metadata_line
           [Example.gemm_line; Example.broken_line] Example.metadata_no_memory
           [Example.long_number; Example.plain_line]
           (PDict (list_to_map
              [("timestamp", PStr "2024-01-01T00:00:00Z");
               ("provider", PStr "AWS"); ("memorySize", PInt 128)]))
           Example.meta
           (PDict (list_to_map
              [("timestamp", PStr "2024-01-01T00:00:00Z");
               ("provider", PStr "aws")]))
           (KeyError "body")); try (vm_compute; reflexivity).
  left. eexists. split; [reflexivity|]. split; vm_compute; reflexivity.
Defined.

Lemma parse_log_file_concatenation_witness :
  ∃ records1 records2,
    outcome (Sample.parse "data/first.log") = Ok records1 ∧
    outcome (Sample.parse "data/second.log") = Ok records2 ∧
    outcome (Sample.parse "data/both.log") = Ok (records1 ++ records2).
Proof.
  apply (parse_log_file_concatenation Example.json_loads Example.fromisoformat
           Example.lower_text Example.int_text
           Sample.readlines Example.shorten_cpu_name Example.py_repr
           "data/both.log" "data/first.log" "data/second.log"
           Example.metadata_line [Example.gemm_line] [Example.plain_line]
           (PDict (list_to_map
              [("timestamp", PStr "2024-01-01T00:00:00Z");
               ("provider", PStr "AWS"); ("memorySize", PInt 128)]))
           Example.meta); vm_compute; reflexivity.
Defined.

Lemma record_keys_witness :
  (∀ k, k ∈ common_keys → is_Some (Example.first_record !! k))
  ∧ (∀ k, is_Some (Example.first_record !! k) →
          k ∈ common_keys ++ request_id_keys ++ type_keys).
Proof.
  exact (record_keys Example.json_loads Example.fromisoformat
           Example.lower_text Example.int_text
           Example.readlines Example.shorten_cpu_name Example.py_repr
           "root/run1/y.log" Example.y_records Example.first_record
           y_records_parsed first_record_parsed).
Defined.

Lemma first_record_is_gemm :
  Example.first_record !! "benchmark_type" = Some (PStr "gemm").
Proof. vm_compute. reflexivity. Defined.

Lemma record_holds_its_metric_witness :
  is_Some (Example.first_record !! metric_for_benchmark "gemm").
Proof.
  exact (record_holds_its_metric Example.json_loads Example.fromisoformat
           Example.lower_text Example.int_text
           Example.readlines Example.shorten_cpu_name Example.py_repr
           "root/run1/y.log" Example.y_records Example.first_record "gemm"
           y_records_parsed first_record_parsed first_record_is_gemm).
Defined.

(** ** More on processor labels *)

Section CpuMore.

Variable py_repr : pyval → string.

(** X10: outside GCP a [cpuType] that is a string is kept as the label,
    and nothing is printed, unless the provider is [aws] and the string
    contains ["AMD"]; a [cpuType] that is null or a number makes the
    membership test of line 64 raise [TypeError]. *)
Theorem cpu_field_kept_as_reported (provider : string) (d : gmap string pyval) :
  provider ≠ "gcp" →
  let cpu_type := default (PStr "unknown") (d !! "cpuType") in
  (∀ s, cpu_type = PStr s →
        provider ≠ "aws" ∨ str_contains "AMD" s = false →
        resolve_cpu_field py_repr provider (PDict d) = mret (PStr s))
  ∧ (match cpu_type with
     | PNone | PBool _ | PInt _ | PFloat _ => True
     | _ => False
     end →
     resolve_cpu_field py_repr provider (PDict d) = IO [] (Raise TypeError)).
Proof.
  intros Hgcp cpu_type. unfold resolve_cpu_field. io_simpl. fold cpu_type.
  destruct (String.eqb_spec provider "gcp") as [|_]; [done|]. io_simpl.
  split.
  - intros s -> Hkeep. io_simpl.
    destruct Hkeep as [Haws | ->]; [|done].
    destruct (String.eqb_spec provider "aws") as [|_]; [done|].
    by rewrite andb_false_r.
  - intros Hty. by destruct cpu_type.
Qed.

(** X11: on AWS, for a [cpuType] that contains ["AMD"], a frequency given
    as text makes the comparison of line 65 raise [TypeError], except the
    empty text, which counts as no frequency. *)
Theorem aws_amd_frequency_as_text (d : gmap string pyval) (cpu_type s : string) :
  d !! "cpuType" = Some (PStr cpu_type) →
  str_contains "AMD" cpu_type = true →
  d !! "cpuFrequencyMHz" = Some (PStr s) →
  resolve_cpu_field py_repr "aws" (PDict d)
  = if (s =? "")%string
    then IO [UnknownAMDFrequency (PStr "")] (Ok (PStr "AMD EPYC unknown"))
    else IO [] (Raise TypeError).
Proof.
  intros Htype Hamd Hfreq. unfold resolve_cpu_field. io_simpl.
  rewrite Htype, Hfreq. io_simpl. rewrite Hamd. simpl.
  unfold aws_amd_cpu_field, in_band. simpl.
  destruct (String.eqb_spec s "") as [-> | Hs]; by io_simpl.
Qed.

End CpuMore.

Lemma cpu_field_kept_as_reported_witness :
  resolve_cpu_field Example.py_repr "azure"
    (PDict (list_to_map [("cpuType", PStr "AMD EPYC 7763")]))
  = mret (PStr "AMD EPYC 7763")
  ∧ resolve_cpu_field Example.py_repr "aws"
      (PDict (list_to_map [("cpuType", PInt 7)]))
    = IO [] (Raise TypeError).
Proof.
  split.
  - refine (proj1 (cpu_field_kept_as_reported Example.py_repr "azure"
              (list_to_map [("cpuType", PStr "AMD EPYC 7763")]) _)
              "AMD EPYC 7763" _ _).
    + discriminate.
    + vm_compute. reflexivity.
    + left. discriminate.
  - refine (proj2 (cpu_field_kept_as_reported Example.py_repr "aws"
              (list_to_map [("cpuType", PInt 7)]) _) _).
    + discriminate.
    + vm_compute. exact I.
Defined.

Lemma aws_amd_frequency_as_text_witness :
  resolve_cpu_field Example.py_repr "aws"
    (PDict (list_to_map [("cpuType", PStr "AMD EPYC");
                         ("cpuFrequencyMHz", PStr "2650")]))
  = IO [] (Raise TypeError).
Proof.
  apply (aws_amd_frequency_as_text Example.py_repr
           (list_to_map [("cpuType", PStr "AMD EPYC");
                         ("cpuFrequencyMHz", PStr "2650")])
           "AMD EPYC" "2650"); vm_compute; reflexivity.
Defined.

(** ** More on the outlier trimmer *)

Lemma float_le_trans (x y z : pyfloat) :
  float_le x y = true → float_le y z = true → float_le x z = true.
Proof.
  destruct x as [|[]|a], y as [|[]|b], z as [|[]|c]; simpl; try done.
  rewrite !Qle_bool_iff. apply Qle_trans.
Qed.

Section TrimmerMore.

Variable quantile : list pyval → pyfloat → pyfloat.

Let keep := within_percentile quantile.

(** The run of [trim_on_benchmark] on a table whose rows all have a group. *)
Lemma trim_on_benchmark_run (h : heap) (df : loc) (d : DataFrame)
    (group_on_timestamp : bool) (benchmark : string) :
  let metric := metric_for_benchmark benchmark in
  let group_by := "cpu_type" :: (if group_on_timestamp then ["timestamp"] else []) in
  let selected :=
    {| columns := (match rows d with [] => ∅ | _ => columns d end);
       rows := filter (λ r, keep d group_by metric r = true) (rows d) |} in
  let h1 := <[fresh (dom h) := selected]> h in
  h !! df = Some d →
  (∀ c, c ∈ metric :: group_by → c ∈ columns d) →
  (∀ r, r ∈ rows d →
        is_Some (group_key group_by r) ∧ is_Ok (to_float (cell r metric))) →
  run (trim_on_benchmark quantile df group_on_timestamp benchmark) h
  = (Ok (fresh (dom h1)), <[fresh (dom h1) := selected]> h1).
Proof.
  intros metric group_by selected h1 Hdf Hcols Hrows.
  unfold trim_on_benchmark. fold metric.
  change (["cpu_type"] ++ (if group_on_timestamp then ["timestamp"] else []))
    with group_by.
  rewrite run_bind, (run_deref _ _ _ Hdf).
  rewrite run_bind, (groupby_transform_spec quantile d group_by metric Hcols Hrows).
  cbn [raise_or_return run].
  rewrite run_bind, getitem_mask_spec. cbn [raise_or_return run].
  rewrite run_bind, run_bind, run_alloc. fold selected h1. cbv beta iota.
  erewrite run_copy by apply lookup_insert_eq.
  reflexivity.
Qed.

(** Selecting rows by a boolean series keeps rows of the table in their
    order. *)
Lemma getitem_sublist {A} (l : list A) (bs : list bool) :
  (zip l bs ≫= (λ '(r, b), if b : bool then [r] else [])) `sublist_of` l.
Proof.
  revert bs. induction l as [|x l IH]; intros [|b bs];
    try apply sublist_nil_l.
  change (zip (x :: l) (b :: bs)) with ((x, b) :: zip l bs).
  rewrite bind_cons. destruct b; simpl.
  - apply sublist_skip, IH.
  - apply sublist_cons, IH.
Qed.

Lemma getitem_mask_total d (bs : list bool) :
  bs ≠ [] →
  getitem_mask d (Some <$> bs)
  = Ok {| columns := columns d;
          rows := zip (rows d) bs ≫= (λ '(r, b), if b : bool then [r] else []) |}.
Proof.
  intros Hbs. destruct bs as [|b bs]; [done|].
  unfold getitem_mask.
  change (Some <$> b :: bs) with (Some b :: (Some <$> bs)). cbv beta iota.
  change (Some b :: (Some <$> bs)) with (Some <$> (b :: bs)).
  by rewrite (mapM_fmap_Some id Some).
Qed.

(** The mask of line 183 when the labels stand for the group values. *)
Lemma groupby_transform_labels d group_by metric c :
  c ∈ group_by → c ∉ columns d →
  length group_by = length (rows d) →
  metric ∈ columns d →
  (∀ r, r ∈ rows d → is_Ok (to_float (cell r metric))) →
  ∃ bs, length bs = length (rows d) ∧
        groupby_transform quantile d group_by metric = Ok (Some <$> bs).
Proof.
  intros Hc Hmissing Hlen Hmetric Hvalues. unfold groupby_transform.
  destruct (filter (λ c, c ∉ columns d) group_by) as [|c' cs] eqn:Hfilter.
  { assert (c ∈ filter (λ c, c ∉ columns d) group_by) as Hin
      by (by apply list_elem_of_filter).
    rewrite Hfilter in Hin. by apply elem_of_nil in Hin. }
  rewrite decide_True by done.
  unfold column. rewrite decide_True by done. simpl.
  rewrite numeric_spec by done. simpl.
  set (l := zip group_by (rows d)).
  assert ((λ label, Some [HStr label]) <$> group_by
          = (λ p : string * record, Some [HStr p.1]) <$> l) as ->.
  { unfold l. rewrite <- (fst_zip group_by (rows d)) at 1 by lia.
    by rewrite <- list_fmap_compose. }
  assert (metric_cell d metric <$> rows d
          = (λ p : string * record, metric_cell d metric p.2) <$> l) as ->.
  { unfold l. rewrite <- (snd_zip group_by (rows d)) at 1 by lia.
    by rewrite <- list_fmap_compose. }
  unfold trim_outliers.
  rewrite (transform_pointwise (λ p : string * record, Some [HStr p.1])
             (λ p : string * record, metric_cell d metric p.2)
             (λ xs v, float_le (float_of v)
                        (series_quantile quantile xs
                           (FFin (4458563631096791 # 4503599627370496))))).
  2:{ destruct group_by as [|c0 group_by']; [by apply elem_of_nil in Hc|].
      destruct (rows d) as [|r0 rs]; [done|].
      exists (c0, r0). split; [by left | by eexists]. }
  eexists (_ <$> l). split.
  - unfold l. rewrite length_fmap, length_zip. lia.
  - f_equal. rewrite <- list_fmap_compose. reflexivity.
Qed.

(** X12: when the table lacks the metric column of the benchmark,
    [trim_on_benchmark] raises [KeyError] and creates no table.  So it
    does when the table lacks [cpu_type] or, with [group_on_timestamp],
    [timestamp], unless the table has as many rows as there are grouping
    labels: then the labels themselves are taken as the group values, one
    for each row, and on a metric column of numbers the call returns a
    new table that holds rows of the argument in their order. *)
Theorem trim_on_benchmark_missing_column (h : heap) (df : loc) (d : DataFrame)
    (group_on_timestamp : bool) (benchmark : string) :
  let metric := metric_for_benchmark benchmark in
  let group_by := "cpu_type" :: (if group_on_timestamp then ["timestamp"] else []) in
  h !! df = Some d →
  (metric ∉ columns d →
   ∃ key, run (trim_on_benchmark quantile df group_on_timestamp benchmark) h
          = (Raise (KeyError key), h))
  ∧ (∀ c, c ∈ group_by → c ∉ columns d →
       length (rows d) ≠ length group_by →
       ∃ key, run (trim_on_benchmark quantile df group_on_timestamp benchmark) h
              = (Raise (KeyError key), h))
  ∧ (∀ c, c ∈ group_by → c ∉ columns d →
       length (rows d) = length group_by →
       metric ∈ columns d →
       (∀ r, r ∈ rows d → is_Ok (to_float (cell r metric))) →
       ∃ l h' d',
         run (trim_on_benchmark quantile df group_on_timestamp benchmark) h
         = (Ok l, h') ∧
         h !! l = None ∧
         h' !! l = Some d' ∧
         rows d' `sublist_of` rows d).
Proof.
  intros metric group_by Hdf.
  assert (
    run (trim_on_benchmark quantile df group_on_timestamp benchmark) h
    = run (mask ← raise_or_return (groupby_transform quantile d group_by metric);
           selected ← raise_or_return (getitem_mask d mask);
           trimmed_df ← alloc selected ≫= copy;
           mret trimmed_df) h) as Hrun.
  { unfold trim_on_benchmark. fold metric.
    change (["cpu_type"] ++ (if group_on_timestamp then ["timestamp"] else []))
      with group_by.
    by rewrite run_bind, (run_deref _ _ _ Hdf). }
  split; [|split].
  - intros Hmissing. rewrite Hrun, run_bind. unfold groupby_transform.
    destruct (filter (λ c, c ∉ columns d) group_by) as [|c' cs].
    + exists metric. unfold column. by rewrite decide_False.
    + destruct (decide (length group_by = length (rows d))).
      * exists metric. unfold column. by rewrite decide_False.
      * by exists c'.
  - intros c Hc Hmissing Hlen. rewrite Hrun, run_bind. unfold groupby_transform.
    destruct (filter (λ c, c ∉ columns d) group_by) as [|c' cs] eqn:Hfilter.
    { assert (c ∈ filter (λ c, c ∉ columns d) group_by) as Hin
        by (by apply list_elem_of_filter).
      rewrite Hfilter in Hin. by apply elem_of_nil in Hin. }
    rewrite decide_False by done. by exists c'.
  - intros c Hc Hmissing Hlen Hmetric Hvalues.
    destruct (groupby_transform_labels d group_by metric c Hc Hmissing
                (eq_sym Hlen) Hmetric Hvalues) as (bs & Hbs & Hmask).
    rewrite Hrun, run_bind, Hmask. cbn [raise_or_return run].
    rewrite run_bind, getitem_mask_total.
    2:{ intros ->. simpl in Hbs. rewrite <- Hbs in Hlen. by destruct group_on_timestamp. }
    cbn [raise_or_return run].
    rewrite run_bind, run_bind, run_alloc. cbv beta iota.
    erewrite run_copy by apply lookup_insert_eq.
    eexists _, _, _. split; [reflexivity|]. split; [|split].
    + apply not_elem_of_dom. intros Hin.
      match goal with
      | H : fresh (dom ?h1) ∈ dom h |- _ => apply (is_fresh (dom h1))
      end.
      apply dom_insert_subseteq, Hin.
    + apply lookup_insert_eq.
    + cbn [rows]. apply getitem_sublist.
Qed.

(** X13: the table that [trim_on_benchmark] returns holds rows of the
    argument in their order, and of a group it drops the largest values
    only: with a row that stays, every row of its group whose metric is
    not larger stays. *)
Theorem trim_on_benchmark_drops_from_the_top (h : heap) (df : loc) (d : DataFrame)
    (group_on_timestamp : bool) (benchmark : string) :
  let metric := metric_for_benchmark benchmark in
  let group_by := "cpu_type" :: (if group_on_timestamp then ["timestamp"] else []) in
  h !! df = Some d →
  (∀ c, c ∈ metric :: group_by → c ∈ columns d) →
  (∀ r, r ∈ rows d →
        is_Some (group_key group_by r) ∧ is_Ok (to_float (cell r metric))) →
  ∃ l h' d',
    run (trim_on_benchmark quantile df group_on_timestamp benchmark) h = (Ok l, h') ∧
    h' !! l = Some d' ∧
    rows d' `sublist_of` rows d ∧
    ∀ r1 r2,
      r1 ∈ rows d' → r2 ∈ rows d →
      group_key group_by r2 = group_key group_by r1 →
      float_le (metric_value metric r2) (metric_value metric r1) = true →
      r2 ∈ rows d'.
Proof.
  intros metric group_by Hdf Hcols Hrows.
  pose proof (trim_on_benchmark_run h df d group_on_timestamp benchmark
                Hdf Hcols Hrows) as Hrun.
  cbv zeta in Hrun. fold metric group_by in Hrun.
  eexists _, _, _. split; [exact Hrun|]. split; [apply lookup_insert_eq|].
  cbn [rows]. split; [apply sublist_filter|].
  intros r1 r2 Hr1 Hr2 Hkey Hle.
  apply list_elem_of_filter in Hr1 as [Hkeep _].
  apply list_elem_of_filter. split; [|done].
  unfold keep, within_percentile in *. rewrite Hkey.
  destruct (group_key group_by r1) as [k|]; [|done].
  by apply (float_le_trans _ _ _ Hle).
Qed.

End TrimmerMore.

(** ** More on the lifecycle filter *)

Lemma filter_all {A} (P : A → Prop) `{∀ x, Decision (P x)} (l : list A) :
  (∀ x, x ∈ l → P x) → filter P l = l.
Proof.
  induction l as [|x l IH]; intros Hall; [done|].
  rewrite filter_cons, decide_True by (apply Hall; by left).
  f_equal. apply IH. intros y Hy. apply Hall. by right.
Qed.

Lemma length_filter_orb {A} (p q : A → bool) (l : list A) :
  (∀ x, x ∈ l → p x = true → q x = true → False) →
  length (filter (λ x, p x || q x = true) l)
  = (length (filter (λ x, p x = true) l) + length (filter (λ x, q x = true) l))%nat.
Proof.
  induction l as [|x l IH]; intros Hdisj; [done|].
  rewrite !filter_cons.
  assert (∀ y, y ∈ l → p y = true → q y = true → False) as Hl
    by (intros y Hy; apply Hdisj; by right).
  specialize (IH Hl).
  assert (p x = true → q x = true → False) as Hx by (apply Hdisj; by left).
  destruct (p x), (q x); simpl; rewrite ?IH; simpl; try lia.
Qed.

Lemma length_filter_fmap {A B} (f : A → B) (P : B → Prop) `{∀ y, Decision (P y)}
    (l : list A) :
  length (filter P (f <$> l)) = length (filter (λ x, P (f x)) l).
Proof.
  induction l as [|x l IH]; [done|].
  rewrite fmap_cons, !filter_cons.
  destruct (decide (P (f x))); simpl; by rewrite IH.
Qed.

Section Counting.
Context {R K : Type} `{EqDecision K}.
Variable key : R → option K.
Variable l : list R.
Variable c : nat.

Let cnt (k : K) : nat := length (filter (λ r, key r = Some k) l).

Let sel (ks : list K) (r : R) : bool :=
  match key r with
  | Some k => bool_decide (k ∈ ks) && bool_decide (cnt k = c)
  | None => false
  end.

(** The rows whose key is one of [ks] and is held by [c] rows are [c] rows
    for each such key. *)
Lemma length_filter_groups (ks : list K) :
  NoDup ks →
  length (filter (λ r, sel ks r = true) l)
  = (c * length (filter (λ k, cnt k = c) ks))%nat.
Proof.
  induction 1 as [|k ks Hk Hks IH].
  - rewrite filter_nil, filter_none; [simpl; lia|].
    intros r _. unfold sel. destruct (key r); [|done].
    by rewrite bool_decide_eq_false_2 by apply not_elem_of_nil.
  - set (selk := λ r, bool_decide (key r = Some k ∧ cnt k = c)).
    rewrite (filter_ext_in _ (λ r, selk r || sel ks r = true)).
    2:{ intros r _. assert (sel (k :: ks) r = selk r || sel ks r) as ->; [|done].
        unfold sel, selk. destruct (key r) as [k'|]; simpl; [|done].
        destruct (decide (k' = k)) as [->|Hne].
        - rewrite (bool_decide_eq_true_2 (k ∈ k :: ks)) by left.
          rewrite (bool_decide_eq_false_2 (k ∈ ks)) by done. simpl.
          rewrite orb_false_r.
          apply bool_decide_ext. split; [done | by intros [_ ?]].
        - rewrite (bool_decide_eq_false_2 (Some k' = Some k ∧ _))
            by (intros [[= ?] _]; done).
          simpl. f_equal. apply bool_decide_ext. rewrite elem_of_cons.
          split; [by intros [?|?] | by right]. }
    rewrite length_filter_orb.
    2:{ intros r _ Hsel Hsels. unfold selk in Hsel. unfold sel in Hsels.
        apply bool_decide_eq_true in Hsel as [Hr _]. rewrite Hr in Hsels.
        apply andb_true_iff in Hsels as [Hin _].
        by apply bool_decide_eq_true in Hin. }
    rewrite IH, filter_cons.
    destruct (decide (cnt k = c)) as [Hc|Hc].
    + rewrite (filter_ext_in _ (λ r, key r = Some k)).
      2:{ intros r _. unfold selk. rewrite bool_decide_eq_true.
          split; [by intros [? _] | done]. }
      fold (cnt k). rewrite Hc. simpl. lia.
    + rewrite filter_none; [simpl; lia|].
      intros r _. unfold selk. rewrite bool_decide_eq_true. by intros [_ ?].
Qed.

(** The rows whose key is held by [c] rows are [c] rows for each such key. *)
Lemma length_filter_complete :
  length (filter (λ r, match key r with
                       | Some k => bool_decide (cnt k = c)
                       | None => false
                       end = true) l)
  = (c * length (filter (λ g, length g.2 = c) (groupby (key <$> l))))%nat.
Proof.
  unfold groupby.
  rewrite length_filter_fmap. cbn [snd].
  rewrite (filter_ext_in (λ k, length (positions k (key <$> l)) = c)
             (λ k, cnt k = c)).
  2:{ intros k _. unfold cnt. by rewrite length_positions. }
  rewrite <- length_filter_groups by apply NoDup_remove_dups.
  f_equal. apply filter_ext_in. intros r Hr. unfold sel.
  destruct (key r) as [k|] eqn:Hk; [|done].
  rewrite (bool_decide_eq_true_2 (k ∈ _)); [done|].
  apply elem_of_remove_dups, list_elem_of_omap. exists (Some k). split; [|done].
  apply list_elem_of_fmap. by exists r.
Qed.

End Counting.

(** The run of [filter_full_lifecycle] without [remove_cold]. *)
Lemma filter_full_lifecycle_run (h : heap) (df : loc) (d : DataFrame) :
  let complete :=
    {| columns := columns d;
       rows := filter (λ r, full_lifecycle d r = true) (rows d) |} in
  let h1 := <[fresh (dom h) := d]> h in
  h !! df = Some d →
  "instance_id" ∈ columns d →
  (∀ r, r ∈ rows d → is_Ok (hash_key (cell r "instance_id"))) →
  run (filter_full_lifecycle df false) h
  = (Ok (fresh (dom h1)), <[fresh (dom h1) := complete]> h1).
Proof.
  intros complete h1 Hdf Hcol Hkeys.
  unfold filter_full_lifecycle.
  rewrite run_bind, (run_copy _ _ _ Hdf). fold h1.
  rewrite run_bind, (run_deref _ h1 d) by apply lookup_insert_eq.
  rewrite (column_Ok d "instance_id") by done.
  rewrite run_bind. cbn [raise_or_return run].
  rewrite result_mapM_fmap, (result_mapM_Ok _ instance_key)
    by (intros r Hr; by apply instance_key_Ok, Hkeys).
  rewrite run_bind. cbn [raise_or_return run].
  rewrite run_bind, run_alloc. cbv beta iota. cbn [mret pd_ret run].
  unfold complete, getitem_bool. do 3 f_equal.
  rewrite <- list_fmap_compose.
  rewrite (fmap_ext_in _ (full_lifecycle d)).
  - apply getitem_rows.
  - intros r Hr. apply lifecycle_mask; [done | by apply Hkeys].
Qed.

(** How often an instance id occurs among the rows of complete lifecycles. *)
Lemma occurrences_complete (d : DataFrame) (k : hkey) :
  occurrences {| columns := columns d;
                 rows := filter (λ r, full_lifecycle d r = true) (rows d) |} k
  = if decide (occurrences d k = 4%nat) then 4%nat else 0%nat.
Proof.
  unfold occurrences at 1. cbn [rows]. rewrite list_filter_filter.
  destruct (decide (occurrences d k = 4%nat)) as [Hk|Hk].
  - etrans; [|exact Hk]. unfold occurrences. f_equal.
    apply filter_ext_in. intros r _. unfold full_lifecycle. split; [by intros [? _]|].
    intros Hr. split; [done|]. rewrite Hr. by apply bool_decide_eq_true_2.
  - rewrite filter_none; [done|].
    intros r _ [Hr Hfull]. unfold full_lifecycle in Hfull. rewrite Hr in Hfull.
    by apply bool_decide_eq_true in Hfull.
Qed.

(** X14: without its column [instance_id] a table makes
    [filter_full_lifecycle] raise [KeyError]; with [remove_cold], so does a
    table without [invocation_count].  The argument and the other tables
    stay as they are. *)
Theorem filter_full_lifecycle_missing_column (h : heap) (df : loc) (d : DataFrame)
    (remove_cold : bool) :
  h !! df = Some d →
  ("instance_id" ∉ columns d →
   ∃ h', run (filter_full_lifecycle df remove_cold) h
         = (Raise (KeyError "instance_id"), h') ∧ h ⊆ h')
  ∧ ("instance_id" ∈ columns d →
     "invocation_count" ∉ columns d →
     (∀ r, r ∈ rows d → is_Ok (hash_key (cell r "instance_id"))) →
     ∃ h', run (filter_full_lifecycle df true) h
           = (Raise (KeyError "invocation_count"), h') ∧ h ⊆ h').
Proof.
  intros Hdf. split.
  - intros Hmissing. exists (<[fresh (dom h) := d]> h). split.
    + unfold filter_full_lifecycle.
      rewrite run_bind, (run_copy _ _ _ Hdf).
      rewrite run_bind, (run_deref _ _ d) by apply lookup_insert_eq.
      rewrite run_bind. unfold column. by rewrite decide_False.
    + apply insert_subseteq, fresh_loc_None.
  - intros Hcol Hmissing Hkeys.
    set (h1 := <[fresh (dom h) := d]> h).
    set (complete := {| columns := columns d;
                        rows := filter (λ r, full_lifecycle d r = true) (rows d) |}).
    exists (<[fresh (dom h1) := complete]> h1). split.
    + unfold filter_full_lifecycle.
      rewrite run_bind, (run_copy _ _ _ Hdf). fold h1.
      rewrite run_bind, (run_deref _ h1 d) by apply lookup_insert_eq.
      rewrite (column_Ok d "instance_id") by done.
      rewrite run_bind. cbn [raise_or_return run].
      rewrite result_mapM_fmap, (result_mapM_Ok _ instance_key)
        by (intros r Hr; by apply instance_key_Ok, Hkeys).
      rewrite run_bind. cbn [raise_or_return run].
      rewrite run_bind, run_alloc.
      assert (getitem_bool d
                ((λ v, isin v (filter (λ g, length g.2 = 4%nat)
                                 (groupby (instance_key <$> rows d))).*1)
                   <$> ((λ r, cell r "instance_id") <$> rows d)) = complete) as ->.
      { unfold complete, getitem_bool. f_equal. rewrite <- list_fmap_compose.
        rewrite (fmap_ext_in _ (full_lifecycle d)).
        - apply getitem_rows.
        - intros r Hr. apply lifecycle_mask; [done | by apply Hkeys]. }
      fold h1.
      rewrite run_bind, (run_deref _ _ complete) by apply lookup_insert_eq.
      rewrite run_bind. unfold column. cbn [columns]. by rewrite decide_False.
    + etrans; [apply (insert_subseteq h (fresh (dom h)) d), fresh_loc_None|].
      apply insert_subseteq, fresh_loc_None.
Qed.

(** X15: without [remove_cold], every instance id of the table that
    [filter_full_lifecycle] returns is held by exactly four of its rows,
    and the table has four rows for each instance id that line 203 finds
    valid. *)
Theorem filter_full_lifecycle_four_rows_each (h : heap) (df : loc) (d : DataFrame) :
  h !! df = Some d →
  "instance_id" ∈ columns d →
  (∀ r, r ∈ rows d → is_Ok (hash_key (cell r "instance_id"))) →
  ∃ l h' d',
    run (filter_full_lifecycle df false) h = (Ok l, h') ∧
    h' !! l = Some d' ∧
    (∀ r, r ∈ rows d' →
          ∃ k, instance_key r = Some k ∧ occurrences d' k = 4%nat) ∧
    length (rows d')
    = (4 * length (filter (λ g, length g.2 = 4%nat)
                     (groupby (instance_key <$> rows d))))%nat.
Proof.
  intros Hdf Hcol Hkeys.
  eexists _, _, _.
  split; [exact (filter_full_lifecycle_run h df d Hdf Hcol Hkeys)|].
  split; [apply lookup_insert_eq|]. split.
  - intros r Hr. cbn [rows] in Hr.
    apply list_elem_of_filter in Hr as [Hfull _].
    unfold full_lifecycle in Hfull.
    destruct (instance_key r) as [k|]; [|done].
    apply bool_decide_eq_true in Hfull.
    exists k. split; [done|]. rewrite occurrences_complete. by rewrite decide_True.
  - cbn [rows]. rewrite <- (length_filter_complete instance_key (rows d) 4). done.
Qed.

(** X16: without [remove_cold], [filter_full_lifecycle] applied to the
    table it returned returns a table with the same rows and columns. *)
Theorem filter_full_lifecycle_idempotent (h : heap) (df : loc) (d : DataFrame) :
  h !! df = Some d →
  "instance_id" ∈ columns d →
  (∀ r, r ∈ rows d → is_Ok (hash_key (cell r "instance_id"))) →
  ∃ l h' d',
    run (filter_full_lifecycle df false) h = (Ok l, h') ∧
    h' !! l = Some d' ∧
    ∃ l2 h2 d2,
      run (filter_full_lifecycle l false) h' = (Ok l2, h2) ∧
      h2 !! l2 = Some d2 ∧
      rows d2 = rows d' ∧ columns d2 = columns d'.
Proof.
  intros Hdf Hcol Hkeys.
  set (complete := {| columns := columns d;
                      rows := filter (λ r, full_lifecycle d r = true) (rows d) |}).
  eexists _, _, complete.
  split; [exact (filter_full_lifecycle_run h df d Hdf Hcol Hkeys)|].
  split; [apply lookup_insert_eq|].
  eexists _, _, _. split.
  { apply (filter_full_lifecycle_run _ _ complete); [apply lookup_insert_eq | done |].
    intros r Hr. apply Hkeys. cbn [rows] in Hr.
    by apply list_elem_of_filter in Hr as [_ Hr]. }
  split; [apply lookup_insert_eq|]. split; [|done].
  cbn [rows]. apply filter_all. intros r Hr.
  apply list_elem_of_filter in Hr as [Hfull _].
  unfold full_lifecycle in *.
  destruct (instance_key r) as [k|]; [|done].
  apply bool_decide_eq_true in Hfull. apply bool_decide_eq_true_2.
  fold complete. unfold complete. rewrite occurrences_complete.
  by rewrite decide_True.
Qed.

(** ** The further properties of the cleaning functions on the example tables *)

Lemma lifecycle_table_has_instance_id : "instance_id" ∈ columns Example.lifecycle_table.
Proof. apply (bool_decide_unpack _). vm_compute. exact I. Defined.

Lemma lifecycle_table_lacks_cpu_type : "cpu_type" ∉ columns Example.lifecycle_table.
Proof. apply (bool_decide_unpack _). vm_compute. exact I. Defined.

Lemma timing_table_lacks_instance_id : "instance_id" ∉ columns Example.timing_table.
Proof. apply (bool_decide_unpack _). vm_compute. exact I. Defined.

Lemma store_lone_table : Example.store !! 3%positive = Some Example.lone_table.
Proof.
  unfold Example.store. rewrite !lookup_insert_ne by done. apply lookup_insert_eq.
Defined.

Lemma lone_table_values (r : record) :
  r ∈ rows Example.lone_table → is_Ok (to_float (cell r "runtime_ms")).
Proof.
  revert r. apply Forall_forall.
  apply (bool_decide_unpack _). vm_compute. exact I.
Defined.

Lemma trim_on_benchmark_missing_column_witness :
  (∃ key,
     run (trim_on_benchmark Example.quantile 1%positive false "gemm") Example.store
     = (Raise (KeyError key), Example.store))
  ∧ (∃ key,
       run (trim_on_benchmark Example.quantile 1%positive false "other")
         Example.store
       = (Raise (KeyError key), Example.store))
  ∧ ∃ l h' d',
      run (trim_on_benchmark Example.quantile 3%positive false "other")
        Example.store = (Ok l, h') ∧
      Example.store !! l = None ∧
      h' !! l = Some d' ∧
      rows d' `sublist_of` rows Example.lone_table.
Proof.
  split; [|split].
  - apply (proj1 (trim_on_benchmark_missing_column Example.quantile Example.store
                    1%positive Example.lifecycle_table false "gemm"
                    store_lifecycle_table)).
    apply (bool_decide_unpack _). vm_compute. exact I.
  - apply (proj1 (proj2 (trim_on_benchmark_missing_column Example.quantile
                           Example.store 1%positive Example.lifecycle_table
                           false "other" store_lifecycle_table))
             "cpu_type").
    + left.
    + exact lifecycle_table_lacks_cpu_type.
    + discriminate.
  - apply (proj2 (proj2 (trim_on_benchmark_missing_column Example.quantile
                           Example.store 3%positive Example.lone_table
                           false "other" store_lone_table))
             "cpu_type").
    + left.
    + apply (bool_decide_unpack _). vm_compute. exact I.
    + reflexivity.
    + apply (bool_decide_unpack _). vm_compute. exact I.
    + exact lone_table_values.
Defined.

Lemma trim_on_benchmark_drops_from_the_top_witness :
  ∃ l h' d',
    run (trim_on_benchmark Example.quantile 2%positive true "other")
      Example.store = (Ok l, h') ∧
    h' !! l = Some d' ∧
    rows d' `sublist_of` rows Example.timing_table.
Proof.
  destruct (trim_on_benchmark_drops_from_the_top Example.quantile Example.store
              2%positive Example.timing_table true "other" store_timing_table
              timing_table_columns timing_table_rows)
    as (l & h' & d' & Hrun & Hl & Hsub & _).
  exists l, h', d'. split; [exact Hrun|]. split; [exact Hl | exact Hsub].
Defined.

Lemma filter_full_lifecycle_missing_column_witness :
  ∃ h', run (filter_full_lifecycle 2%positive false) Example.store
        = (Raise (KeyError "instance_id"), h') ∧ Example.store ⊆ h'.
Proof.
  exact (proj1 (filter_full_lifecycle_missing_column Example.store 2%positive
                  Example.timing_table false store_timing_table)
           timing_table_lacks_instance_id).
Defined.

Lemma filter_full_lifecycle_four_rows_each_witness :
  ∃ l h' d',
    run (filter_full_lifecycle 1%positive false) Example.store = (Ok l, h') ∧
    h' !! l = Some d' ∧
    length (rows d')
    = (4 * length (filter (λ g, length g.2 = 4%nat)
                     (groupby (instance_key <$> rows Example.lifecycle_table))))%nat.
Proof.
  destruct (filter_full_lifecycle_four_rows_each Example.store 1%positive
              Example.lifecycle_table store_lifecycle_table
              lifecycle_table_has_instance_id lifecycle_table_keys)
    as (l & h' & d' & Hrun & Hl & _ & Hlen).
  exists l, h', d'. split; [exact Hrun|]. split; [exact Hl | exact Hlen].
Defined.

Lemma filter_full_lifecycle_idempotent_witness :
  ∃ l h' d',
    run (filter_full_lifecycle 1%positive false) Example.store = (Ok l, h') ∧
    h' !! l = Some d' ∧
    ∃ l2 h2 d2,
      run (filter_full_lifecycle l false) h' = (Ok l2, h2) ∧
      h2 !! l2 = Some d2 ∧
      rows d2 = rows d' ∧ columns d2 = columns d'.
Proof.
  exact (filter_full_lifecycle_idempotent Example.store 1%positive
           Example.lifecycle_table store_lifecycle_table
           lifecycle_table_has_instance_id lifecycle_table_keys).
Defined.

(** ** Paths *)

Lemma append_nil (b : string) : "" +:+ b = b.
Proof. reflexivity. Qed.

Lemma append_cons (c : ascii) (a b : string) : String c a +:+ b = String c (a +:+ b).
Proof. reflexivity. Qed.

Lemma append_sep_assoc (a : string) (c : ascii) (b : string) :
  (a +:+ String c "") +:+ b = a +:+ String c b.
Proof.
  induction a as [|x a IH]; [done|]. by rewrite !append_cons, IH.
Qed.

Lemma str_split_nonempty (sep : ascii) (s : string) : str_split sep s ≠ [].
Proof.
  destruct s as [|c s]; simpl; [done|].
  destruct (Ascii.eqb c sep); [done|]. by destruct (str_split sep s).
Qed.

Lemma str_split_app_sep (sep : ascii) (a b : string) :
  str_split sep (a +:+ String sep b) = str_split sep a ++ str_split sep b.
Proof.
  induction a as [|c a IH].
  - rewrite append_nil. simpl. by rewrite Ascii.eqb_refl.
  - rewrite append_cons. simpl.
    destruct (Ascii.eqb c sep); rewrite IH; [done|].
    pose proof (str_split_nonempty sep a) as Hne.
    by destruct (str_split sep a).
Qed.

Lemma str_split_no_sep (n : string) :
  str_contains "/" n = false →
  str_split "/" n = [n] ∧ String.prefix "/" n = false.
Proof.
  induction n as [|c n IH]; [done|].
  intros H. cbn [str_contains] in H. apply orb_false_iff in H as [Hc Hn].
  split; [|exact Hc]. destruct (IH Hn) as [Hsplit _].
  cbn [str_split]. rewrite Hsplit.
  destruct (Ascii.eqb_spec c "/") as [-> | _]; [|done].
  simpl in Hc. by destruct n.
Qed.

Lemma str_endswith_sep (a : string) :
  str_endswith a "/" = true → ∃ a', a = a' +:+ "/".
Proof.
  induction a as [|c a IH]; [done|].
  destruct a as [|c' a].
  - unfold str_endswith. simpl. intros H.
    destruct (Ascii.eqb_spec c "/") as [-> | _]; [by exists "" | done].
  - intros H.
    assert (str_endswith (String c' a) "/" = true) as H'.
    { unfold str_endswith in *. simpl in *. by rewrite Nat.sub_0_r in *. }
    destruct (IH H') as [a' Ha']. exists (String c a').
    by rewrite append_cons, <- Ha'.
Qed.

(** The components of a joined path. *)
Lemma logs_in_path_join (top n : string) :
  str_contains "/" n = false →
  "logs" ∈ str_split "/" (path_join top n) ↔ "logs" ∈ str_split "/" top ∨ n = "logs".
Proof.
  intros Hn. destruct (str_split_no_sep n Hn) as [Hsplit Hprefix].
  unfold path_join. rewrite Hprefix.
  destruct (String.eqb_spec top "") as [-> | Htop].
  - cbn [orb]. cbv beta iota. rewrite append_nil, Hsplit. cbn [str_split].
    rewrite !list_elem_of_singleton. split; [by right | by intros [|]].
  - cbn [orb]. destruct (str_endswith top "/") eqn:Hend.
    + destruct (str_endswith_sep top Hend) as [a' ->]. cbv beta iota.
      rewrite append_sep_assoc, !str_split_app_sep, Hsplit.
      cbn [str_split]. rewrite !elem_of_app, !list_elem_of_singleton.
      split; [intros [|]; auto | intros [[|]|]; auto; done].
    + cbv beta iota. change (top +:+ "/" +:+ n) with (top +:+ String "/" n).
      rewrite str_split_app_sep, Hsplit, elem_of_app, list_elem_of_singleton.
      split; intros [|]; auto.
Qed.

(** Below a directory named [logs] every directory has the component. *)
Lemma walk_below_logs (t : dirtree) :
  names_ok t = true → ∀ top, "logs" ∈ str_split "/" top →
  Forall (λ e, "logs" ∈ str_split "/" e.1.1) (walk top t).
Proof.
  induction t as [subdirs files IH] using dirtree_forall_ind.
  intros Hok top Htop. cbn [walk]. apply Forall_cons. split; [done|].
  cbn [names_ok] in Hok.
  induction subdirs as [|p subdirs IHs]; [apply Forall_nil_2|].
  rewrite bind_cons. apply Forall_app.
  cbn [forallb] in Hok. apply andb_true_iff in Hok as [Hp Hok].
  apply andb_true_iff in Hp as [Hname Hsub]. apply negb_true_iff in Hname.
  apply Forall_cons in IH as [IHp IH].
  split.
  - apply IHp; [done|]. apply logs_in_path_join; [done | by left].
  - by apply IHs.
Qed.

Lemma log_files_below_logs (entries : list (string * list string * list string)) :
  Forall (λ e, "logs" ∈ str_split "/" e.1.1) entries →
  entries ≫= entry_log_files = [].
Proof.
  induction 1 as [|[[root dirs] files] entries Hroot _ IH]; [done|].
  rewrite bind_cons, IH. unfold entry_log_files.
  by rewrite bool_decide_eq_true_2.
Qed.

(** The log files of a tree are those of the pruned tree. *)
Lemma walk_prune (t : dirtree) :
  names_ok t = true → ∀ top,
  walk top (prune t) ≫= entry_log_files = walk top t ≫= entry_log_files.
Proof.
  induction t as [subdirs files IH] using dirtree_forall_ind.
  intros Hok top. cbn [walk prune]. rewrite !bind_cons. f_equal.
  cbn [names_ok] in Hok.
  induction subdirs as [|p subdirs IHs]; [done|].
  cbn [forallb] in Hok. apply andb_true_iff in Hok as [Hp Hok].
  apply andb_true_iff in Hp as [Hname Hsub]. apply negb_true_iff in Hname.
  apply Forall_cons in IH as [IHp IH].
  rewrite omap_cons_eq, bind_cons, bind_app.
  destruct (String.eqb_spec p.1 "logs") as [Hlogs | Hother]; cbv beta iota.
  - rewrite (log_files_below_logs (walk (path_join top p.1) p.2)).
    + by apply IHs.
    + apply walk_below_logs; [done|]. apply logs_in_path_join; [done | by right].
  - rewrite bind_cons, bind_app. cbn [fst snd]. f_equal.
    + by apply IHp.
    + by apply IHs.
Qed.

(** ** More on the directory aggregator *)

Lemma io_mapM_first_failure {A B} (f : A → io B) (before : list A) (x : A)
    (after : list A) (ys : list B) (e : exn) :
  Forall2 (λ a y, outcome (f a) = Ok y) before ys →
  outcome (f x) = Raise e →
  mapM f (before ++ x :: after)
  = IO ((before ≫= λ a, output (f a)) ++ output (f x)) (Raise e).
Proof.
  intros Hbefore Hx. induction Hbefore as [|a y before ys Ha _ IH].
  - rewrite app_nil_l, io_mapM_cons. unfold mbind at 1, io_bind.
    by rewrite Hx.
  - rewrite <- app_comm_cons, io_mapM_cons, (io_bind_Ok _ _ _ Ha), IH.
    rewrite bind_cons, <- app_assoc. reflexivity.
Qed.

Lemma io_mapM_outcome_Ok {A B} (f : A → io B) (l : list A) (ys : list B) :
  outcome (mapM f l) = Ok ys → Forall2 (λ a y, outcome (f a) = Ok y) l ys.
Proof.
  revert ys. induction l as [|a l IH]; intros ys H.
  - rewrite io_mapM_nil in H. apply Ok_inj in H. subst ys. constructor.
  - rewrite io_mapM_cons in H.
    apply outcome_bind_Ok in H as (y & Hy & H).
    apply outcome_bind_Ok in H as (k & Hk & H).
    apply Ok_inj in H. subst ys. constructor; [done | by apply IH].
Qed.

Lemma elem_of_concat {A} (x : A) (ls : list (list A)) :
  x ∈ concat ls ↔ ∃ l, x ∈ l ∧ l ∈ ls.
Proof.
  induction ls as [|l ls IH]; simpl.
  - split; [by intros ?%elem_of_nil | by intros (l & _ & ?%elem_of_nil)].
  - rewrite elem_of_app, IH. split.
    + intros [Hx | (l' & Hx & Hl')]; [exists l; split; [done | by left]|].
      exists l'. split; [done | by right].
    + intros (l' & Hx & Hl'). apply elem_of_cons in Hl' as [-> | Hl'];
        [by left | right; by exists l'].
Qed.

Section AggregatorEquation.

Variable json_loads : string → result pyval.
Variable fromisoformat : string → option datetime.
Variable lower_text : string → string.
Variable int_text : string → option Z.
Variable readlines : string → result (list string).
Variable shorten_cpu_name : pyval → result pyval.
Variable py_repr : pyval → string.
Variable listdir : string → option dirtree.

Let parse := parse_log_file json_loads fromisoformat lower_text int_text readlines shorten_cpu_name py_repr.
Let load :=
  load_records_from_directory json_loads fromisoformat lower_text int_text readlines
    shorten_cpu_name py_repr listdir.

(** The two loops as one pass over the log files. *)
Lemma load_records_from_directory_eq log_dir :
  load log_dir
  = (rs ← mapM parse (log_files listdir log_dir); mret (pd_DataFrame (concat rs))).
Proof.
  unfold load, load_records_from_directory.
  rewrite (load_entries_spec json_loads fromisoformat lower_text int_text readlines shorten_cpu_name
             py_repr), io_bind_assoc.
  fold (log_files listdir log_dir). fold parse.
  apply io_bind_ext; intros rs. by rewrite io_bind_ret.
Qed.

(** The table of a load that returns. *)
Lemma load_records_from_directory_Ok log_dir d :
  outcome (load log_dir) = Ok d →
  ∃ rss, Forall2 (λ path rs, outcome (parse path) = Ok rs)
           (log_files listdir log_dir) rss
         ∧ d = pd_DataFrame (concat rss).
Proof.
  rewrite load_records_from_directory_eq. intros H.
  apply outcome_bind_Ok in H as (rss & Hrss & H). apply Ok_inj in H.
  exists rss. split; [by apply io_mapM_outcome_Ok | done].
Qed.

End AggregatorEquation.

Section AggregatorMore.

Variable json_loads : string → result pyval.
Variable fromisoformat : string → option datetime.
Variable lower_text : string → string.
Variable int_text : string → option Z.
Variable readlines : string → result (list string).
Variable shorten_cpu_name : pyval → result pyval.
Variable py_repr : pyval → string.
Variable listdir : string → option dirtree.

Let parse := parse_log_file json_loads fromisoformat lower_text int_text readlines shorten_cpu_name py_repr.
Let load :=
  load_records_from_directory json_loads fromisoformat lower_text int_text readlines
    shorten_cpu_name py_repr listdir.

(** X17: the first log file of the walk whose parsing raises ends the
    load with its exception: there is no table, the files after it are
    not read, and the output is that of the files up to it. *)
Theorem load_records_from_directory_first_failure log_dir before path after rss e :
  log_files listdir log_dir = before ++ path :: after →
  Forall2 (λ p rs, outcome (parse p) = Ok rs) before rss →
  outcome (parse path) = Raise e →
  load log_dir
  = IO ((before ≫= λ p, output (parse p)) ++ output (parse path)) (Raise e).
Proof.
  intros Hfiles Hbefore Hpath. unfold load.
  rewrite load_records_from_directory_eq, Hfiles. fold parse.
  by rewrite (io_mapM_first_failure parse _ _ _ _ _ Hbefore Hpath).
Qed.

(** X18: when a component of [log_dir] itself is [logs], every directory
    of the walk is skipped: the result is the empty table and no file is
    read. *)
Theorem load_records_from_directory_below_logs log_dir :
  "logs" ∈ str_split "/" log_dir →
  (∀ t, listdir log_dir = Some t → names_ok t = true) →
  log_files listdir log_dir = []
  ∧ load log_dir = mret {| columns := ∅; rows := [] |}.
Proof.
  intros Hlogs Hok.
  assert (log_files listdir log_dir = []) as Hnone.
  { unfold log_files, os_walk. destruct (listdir log_dir) as [t|]; [|done].
    apply log_files_below_logs, walk_below_logs; [by apply Hok | done]. }
  split; [done|]. unfold load.
  by rewrite load_records_from_directory_eq, Hnone, io_mapM_nil, io_bind_ret.
Qed.

(** X19: the test of line 222 amounts to pruning: the load is the load of
    the tree from which every directory named [logs] is taken out with
    all that is below it. *)
Theorem load_records_from_directory_prunes log_dir t listdir' :
  listdir log_dir = Some t →
  names_ok t = true →
  listdir' log_dir = Some (prune t) →
  log_files listdir' log_dir = log_files listdir log_dir
  ∧ load_records_from_directory json_loads fromisoformat lower_text int_text readlines
      shorten_cpu_name py_repr listdir' log_dir
    = load log_dir.
Proof.
  intros Ht Hok Ht'.
  assert (log_files listdir' log_dir = log_files listdir log_dir) as Hfiles.
  { unfold log_files, os_walk. rewrite Ht, Ht'. by apply walk_prune. }
  split; [done|]. unfold load.
  by rewrite !load_records_from_directory_eq, Hfiles.
Qed.

(** X20: every row of the table of a load is a record of one of the log
    files; the table has a column for each field of each row, so it has
    the 21 columns of the dict literal, and the metric column of the
    benchmark type of each row. *)
Theorem loaded_table_columns log_dir d r :
  outcome (load log_dir) = Ok d → r ∈ rows d →
  (∃ path records,
     path ∈ log_files listdir log_dir ∧
     outcome (parse path) = Ok records ∧ r ∈ records)
  ∧ (∀ k, is_Some (r !! k) → k ∈ columns d)
  ∧ (∀ k, k ∈ common_keys → k ∈ columns d)
  ∧ (∀ t, r !! "benchmark_type" = Some (PStr t) →
          metric_for_benchmark t ∈ columns d).
Proof.
  intros H Hr.
  destruct (load_records_from_directory_Ok json_loads fromisoformat lower_text int_text readlines
              shorten_cpu_name py_repr listdir _ _ H) as (rss & Hall & ->).
  cbn [rows] in Hr. apply elem_of_concat in Hr as (records & Hr & Hrecords).
  apply list_elem_of_lookup_1 in Hrecords as [i Hi].
  destruct (Forall2_lookup_r _ _ _ _ _ Hall Hi) as (path & Hpath & Hparse).
  apply list_elem_of_lookup_2 in Hpath.
  assert (∀ k, is_Some (r !! k) → k ∈ columns (pd_DataFrame (concat rss))) as Hcols.
  { intros k Hk. cbn [columns]. apply elem_of_union_list.
    exists (dom r). split; [|by apply elem_of_dom].
    apply list_elem_of_fmap. exists r. split; [done|].
    apply elem_of_concat. exists records. split; [done|].
    by apply list_elem_of_lookup_2 in Hi. }
  destruct (parse_log_file_record_origin json_loads fromisoformat lower_text int_text readlines
              shorten_cpu_name py_repr _ _ _ Hparse Hr)
    as (first & rest & meta & m & line & _ & _ & _ & _ & Hbuild).
  destruct (build_record_keys json_loads shorten_cpu_name py_repr _ _ _ _ Hbuild)
    as [Hcommon _].
  split; [by exists path, records|]. split; [done|]. split.
  - intros k Hk. by apply Hcols, Hcommon.
  - intros t Hty. apply Hcols.
    by apply (build_record_metric json_loads shorten_cpu_name py_repr _ _ _ _ _ Hbuild).
Qed.

(** X21: a load that finds no record returns a table without columns, on
    which [filter_full_lifecycle] and [trim_on_benchmark] raise
    [KeyError]. *)
Theorem cleaning_an_empty_load log_dir d (h : heap) (df : loc) quantile
    (remove_cold group_on_timestamp : bool) (benchmark : string) :
  outcome (load log_dir) = Ok d → rows d = [] → h !! df = Some d →
  columns d = ∅
  ∧ (run (filter_full_lifecycle df remove_cold) h).1 = Raise (KeyError "instance_id")
  ∧ (run (trim_on_benchmark quantile df group_on_timestamp benchmark) h).1
    = Raise (KeyError "cpu_type").
Proof.
  intros H Hrows Hdf.
  destruct (load_records_from_directory_Ok json_loads fromisoformat lower_text int_text readlines
              shorten_cpu_name py_repr listdir _ _ H) as (rss & _ & ->).
  change (concat rss = []) in Hrows.
  assert (columns (pd_DataFrame (concat rss)) = ∅) as Hcols.
  { unfold pd_DataFrame. cbn [columns]. by rewrite Hrows. }
  split; [done|]. split.
  - unfold filter_full_lifecycle.
    rewrite run_bind, (run_copy _ _ _ Hdf).
    rewrite run_bind, (run_deref _ _ (pd_DataFrame (concat rss)))
      by apply lookup_insert_eq.
    rewrite run_bind. unfold column. rewrite Hcols.
    by rewrite decide_False by apply not_elem_of_empty.
  - unfold trim_on_benchmark.
    rewrite run_bind, (run_deref _ _ _ Hdf).
    rewrite run_bind. unfold groupby_transform. rewrite Hcols.
    change (["cpu_type"] ++ (if group_on_timestamp then ["timestamp"] else []))
      with ("cpu_type" :: (if group_on_timestamp then ["timestamp"] else [])).
    rewrite filter_cons, decide_True by apply not_elem_of_empty.
    change (rows (pd_DataFrame (concat rss))) with (concat rss). rewrite Hrows.
    rewrite decide_False by (by destruct group_on_timestamp). done.
Qed.

End AggregatorMore.

(** ** The further properties of the aggregator on the example directories *)

Lemma load_records_from_directory_first_failure_witness :
  load_records_from_directory Example.json_loads Example.fromisoformat
    Example.lower_text Example.int_text
    Example.readlines Example.shorten_cpu_name Example.py_repr
    Example.listdir "root/run3"
  = IO (([] ≫= λ p, output (Example.parse p))
        ++ output (Example.parse "root/run3/no_memory.log"))
       (Raise ValueError).
Proof.
  apply (load_records_from_directory_first_failure Example.json_loads
           Example.fromisoformat Example.lower_text Example.int_text Example.readlines Example.shorten_cpu_name
           Example.py_repr Example.listdir "root/run3" []
           "root/run3/no_memory.log" [] [] ValueError).
  - vm_compute. reflexivity.
  - constructor.
  - vm_compute. reflexivity.
Defined.

Lemma archive_is_below_logs : "logs" ∈ str_split "/" "archive/logs".
Proof. apply (bool_decide_unpack _). vm_compute. exact I. Defined.

Lemma archive_names_ok (t : dirtree) :
  Sample.listdir "archive/logs" = Some t → names_ok t = true.
Proof. intros Ht. vm_compute in Ht. injection Ht as <-. reflexivity. Defined.

Lemma load_records_from_directory_below_logs_witness :
  log_files Sample.listdir "archive/logs" = []
  ∧ Sample.load "archive/logs" = mret {| columns := ∅; rows := [] |}.
Proof.
  exact (load_records_from_directory_below_logs Example.json_loads
           Example.fromisoformat Example.lower_text Example.int_text Sample.readlines Example.shorten_cpu_name
           Example.py_repr Sample.listdir "archive/logs"
           archive_is_below_logs archive_names_ok).
Defined.

Lemma load_records_from_directory_prunes_witness :
  log_files (λ _, Some (prune Example.tree)) "root"
  = log_files Example.listdir "root"
  ∧ load_records_from_directory Example.json_loads Example.fromisoformat
      Example.lower_text Example.int_text
      Example.readlines Example.shorten_cpu_name Example.py_repr
      (λ _, Some (prune Example.tree)) "root"
    = load_records_from_directory Example.json_loads Example.fromisoformat
        Example.lower_text Example.int_text
        Example.readlines Example.shorten_cpu_name Example.py_repr
        Example.listdir "root".
Proof.
  apply (load_records_from_directory_prunes Example.json_loads
           Example.fromisoformat Example.lower_text Example.int_text Example.readlines Example.shorten_cpu_name
           Example.py_repr Example.listdir "root" Example.tree
           (λ _, Some (prune Example.tree))); reflexivity.
Defined.

Lemma root_loaded :
  outcome (load_records_from_directory Example.json_loads Example.fromisoformat
             Example.lower_text Example.int_text
             Example.readlines Example.shorten_cpu_name Example.py_repr
             Example.listdir "root")
  = Ok (pd_DataFrame (concat [Example.y_records])).
Proof.
  rewrite load_records_from_directory_eq.
  assert (log_files Example.listdir "root" = ["root/run1/y.log"]) as Hfiles
    by (vm_compute; reflexivity).
  assert (Forall2 (λ path rs, outcome (Example.parse path) = Ok rs)
            (log_files Example.listdir "root") [Example.y_records]) as Hall.
  { rewrite Hfiles. constructor; [exact y_records_parsed | constructor]. }
  by rewrite (io_bind_Ok _ _ _ (io_mapM_Forall2 _ _ _ Hall)).
Defined.

Lemma first_record_loaded :
  Example.first_record ∈ rows (pd_DataFrame (concat [Example.y_records])).
Proof.
  change (Example.first_record ∈ Example.y_records ++ []).
  apply elem_of_app. left. exact first_record_parsed.
Defined.

Lemma loaded_table_columns_witness :
  "cpu_type" ∈ columns (pd_DataFrame (concat [Example.y_records]))
  ∧ metric_for_benchmark "gemm" ∈ columns (pd_DataFrame (concat [Example.y_records])).
Proof.
  destruct (loaded_table_columns Example.json_loads
              Example.fromisoformat Example.lower_text Example.int_text Example.readlines Example.shorten_cpu_name
              Example.py_repr Example.listdir "root"
              (pd_DataFrame (concat [Example.y_records])) Example.first_record
              root_loaded first_record_loaded)
    as (_ & _ & Hcommon & Hmetric).
  split.
  - apply Hcommon. apply (bool_decide_unpack _). vm_compute. exact I.
  - apply Hmetric. exact first_record_is_gemm.
Defined.

Lemma nothing_loaded :
  outcome (Sample.load "data/none") = Ok {| columns := ∅; rows := [] |}.
Proof. vm_compute. reflexivity. Defined.

Lemma cleaning_an_empty_load_witness :
  (run (filter_full_lifecycle 1%positive true)
     (<[1%positive := {| columns := ∅; rows := [] |}]> ∅)).1
  = Raise (KeyError "instance_id")
  ∧ (run (trim_on_benchmark Example.quantile 1%positive true "gemm")
       (<[1%positive := {| columns := ∅; rows := [] |}]> ∅)).1
    = Raise (KeyError "cpu_type").
Proof.
  exact (proj2 (cleaning_an_empty_load Example.json_loads Example.fromisoformat
           Example.lower_text Example.int_text
           Sample.readlines Example.shorten_cpu_name Example.py_repr
           Sample.listdir "data/none" {| columns := ∅; rows := [] |}
           (<[1%positive := {| columns := ∅; rows := [] |}]> ∅) 1%positive
           Example.quantile true true "gemm"
           nothing_loaded eq_refl (lookup_insert_eq _ _ _))).
Defined.
